(** * ezdxf DXF browser: indices, history and search (addons/browser/data.py)

    A shallow embedding of [DXFDocument], [HandleIndex], [LineIndex],
    [get_row_from_line_number], [EntityHistory] and [SearchIndex] together
    with the properties stated about them.

    Conventions of the embedding
    - Python objects that are compared or keyed by identity ([id(entity)],
      [a is b]) are heap objects: a [Tags] record is a reference [ObjRef]
      into an object store, a [DXFTag] carries its identity in [tag_id].
    - Python integers are [Z]; exceptions are values of [result].
    - Strings are Stdlib strings; the case mappings act on ASCII letters. *)

From Stdlib Require Import ZArith NArith List Ascii String Sorted Lia.
From Stdlib Require Import DecimalString Hexadecimal HexadecimalN.
From stdpp Require Import base option list gmap strings.

Open Scope Z_scope.

(** ** Python runtime: exceptions, indexing, strings *)

Module Py.

Inductive exn := ValueError | IndexError | AttributeError | TypeError.

Inductive result (A : Type) : Type :=
| Ok (a : A)
| Raise (e : exn).
Arguments Ok {A} a.
Arguments Raise {A} e.

#[export] Instance result_ret : MRet result := fun A a => Ok a.
#[export] Instance result_bind : MBind result := fun A B f m =>
  match m with
  | Ok a => f a
  | Raise e => Raise e
  end.

(** [l[i]] with Python's negative indices; out of range raises IndexError. *)
Definition getitem {A} (l : list A) (i : Z) : result A :=
  let n := Z.of_nat (length l) in
  let j := if i <? 0 then i + n else i in
  if (0 <=? j) && (j <? n) then
    match l !! Z.to_nat j with
    | Some x => Ok x
    | None => Raise IndexError
    end
  else Raise IndexError.

Definition upper_ascii (c : ascii) : ascii :=
  let n := nat_of_ascii c in
  if ((97 <=? n) && (n <=? 122))%nat then ascii_of_nat (n - 32) else c.

Definition lower_ascii (c : ascii) : ascii :=
  let n := nat_of_ascii c in
  if ((65 <=? n) && (n <=? 90))%nat then ascii_of_nat (n + 32) else c.

Fixpoint str_map (f : ascii -> ascii) (s : string) : string :=
  match s with
  | EmptyString => EmptyString
  | String c s' => String (f c) (str_map f s')
  end.

(** [s.upper()] and [s.lower()]. *)
Definition upper (s : string) : string := str_map upper_ascii s.
Definition lower (s : string) : string := str_map lower_ascii s.

(** The digits of [f"{n:X}"], most significant first. *)
Fixpoint hex_digits (d : Hexadecimal.uint) : string :=
  match d with
  | Hexadecimal.Nil => EmptyString
  | Hexadecimal.D0 d => String "0" (hex_digits d)
  | Hexadecimal.D1 d => String "1" (hex_digits d)
  | Hexadecimal.D2 d => String "2" (hex_digits d)
  | Hexadecimal.D3 d => String "3" (hex_digits d)
  | Hexadecimal.D4 d => String "4" (hex_digits d)
  | Hexadecimal.D5 d => String "5" (hex_digits d)
  | Hexadecimal.D6 d => String "6" (hex_digits d)
  | Hexadecimal.D7 d => String "7" (hex_digits d)
  | Hexadecimal.D8 d => String "8" (hex_digits d)
  | Hexadecimal.D9 d => String "9" (hex_digits d)
  | Hexadecimal.Da d => String "A" (hex_digits d)
  | Hexadecimal.Db d => String "B" (hex_digits d)
  | Hexadecimal.Dc d => String "C" (hex_digits d)
  | Hexadecimal.Dd d => String "D" (hex_digits d)
  | Hexadecimal.De d => String "E" (hex_digits d)
  | Hexadecimal.Df d => String "F" (hex_digits d)
  end.

(** [f"{n:X}"]: upper-case hexadecimal, with a sign for negative numbers. *)
Definition format_X (n : Z) : string :=
  if n <? 0 then String "-" (hex_digits (N.to_hex_uint (Z.to_N (- n))))
  else hex_digits (N.to_hex_uint (Z.to_N n)).

(** [str(n)] for an integer. *)
Definition str_int (n : Z) : string :=
  DecimalString.NilEmpty.string_of_int (Z.to_int n).

(** [needle in hay] for strings. *)
Fixpoint str_contains (needle hay : string) : bool :=
  String.prefix needle hay ||
  match hay with
  | EmptyString => false
  | String _ hay' => str_contains needle hay'
  end.

Definition is_space (c : ascii) : bool :=
  let n := nat_of_ascii c in
  (((9 <=? n) && (n <=? 13)) || ((28 <=? n) && (n <=? 32)))%nat.

Definition flush_word (word : string) (words : list string) : list string :=
  match word with
  | EmptyString => words
  | _ => word :: words
  end.

Fixpoint split_from (word : string) (s : string) : list string :=
  match s with
  | EmptyString => flush_word word []
  | String c s' =>
      if is_space c then flush_word word (split_from EmptyString s')
      else split_from (word +:+ String c EmptyString) s'
  end.

(** [s.split()]: the words between runs of whitespace. *)
Definition split (s : string) : list string := split_from EmptyString s.

(** An insertion-ordered [dict] with string keys: assigning to a key that is
    present replaces the value in place, a new key goes to the end. *)
Fixpoint dict_set {V} (k : string) (v : V) (d : list (string * V)) : list (string * V) :=
  match d with
  | [] => [(k, v)]
  | (k', v') :: d' =>
      if String.eqb k k' then (k', v) :: d' else (k', v') :: dict_set k v d'
  end.

Fixpoint dict_get {V} (k : string) (d : list (string * V)) : option V :=
  match d with
  | [] => None
  | (k', v') :: d' => if String.eqb k k' then Some v' else dict_get k d'
  end.

Definition dict_values {V} (d : list (string * V)) : list V := map snd d.

End Py.
Import Py.

(** ** Data model *)

(** The identity of a Python object. *)
Abbreviation ObjRef := nat.

(** A tag value: a string, an integer, or a float. Floating point arithmetic
    is not modelled: of a float only the text that [str()] gives is kept. *)
Inductive Value :=
| VStr (s : string)
| VInt (z : Z)
| VFloat (text : string).

(** [str(value)]. *)
Definition str (v : Value) : string :=
  match v with
  | VStr s => s
  | VInt z => Py.str_int z
  | VFloat text => text
  end.

Record DXFTag := { tag_id : ObjRef; code : Z; value : Value }.

(** The content of a [Tags] object: a list of tags. *)
Abbreviation Tags := (list DXFTag).

(** A [SectionDict]: section name to the records of the section, in file
    order. The records are references to [Tags] objects. *)
Abbreviation SectionDict := (list (string * list ObjRef)).

(** The object store: the content of every [Tags] object. The indices never
    change a record, only hold references to it. *)
Class ObjectStore := { heap : ObjRef -> Tags }.

Inductive TagType := type_str | type_int | type_float | type_point.

(** What the module imports from ezdxf.lldxf, whose source is not part of
    the reviewed files: handle extraction of a record ([None] stands for the
    ValueError it raises), the value type of a group code, and the
    comparisons of two tags. *)
Class LLDXF := {
  Tags_get_handle : Tags -> option string;
  tag_type : Z -> TagType;
  tag_eq : DXFTag -> DXFTag -> bool;
  tag_lt : DXFTag -> DXFTag -> result bool
}.

(** [len(entity)]. *)
Definition len {store : ObjectStore} (entity : ObjRef) : Z := Z.of_nat (length (heap entity)).

(** An element of a line index: the tuple [(start_line_number, entity)]. *)
Abbreviation Line := (Z * ObjRef)%type.

(** ** LineIndex *)

Module LineIndex.
Section Defs.
Context {store : ObjectStore} {ezdxf : LLDXF}.

(** Equality of two list items as list and tuple comparison test it:
    identity first, then [==]. *)
Definition item_eq (a b : DXFTag) : bool :=
  Nat.eqb (tag_id a) (tag_id b) || tag_eq a b.

(** [x == y] for two lists of tags. *)
Fixpoint list_eq (x y : Tags) : bool :=
  match x, y with
  | [], [] => true
  | a :: x', b :: y' => item_eq a b && list_eq x' y'
  | _, _ => false
  end.

(** [x < y] for two lists of tags: the first items that differ decide, else
    the shorter list is the smaller one. *)
Fixpoint list_lt (x y : Tags) : result bool :=
  match x, y with
  | [], [] => Ok false
  | [], _ :: _ => Ok true
  | _ :: _, [] => Ok false
  | a :: x', b :: y' => if item_eq a b then list_lt x' y' else tag_lt a b
  end.

(** [a < b] for two tuples [(start_line_number, entity)]. *)
Definition tuple_lt (a b : Line) : result bool :=
  let '(s1, e1) := a in
  let '(s2, e2) := b in
  if negb (s1 =? s2) then Ok (s1 <? s2)
  else if Nat.eqb e1 e2 || list_eq (heap e1) (heap e2) then Ok false
  else list_lt (heap e1) (heap e2).

(** [index.sort()]: a stable sort by [<], which raises when a comparison
    raises. An item goes behind the items that are smaller than it and stays
    in front of the others. On a list that is in order only neighbours are
    compared, as in the run detection of the list sort. *)
Fixpoint insert (x : Line) (l : list Line) : result (list Line) :=
  match l with
  | [] => Ok [x]
  | y :: l' =>
      b ← tuple_lt y x;
      if b : bool then r ← insert x l'; Ok (y :: r) else Ok (x :: y :: l')
  end.

Fixpoint sort (l : list Line) : result (list Line) :=
  match l with
  | [] => Ok []
  | x :: l' => s ← sort l'; insert x s
  end.

(** [index[id(entity)] = line_number, entity], for the tuple [line]. *)
Definition index_line (index : gmap ObjRef Line) (line : Line) : gmap ObjRef Line :=
  <[snd line := line]> index.

(** The body of the inner loop of [build_entity_index]. *)
Definition entity_index_step (st : Z * gmap ObjRef Line) (entity : ObjRef)
  : Z * gmap ObjRef Line :=
  let '(line_number, index) := st in
  (line_number + len entity * 2, index_line index (line_number, entity)).

Definition build_entity_index (sections : SectionDict) : gmap ObjRef Line :=
  snd (fold_left
         (fun st section =>
            let '(line_number, index) := fold_left entity_index_step (snd section) st in
            (line_number + 2, index))
         sections (1, ∅)).

(** The body of the inner loop of [build_line_index]. *)
Definition line_index_step (st : Z * list Line) (entity : ObjRef) : Z * list Line :=
  let '(start_line_number, index) := st in
  (start_line_number + len entity * 2, index ++ [(start_line_number, entity)]).

(** The index before it is sorted, and the line number after the last section. *)
Definition line_index_loop (sections : SectionDict) : Z * list Line :=
  fold_left
    (fun st section =>
       let '(start_line_number, index) := fold_left line_index_step (snd section) st in
       (start_line_number + 2, index))
    sections (1, []).

Definition build_line_index (sections : SectionDict) : result (list Line) :=
  sort (snd (line_index_loop sections)).

Record t := {
  _entity_index : gmap ObjRef Line;
  _line_index : list Line;
  _max_line_number : Z
}.

(** [LineIndex(sections)]. *)
Definition new (sections : SectionDict) : result t :=
  index ← build_line_index sections;
  Ok {| _entity_index := build_entity_index sections;
        _line_index := index;
        _max_line_number :=
          match last index with
          | Some (last_start_number, e) => last_start_number + len e * 2 - 1
          | None => 1
          end |}.

Definition max_line_number (self : t) : Z := _max_line_number self.

Definition get_start_line_for_entity (self : t) (entity : ObjRef) : Z :=
  match _entity_index self !! entity with
  | Some entry => fst entry
  | None => 0
  end.

(** The loop of [get_entity_at_line]; [entity] is the record seen last. *)
Fixpoint scan (number : Z) (entity : ObjRef) (index : list Line) : ObjRef :=
  match index with
  | [] => entity
  | (start, e) :: rest => if start >? number then entity else scan number e rest
  end.

Definition get_entity_at_line (self : t) (number : Z) : option ObjRef :=
  match _line_index self with
  | [] => None
  | (_, entity) :: _ => Some (scan number entity (_line_index self))
  end.

End Defs.
End LineIndex.

(** ** HandleIndex *)

Module HandleIndex.

(** A reference to an [IndexEntry] object: its position in the store of
    entries, which is the order of creation. *)
Abbreviation EntryRef := nat.

Record IndexEntry := {
  tags : ObjRef;
  handle : option string;
  start_line_number : Z;
  prev : option EntryRef;
  next : option EntryRef
}.

Definition set_prev (e : IndexEntry) (p : option EntryRef) : IndexEntry :=
  {| tags := tags e; handle := handle e; start_line_number := start_line_number e;
     prev := p; next := next e |}.

Definition set_next (e : IndexEntry) (n : option EntryRef) : IndexEntry :=
  {| tags := tags e; handle := handle e; start_line_number := start_line_number e;
     prev := prev e; next := n |}.

(** The local variables of [_build], and the store of the [IndexEntry]
    objects created so far. *)
Record BuildState := {
  b_start_line_number : Z;
  b_dummy_handle : Z;
  b_entity_index : list (string * EntryRef);
  b_prev_entity : option EntryRef;
  b_entries : list IndexEntry
}.

Record t := {
  _index : list (string * EntryRef);
  _max_line_number : Z;
  entries : list IndexEntry
}.

(** The entry an [_index] value refers to. Every reference held by a built
    index is inside the store ([build_refs_valid]); the entry given for a
    reference outside it is never read. *)
Definition deref (store : list IndexEntry) (r : EntryRef) : IndexEntry :=
  default {| tags := 0%nat; handle := None; start_line_number := 0;
             prev := None; next := None |} (store !! r).

Section Defs.
Context {store : ObjectStore} {ezdxf : LLDXF}.

(** The handle the build gives a record, and the next dummy handle. *)
Definition assign_handle (dummy_handle : Z) (tags : ObjRef) : string * Z :=
  let '(handle, dummy_handle) :=
    match Tags_get_handle (heap tags) with
    | Some handle => (handle, dummy_handle)
    | None => (String "*" (format_X dummy_handle), dummy_handle + 1)
    end in
  (upper handle, dummy_handle).

(** The body of the inner loop of [_build]. *)
Definition build_step (st : BuildState) (tags : ObjRef) : BuildState :=
  let '(handle, dummy_handle) := assign_handle (b_dummy_handle st) tags in
  let new_entity : EntryRef := length (b_entries st) in
  let store :=
    b_entries st ++ [{| tags := tags; handle := Some handle;
                        start_line_number := b_start_line_number st;
                        prev := None; next := None |}] in
  let store :=
    match b_prev_entity st with
    | Some prev_entity =>
        alter (fun e => set_next e (Some new_entity)) prev_entity
          (alter (fun e => set_prev e (Some prev_entity)) new_entity store)
    | None => store
    end in
  {| b_start_line_number := b_start_line_number st + len tags * 2;
     b_dummy_handle := dummy_handle;
     b_entity_index := dict_set handle new_entity (b_entity_index st);
     b_prev_entity := Some new_entity;
     b_entries := store |}.

Definition build_section (st : BuildState) (section : list ObjRef) : BuildState :=
  let st := fold_left build_step section st in
  {| b_start_line_number := b_start_line_number st + 2;
     b_dummy_handle := b_dummy_handle st;
     b_entity_index := b_entity_index st;
     b_prev_entity := b_prev_entity st;
     b_entries := b_entries st |}.

Definition build_loop (sections : SectionDict) : BuildState :=
  fold_left (fun st section => build_section st (snd section)) sections
    {| b_start_line_number := 1; b_dummy_handle := 1; b_entity_index := [];
       b_prev_entity := None; b_entries := [] |}.

(** [HandleIndex(sections)]: [__init__] and [_build]. *)
Definition new (sections : SectionDict) : t :=
  let st := build_loop sections in
  {| _index := b_entity_index st;
     _max_line_number := b_start_line_number st - 3;
     entries := b_entries st |}.

(** [self._index.values()], in the order of the dict. *)
Definition values (self : t) : list IndexEntry :=
  map (deref (entries self)) (dict_values (_index self)).

(** [handle in self]. *)
Definition contains (self : t) (handle : string) : bool :=
  match dict_get (upper handle) (_index self) with
  | Some _ => true
  | None => false
  end.

Definition max_line_number (self : t) : Z := _max_line_number self.

Definition get (self : t) (handle : string) : option ObjRef :=
  match dict_get (upper handle) (_index self) with
  | Some entity => Some (tags (deref (entries self) entity))
  | None => None
  end.

(** The test of the dummy handle scan: [len(tags) and tags[0] is first_tag]. *)
Definition first_tag_is (first_tag : DXFTag) (e : IndexEntry) : bool :=
  match heap (tags e) with
  | [] => false
  | tag0 :: _ => Nat.eqb (tag_id tag0) (tag_id first_tag)
  end.

Definition get_handle (self : t) (entity : ObjRef) : option string :=
  match heap entity with
  | [] => None
  | first_tag :: _ =>
      match Tags_get_handle (heap entity) with
      | Some handle => Some handle
      | None =>
          fst <$> List.find
                    (fun item => first_tag_is first_tag (deref (entries self) (snd item)))
                    (_index self)
      end
  end.

(** [next_entity]; reading [.next] of [None] raises AttributeError. *)
Definition next_entity (self : t) (entity : ObjRef) : result ObjRef :=
  match get_handle self entity with
  | Some handle =>
      match dict_get handle (_index self) with
      | Some dxf_entity =>
          match next (deref (entries self) dxf_entity) with
          | Some next_entity => Ok (tags (deref (entries self) next_entity))
          | None => Ok entity
          end
      | None => Raise AttributeError
      end
  | None => Ok entity
  end.

Definition previous_entity (self : t) (entity : ObjRef) : result ObjRef :=
  match get_handle self entity with
  | Some handle =>
      match dict_get handle (_index self) with
      | Some dxf_entity =>
          match prev (deref (entries self) dxf_entity) with
          | Some prev_entity => Ok (tags (deref (entries self) prev_entity))
          | None => Ok entity
          end
      | None => Raise AttributeError
      end
  | None => Ok entity
  end.

Definition get_start_line_for_entity (self : t) (entity : ObjRef) : Z :=
  match get_handle self entity with
  | Some handle =>
      match dict_get handle (_index self) with
      | Some entry => start_line_number (deref (entries self) entry)
      | None => 0
      end
  | None => 0
  end.

(** The loop of [get_entity_at_line]; [tags0] is the record seen last. *)
Fixpoint scan (number : Z) (tags0 : option ObjRef) (entries : list IndexEntry)
  : option ObjRef :=
  match entries with
  | [] => tags0
  | entry :: rest =>
      if start_line_number entry >? number then tags0
      else scan number (Some (tags entry)) rest
  end.

Definition get_entity_at_line (self : t) (number : Z) : option ObjRef :=
  scan number None (values self).

End Defs.
End HandleIndex.
Arguments HandleIndex.new {store ezdxf} sections : simpl never.

(** ** EntityHistory *)

Module EntityHistory.

Record t := {
  _history : list ObjRef;
  _index : Z;
  _time_travel : list ObjRef
}.

Definition new : t := {| _history := []; _index := 0; _time_travel := [] |}.

Definition clear (self : t) : t := new.

Definition content (self : t) : list ObjRef := _history self.

Definition append (self : t) (entity : ObjRef) : t :=
  let self :=
    match _time_travel self with
    | [] => self
    | _ :: _ =>
        {| _history := _history self ++ _time_travel self;
           _index := _index self;
           _time_travel := [] |}
    end in
  let count := Z.of_nat (length (_history self)) in
  match last (_history self) with
  | Some last_entity =>
      (* only append if different to last entity *)
      if Nat.eqb last_entity entity then self
      else {| _history := _history self ++ [entity]; _index := count;
              _time_travel := _time_travel self |}
  | None =>
      {| _history := _history self ++ [entity]; _index := count;
         _time_travel := _time_travel self |}
  end.

(** [_time_wrap]; the state after an IndexError is not kept. *)
Definition _time_wrap (self : t) (index : Z) : result (ObjRef * t) :=
  entity ← getitem (_history self) index;
  Ok (entity, {| _history := _history self; _index := index;
                 _time_travel := _time_travel self ++ [entity] |}).

Definition back (self : t) : result (option ObjRef * t) :=
  match _history self with
  | [] => Ok (None, self)
  | first :: _ =>
      let index := _index self - 1 in
      if 0 <=? index then
        '(entity, self) ← _time_wrap self index; Ok (Some entity, self)
      else Ok (Some first, self)
  end.

Definition forward (self : t) : result (option ObjRef * t) :=
  match last (_history self) with
  | None => Ok (None, self)
  | Some last_entity =>
      let index := _index self + 1 in
      if index <? Z.of_nat (length (_history self)) then
        '(entity, self) ← _time_wrap self index; Ok (Some entity, self)
      else Ok (Some last_entity, self)
  end.

(** [len(self)] and the [index] property. *)
Definition __len__ (self : t) : Z := Z.of_nat (length (_history self)).

Definition index (self : t) : Z := _index self.

(** The cursor of a history that was made by [EntityHistory()] and changed
    by its methods only: it is the index of an entry, or 0 in an empty
    history. *)
Definition cursor_ok (self : t) : Prop :=
  0 <= _index self /\
  (_index self < Z.of_nat (length (_history self)) \/
   (_history self = [] /\ _index self = 0)).

End EntityHistory.

(** ** SearchIndex *)

Module SearchIndex.

Record t := {
  entities : list ObjRef;
  _current_entity_index : Z;
  _current_tag_index : Z;
  _search_term : option string;
  _search_term_lower : option string;
  _backward : bool;
  _end_of_index : bool;
  case_insensitive : bool;
  whole_words : bool;
  numbers : bool;
  regex : bool
}.

Definition NOT_FOUND : option ObjRef * Z := (None, -1).

(** [SearchIndex(entities)]. *)
Definition new (entities : list ObjRef) : t :=
  {| entities := entities; _current_entity_index := 0; _current_tag_index := 0;
     _search_term := None; _search_term_lower := None; _backward := false;
     _end_of_index := match entities with [] => true | _ => false end;
     case_insensitive := true; whole_words := false; numbers := false;
     regex := false |}.

Definition set_cursor (self : t) (entity_index tag_index : Z) : t :=
  {| entities := entities self; _current_entity_index := entity_index;
     _current_tag_index := tag_index; _search_term := _search_term self;
     _search_term_lower := _search_term_lower self; _backward := _backward self;
     _end_of_index := _end_of_index self;
     case_insensitive := case_insensitive self; whole_words := whole_words self;
     numbers := numbers self; regex := regex self |}.

Definition set_end_of_index (self : t) (flag : bool) : t :=
  {| entities := entities self;
     _current_entity_index := _current_entity_index self;
     _current_tag_index := _current_tag_index self;
     _search_term := _search_term self;
     _search_term_lower := _search_term_lower self; _backward := _backward self;
     _end_of_index := flag;
     case_insensitive := case_insensitive self; whole_words := whole_words self;
     numbers := numbers self; regex := regex self |}.

Definition reset_search_term (self : t) (term : string) : t :=
  {| entities := entities self;
     _current_entity_index := _current_entity_index self;
     _current_tag_index := _current_tag_index self;
     _search_term := Some term;
     _search_term_lower := Some (lower term); _backward := _backward self;
     _end_of_index := _end_of_index self;
     case_insensitive := case_insensitive self; whole_words := whole_words self;
     numbers := numbers self; regex := regex self |}.

(** What a move of the cursor leaves as it is: the records, the search term
    and the matching flags. *)
Definition same_settings (a b : t) : Prop :=
  entities a = entities b /\
  _search_term a = _search_term b /\
  _search_term_lower a = _search_term_lower b /\
  case_insensitive a = case_insensitive b /\
  whole_words a = whole_words b /\
  numbers a = numbers b.

Section Defs.
Context {store : ObjectStore} {ezdxf : LLDXF}.

Definition current_entity (self : t) : result (option ObjRef * Z) :=
  match entities self with
  | [] => Ok NOT_FOUND
  | _ :: _ =>
      if _end_of_index self then Ok NOT_FOUND
      else
        entity ← getitem (entities self) (_current_entity_index self);
        Ok (Some entity, _current_tag_index self)
  end.

Definition reset_cursor (self : t) (backward : bool) : t :=
  let self := set_cursor self 0 0 in
  let count := Z.of_nat (length (entities self)) in
  match last (entities self) with
  | Some entity =>
      let self := set_end_of_index self false in
      if backward then set_cursor self (count - 1) (len entity - 1) else self
  | None => set_end_of_index self true
  end.

Definition move_cursor_forward (self : t) : result t :=
  match entities self with
  | [] => Ok self
  | _ :: _ =>
      entity ← getitem (entities self) (_current_entity_index self);
      let tag_index := _current_tag_index self + 1 in
      if tag_index >=? len entity then
        let entity_index := _current_entity_index self + 1 in
        if entity_index <? Z.of_nat (length (entities self)) then
          Ok (set_cursor self entity_index 0)
        else Ok (set_end_of_index self true)
      else Ok (set_cursor self (_current_entity_index self) tag_index)
  end.

Definition move_cursor_backward (self : t) : result t :=
  match entities self with
  | [] => Ok self
  | _ :: _ =>
      let tag_index := _current_tag_index self - 1 in
      if tag_index <? 0 then
        let entity_index := _current_entity_index self - 1 in
        if entity_index >=? 0 then
          entity ← getitem (entities self) entity_index;
          Ok (set_cursor self entity_index (len entity - 1))
        else Ok (set_end_of_index self true)
      else Ok (set_cursor self (_current_entity_index self) tag_index)
  end.

(** [search_term == word], where the search term may be [None]. *)
Definition term_eq (search_term : option string) (word : string) : bool :=
  match search_term with
  | Some term => String.eqb term word
  | None => false
  end.

Definition _match (self : t) (code : Z) (value : Value) : result bool :=
  let is_str := match tag_type code with type_str => true | _ => false end in
  if negb is_str && negb (numbers self) then Ok false
  else
    let value := if is_str then value else VStr (str value) in
    '(search_term, value) ←
      (if case_insensitive self then
         match value with
         | VStr s => Ok (_search_term_lower self, VStr (lower s))
         | _ => Raise AttributeError
         end
       else Ok (_search_term self, value));
    if whole_words self then
      match value with
      | VStr s => Ok (existsb (term_eq search_term) (split s))
      | _ => Raise AttributeError
      end
    else
      match value, search_term with
      | VStr s, Some term => Ok (str_contains term s)
      | _, _ => Raise TypeError
      end.

(** The while loop of [_find]. [None] when [fuel] iterations did not end it. *)
Fixpoint find_loop (fuel : nat) (move_cursor : t -> result t) (self : t)
  : option (result ((option ObjRef * Z) * t)) :=
  if _end_of_index self then Some (Ok (NOT_FOUND, self))
  else
    match fuel with
    | O => None
    | S fuel =>
        match current_entity self with
        | Raise e => Some (Raise e)
        | Ok (entity, tag_index) =>
            match move_cursor self with
            | Raise e => Some (Raise e)
            | Ok self =>
                match entity with
                | None => Some (Raise TypeError)
                | Some entity =>
                    match getitem (heap entity) tag_index with
                    | Raise e => Some (Raise e)
                    | Ok tag =>
                        match _match self (code tag) (value tag) with
                        | Raise e => Some (Raise e)
                        | Ok true => Some (Ok ((Some entity, tag_index), self))
                        | Ok false => find_loop fuel move_cursor self
                        end
                    end
                end
            end
        end
    end.

Definition truthy (s : option string) : bool :=
  match s with
  | Some (String _ _) => true
  | _ => false
  end.

Definition _find (fuel : nat) (move_cursor : t -> result t) (self : t)
  : option (result ((option ObjRef * Z) * t)) :=
  match entities self with
  | _ :: _ =>
      if truthy (_search_term self) && negb (_end_of_index self) then
        find_loop fuel move_cursor self
      else Some (Ok (NOT_FOUND, self))
  | [] => Some (Ok (NOT_FOUND, self))
  end.

Definition find_forward (fuel : nat) (self : t) := _find fuel move_cursor_forward self.

Definition find_backwards (fuel : nat) (self : t) := _find fuel move_cursor_backward self.

(** [find(term, backward, reset_index)]: the result and the index after it. *)
Definition find (fuel : nat) (self : t) (term : string) (backward reset_index : bool)
  : option (result ((option ObjRef * Z) * t)) :=
  let self := reset_search_term self term in
  let self := if reset_index then reset_cursor self backward else self in
  match entities self with
  | _ :: _ =>
      if negb (_end_of_index self) then
        if backward then find_backwards fuel self else find_forward fuel self
      else Some (Ok (NOT_FOUND, self))
  | [] => Some (Ok (NOT_FOUND, self))
  end.

(** A number of iterations after which the loop of [_find] has ended,
    whatever the cursor: every iteration that does not end the search moves
    the cursor one tag or one record on, and a cursor outside the records
    raises IndexError. *)
Definition tags_bound (entities : list ObjRef) : Z :=
  1 + fold_right (fun entity n => len entity + n) 0 entities.

(** What an iteration that goes on lowers, forward and backward. *)
Definition forward_measure (s : t) : Z :=
  (Z.of_nat (length (entities s)) - _current_entity_index s)
  * (2 * tags_bound (entities s) + 1)
  + (tags_bound (entities s) - _current_tag_index s).

Definition backward_measure (s : t) : Z :=
  (Z.of_nat (length (entities s)) + _current_entity_index s)
  * (2 * tags_bound (entities s) + 1)
  + (tags_bound (entities s) + _current_tag_index s).

Definition enough_fuel (self : t) : nat :=
  Z.to_nat ((2 * Z.of_nat (length (entities self)) + 1)
            * (2 * tags_bound (entities self) + 1) + 1).

Definition is_end_of_index (self : t) : bool := _end_of_index self.

Definition search_term (self : t) : option string := _search_term self.

Definition cursor (self : t) : Z * Z :=
  (_current_entity_index self, _current_tag_index self).

(** [self.entities = entities]. *)
Definition set_entities (self : t) (entities : list ObjRef) : t :=
  {| entities := entities;
     _current_entity_index := _current_entity_index self;
     _current_tag_index := _current_tag_index self;
     _search_term := _search_term self;
     _search_term_lower := _search_term_lower self; _backward := _backward self;
     _end_of_index := _end_of_index self;
     case_insensitive := case_insensitive self; whole_words := whole_words self;
     numbers := numbers self; regex := regex self |}.

(** [x == entity] as [list.index] tests it: the same object, or two lists
    with equal tags. *)
Definition entity_eq (x entity : ObjRef) : bool :=
  Nat.eqb x entity || LineIndex.list_eq (heap x) (heap entity).

(** [l.index(entity)]; [None] stands for the ValueError. *)
Fixpoint list_index (entity : ObjRef) (l : list ObjRef) : option Z :=
  match l with
  | [] => None
  | x :: l' =>
      if entity_eq x entity then Some 0 else Z.succ <$> list_index entity l'
  end.

Definition set_current_entity (self : t) (entity : ObjRef) (tag_index : Z) : t :=
  let self := set_cursor self (_current_entity_index self) tag_index in
  match list_index entity (entities self) with
  | Some i => set_cursor self i (_current_tag_index self)
  | None => reset_cursor self false
  end.

(** [update_entities]; a record without tags is false in [if current_entity]. *)
Definition update_entities (self : t) (entities : list ObjRef) : result t :=
  '(current_entity, index) ← current_entity self;
  let self := set_entities self entities in
  match current_entity with
  | Some entity =>
      match heap entity with
      | [] => Ok self
      | _ :: _ => Ok (set_current_entity self entity index)
      end
  | None => Ok self
  end.

(** The positions [(record, tag index)] of the tags of [entity] from the tag
    [from] on, and the positions of an index from the cursor
    [(entity_index, tag_index)] on, in file order. *)
Definition entity_positions (entity : ObjRef) (from : nat) : list (ObjRef * Z) :=
  map (fun i => (entity, Z.of_nat i)) (seq from (length (heap entity) - from)).

Definition positions_from (entities : list ObjRef) (entity_index tag_index : nat)
  : list (ObjRef * Z) :=
  match drop entity_index entities with
  | [] => []
  | entity :: rest =>
      entity_positions entity tag_index
        ++ concat (map (fun e => entity_positions e 0) rest)
  end.

(** The tag at a position matches. *)
Definition position_matches (self : t) (p : ObjRef * Z) : bool :=
  match getitem (heap (fst p)) (snd p) with
  | Ok tag =>
      match _match self (code tag) (value tag) with
      | Ok true => true
      | _ => false
      end
  | Raise _ => false
  end.

(** The positions from the tag [tag_index] of the record [entity_index] back
    to the first tag of the first record, last position first. *)
Definition positions_back (entities : list ObjRef) (entity_index tag_index : nat)
  : list (ObjRef * Z) :=
  match entities !! entity_index with
  | None => []
  | Some entity =>
      map (fun i => (entity, Z.of_nat i)) (rev (seq 0 (S tag_index)))
        ++ concat (map (fun e => rev (entity_positions e 0))
                     (rev (take entity_index entities)))
  end.

(** The result of a search that scans the positions [ps] in this order. *)
Definition first_match (self : t) (ps : list (ObjRef * Z)) : option ObjRef * Z :=
  match List.find (position_matches self) ps with
  | Some (entity, tag_index) => (Some entity, tag_index)
  | None => NOT_FOUND
  end.

(** The cursor is at the tag [tag_index] of the record [entity], which is
    the record [entity_index] of the index, and the end is not reached. *)
Definition cursor_at (self : t) (entity_index tag_index : nat) (entity : ObjRef)
  : Prop :=
  _end_of_index self = false /\
  _current_entity_index self = Z.of_nat entity_index /\
  _current_tag_index self = Z.of_nat tag_index /\
  entities self !! entity_index = Some entity /\
  (tag_index < length (heap entity))%nat.

(** Records as the loader of ezdxf gives them: every record has a tag, and
    a tag of a string group code holds a string. *)
Definition loaded (entities : list ObjRef) : Prop :=
  forall entity, entity ∈ entities ->
    heap entity <> [] /\
    forall tag, tag ∈ heap entity ->
      tag_type (code tag) = type_str -> exists s, value tag = VStr s.

(** [self.whole_words = flag]. *)
Definition set_whole_words (self : t) (flag : bool) : t :=
  {| entities := entities self;
     _current_entity_index := _current_entity_index self;
     _current_tag_index := _current_tag_index self;
     _search_term := _search_term self;
     _search_term_lower := _search_term_lower self; _backward := _backward self;
     _end_of_index := _end_of_index self;
     case_insensitive := case_insensitive self; whole_words := flag;
     numbers := numbers self; regex := regex self |}.

End Defs.
End SearchIndex.

(** ** DXFDocument *)

Module DXFDocument.

Record t := {
  sections : SectionDict;
  handle_index : option HandleIndex.t;
  line_index : option LineIndex.t;
  filename : string
}.

Section Defs.
Context {store : ObjectStore} {ezdxf : LLDXF}.

(** [update(sections)]; the document after an exception is not kept. *)
Definition update (self : t) (sections : SectionDict) : result t :=
  let handle_index := HandleIndex.new sections in
  line_index ← LineIndex.new sections;
  Ok {| sections := sections;
        handle_index := Some handle_index;
        line_index := Some line_index;
        filename := filename self |}.

(** [DXFDocument(sections)]; [None] and the empty mapping build no index. *)
Definition new (sections : option SectionDict) : result t :=
  let self :=
    {| sections := []; handle_index := None; line_index := None;
       filename := EmptyString |} in
  match sections with
  | Some (section :: rest) => update self (section :: rest)
  | _ => Ok self
  end.

Definition max_line_number (self : t) : Z :=
  match line_index self with
  | Some line_index => LineIndex.max_line_number line_index
  | None => 1
  end.

(** [self.sections.get(name)]. *)
Fixpoint sections_get (name : string) (sections : SectionDict) : option (list ObjRef) :=
  match sections with
  | [] => None
  | (name', section) :: rest =>
      if String.eqb name name' then Some section else sections_get name rest
  end.

Definition get_section (self : t) (name : string) : option (list ObjRef) :=
  sections_get name (sections self).

Definition get_entity (self : t) (handle : string) : option ObjRef :=
  match handle_index self with
  | Some handle_index => HandleIndex.get handle_index handle
  | None => None
  end.

Definition get_line_number (self : t) (entity : ObjRef) (offset : Z) : Z :=
  match line_index self with
  | Some line_index =>
      LineIndex.get_start_line_for_entity line_index entity + offset * 2
  | None => 0
  end.

Definition get_entity_at_line (self : t) (number : Z) : option ObjRef :=
  match line_index self with
  | Some line_index => LineIndex.get_entity_at_line line_index number
  | None => None
  end.

(** The navigation methods call the handle index without a test: on a
    document without index they raise AttributeError. *)
Definition next_entity (self : t) (entity : ObjRef) : result ObjRef :=
  match handle_index self with
  | Some handle_index => HandleIndex.next_entity handle_index entity
  | None => Raise AttributeError
  end.

Definition previous_entity (self : t) (entity : ObjRef) : result ObjRef :=
  match handle_index self with
  | Some handle_index => HandleIndex.previous_entity handle_index entity
  | None => Raise AttributeError
  end.

Definition get_handle (self : t) (entity : ObjRef) : result (option string) :=
  match handle_index self with
  | Some handle_index => Ok (HandleIndex.get_handle handle_index entity)
  | None => Raise AttributeError
  end.

End Defs.
End DXFDocument.

(** ** get_row_from_line_number *)

(** [DXFVertex] is a class of ezdxf.lldxf whose source is not part of the
    reviewed files: [vertex_len tag] is [len(tag.value)] when the tag is a
    [DXFVertex], and [None] for every other tag. *)
Class VertexTags := { vertex_len : DXFTag -> option nat }.

Section RowFromLine.
Context {store : ObjectStore} {vertices : VertexTags}.

(** The lines a tag takes in the file. *)
Definition tag_lines (tag : DXFTag) : Z :=
  match vertex_len tag with
  | Some n => Z.of_nat n * 2
  | None => 2
  end.

(** The loop of [get_row_from_line_number] over the tags that are left. *)
Fixpoint row_loop (count lines row : Z) (tags : Tags) : Z :=
  match tags with
  | [] => row
  | tag :: rest =>
      if lines >=? count then row
      else row_loop count (lines + tag_lines tag) (row + 1) rest
  end.

Definition get_row_from_line_number
    (entity : ObjRef) (start_line_number select_line_number : Z) : Z :=
  row_loop (select_line_number - start_line_number) 0 0 (heap entity).

(** The lines that the first [i] tags of a record take. *)
Definition lines_before (tags : Tags) (i : nat) : Z :=
  fold_right (fun tag n => tag_lines tag + n) 0 (take i tags).

End RowFromLine.

(** ** The layout of a file, as a function of the mapping

    The builds above thread a line counter through two nested loops. The
    functions of this section give what they compute in closed form; the
    lemmas below prove the loops equal to them. *)

Section Layout.
Context {store : ObjectStore}.

(** The records of a mapping in file order. *)
Definition records (sections : SectionDict) : list ObjRef :=
  concat (map snd sections).

(** The lines of the records of one section that starts at line [n]. *)
Fixpoint lines_from (n : Z) (section : list ObjRef) : list Line :=
  match section with
  | [] => []
  | entity :: rest => (n, entity) :: lines_from (n + len entity * 2) rest
  end.

(** The line after the records of a section that starts at line [n]. *)
Fixpoint section_end (n : Z) (section : list ObjRef) : Z :=
  match section with
  | [] => n
  | entity :: rest => section_end (n + len entity * 2) rest
  end.

Fixpoint layout (n : Z) (sections : SectionDict) : list Line :=
  match sections with
  | [] => []
  | section :: rest =>
      lines_from n (snd section) ++ layout (section_end n (snd section) + 2) rest
  end.

Fixpoint layout_end (n : Z) (sections : SectionDict) : Z :=
  match sections with
  | [] => n
  | section :: rest => layout_end (section_end n (snd section) + 2) rest
  end.

(** Every record starts at or after the end of the record before it. *)
Fixpoint chain (lo : Z) (l : list Line) : Prop :=
  match l with
  | [] => True
  | (start, entity) :: rest => lo <= start /\ chain (start + len entity * 2) rest
  end.

End Layout.

(** ** The entries of a handle index, as a function of the layout

    [_build] creates one [IndexEntry] per record and links it to the entry
    created before. The functions of this section give the handles, the
    entries and the dict in closed form. *)

Section HandleLayout.
Context {store : ObjectStore} {ezdxf : LLDXF}.
Import HandleIndex.

(** The handles of the records, in file order, when the next dummy handle
    is [dummy_handle]. *)
Fixpoint handles_from (dummy_handle : Z) (records : list ObjRef) : list string :=
  match records with
  | [] => []
  | tags :: rest =>
      fst (assign_handle dummy_handle tags)
        :: handles_from (snd (assign_handle dummy_handle tags)) rest
  end.

(** The next dummy handle after the records. *)
Fixpoint dummy_after (dummy_handle : Z) (records : list ObjRef) : Z :=
  match records with
  | [] => dummy_handle
  | tags :: rest => dummy_after (snd (assign_handle dummy_handle tags)) rest
  end.

(** The entry of the record at position [i] of the file. *)
Definition entry_at (lines : list Line) (handles : list string) (i : nat) : IndexEntry :=
  {| tags := snd (nth i lines (0, 0%nat));
     handle := Some (nth i handles EmptyString);
     start_line_number := fst (nth i lines (0, 0%nat));
     prev := match i with O => None | S j => Some j end;
     next := if (S i <? length lines)%nat then Some (S i) else None |}.

Definition entries_of (lines : list Line) (handles : list string) : list IndexEntry :=
  map (entry_at lines handles) (seq 0 (length lines)).

(** The dict after [entity_index[handle] = new_entity] for each handle, the
    entry of the first handle being [i]. *)
Fixpoint index_from (i : nat) (handles : list string) (d : list (string * EntryRef))
  : list (string * EntryRef) :=
  match handles with
  | [] => d
  | handle :: rest => index_from (S i) rest (dict_set handle i d)
  end.

Definition index_of (handles : list string) : list (string * EntryRef) :=
  index_from 0 handles [].

(** The record has no handle: [tags.get_handle()] raises ValueError. *)
Definition no_handle (tags : ObjRef) : bool :=
  match Tags_get_handle (heap tags) with
  | None => true
  | Some _ => false
  end.

(** The entries of the records without a handle, in file order. *)
Definition dummy_entries (self : t) : list IndexEntry :=
  List.filter (fun e => no_handle (tags e)) (entries self).

(** The identity of the first tag of a record, if it has one. *)
Definition first_tag_id (tags : ObjRef) : option ObjRef :=
  tag_id <$> head (heap tags).


(** The state of [_build] after the records of [lines]. *)
Definition built (st : BuildState) (lines : list Line) : Prop :=
  b_entries st = entries_of lines (handles_from 1 (map snd lines)) /\
  b_entity_index st = index_of (handles_from 1 (map snd lines)) /\
  b_prev_entity st = match length lines with O => None | S k => Some k end /\
  b_dummy_handle st = dummy_after 1 (map snd lines).

End HandleLayout.

(** ** A concrete ezdxf for examples

    The handle of a record is the text of its first tag with group code 5 or
    105; group codes 10 to 59 hold floats, 60 to 99 integers, all others
    strings; two tags are equal when code and value are; tags have no order.
    A store is given by the list of its objects. *)

Module Sample.

Definition value_eqb (a b : Value) : bool :=
  match a, b with
  | VStr x, VStr y => String.eqb x y
  | VInt x, VInt y => x =? y
  | VFloat x, VFloat y => String.eqb x y
  | _, _ => false
  end.

Fixpoint first_handle (tags : Tags) : option string :=
  match tags with
  | [] => None
  | tag :: rest =>
      if (code tag =? 5) || (code tag =? 105) then
        match value tag with
        | VStr handle => Some handle
        | _ => None
        end
      else first_handle rest
  end.

Definition group_type (code : Z) : TagType :=
  if (10 <=? code) && (code <=? 59) then type_float
  else if (60 <=? code) && (code <=? 99) then type_int
  else type_str.

Definition lldxf : LLDXF :=
  {| Tags_get_handle := first_handle;
     tag_type := group_type;
     tag_eq := fun a b => (code a =? code b) && value_eqb (value a) (value b);
     tag_lt := fun _ _ => Raise TypeError |}.

Definition store (objects : list Tags) : ObjectStore :=
  {| heap := fun r => nth r objects [] |}.

Definition tag (id : ObjRef) (c : Z) (v : Value) : DXFTag :=
  {| tag_id := id; code := c; value := v |}.
Arguments tag id%_nat c%_Z v.

(** Three records of 3, 2 and 4 tags, as objects 0, 1 and 2. *)
Definition three_records : ObjectStore :=
  store
    [ [tag 10 0 (VStr "SECTION"); tag 11 2 (VStr "HEADER"); tag 12 9 (VStr "$ACADVER")];
      [tag 13 0 (VStr "LINE"); tag 14 5 (VStr "1F")];
      [tag 15 0 (VStr "CIRCLE"); tag 16 5 (VStr "20"); tag 17 8 (VStr "0");
       tag 18 40 (VFloat "1.5")] ].

Definition header_entities : SectionDict :=
  [("HEADER"%string, [0%nat]); ("ENTITIES"%string, [1%nat; 2%nat])].

(** Two header variables, objects 0 and 2, which have no handle, and a line
    with the handle 2a, object 1. *)
Definition header_variables : ObjectStore :=
  store [ [tag 10 9 (VStr "$ACADVER"); tag 11 1 (VStr "AC1027")];
          [tag 12 0 (VStr "LINE"); tag 13 5 (VStr "2a")];
          [tag 14 9 (VStr "$INSUNITS"); tag 15 70 (VInt 4)] ].

(** A record without tags, object 0, before a record of one tag, object 1. *)
Definition empty_record : ObjectStore :=
  store [ []; [tag 10 0 (VStr "LINE")] ].

(** Two records, objects 0 and 1, with the handles 1f and 1F. *)
Definition duplicate_handle : ObjectStore :=
  store [ [tag 10 0 (VStr "LINE"); tag 11 5 (VStr "1f")];
          [tag 12 0 (VStr "CIRCLE"); tag 13 5 (VStr "1F")] ].

(** Three records, objects 0 to 2; the first two have the handle A. *)
Definition same_handle : ObjectStore :=
  store [ [tag 10 0 (VStr "LINE"); tag 11 5 (VStr "A")];
          [tag 12 0 (VStr "CIRCLE"); tag 13 5 (VStr "A")];
          [tag 14 0 (VStr "ARC"); tag 15 5 (VStr "B")] ].

(** Four records, objects 0 to 3; the second one has no tags. *)
Definition empty_between : ObjectStore :=
  store [ [tag 10 0 (VStr "LINE"); tag 11 5 (VStr "A")];
          [];
          [tag 12 0 (VStr "LINE"); tag 13 5 (VStr "B")];
          [tag 14 0 (VStr "LINE"); tag 15 5 (VStr "C")] ].

(** Object 0: a record with an integer 10 under group code 70 and a text
    that holds 10. Object 1: a record that starts with the integer 10. *)
Definition numbers_records : ObjectStore :=
  store [ [tag 10 0 (VStr "LINE"); tag 11 70 (VInt 10); tag 12 1 (VStr "hello 10")];
          [tag 13 70 (VInt 10); tag 14 0 (VStr "LINE")] ].


(** Tags of the group code 10 are vertex tags of three axes. *)
Definition vertices_at_10 : VertexTags :=
  {| vertex_len := fun tag => if code tag =? 10 then Some 3%nat else None |}.

(** A line, object 0: type, handle, layer, start point, end point. *)
Definition line_record : ObjectStore :=
  store [ [tag 10 0 (VStr "LINE"); tag 11 5 (VStr "2F"); tag 12 8 (VStr "0");
           tag 13 10 (VFloat "(0.0, 0.0, 0.0)"); tag 14 11 (VFloat "1.0")] ].

End Sample.

(** * Properties *)

(** ** The Python runtime on examples *)

Example format_X_255 : format_X 255 = "FF"%string /\ format_X 26 = "1A"%string.
Proof. split; reflexivity. Qed.

Example str_int_examples :
  str_int 10 = "10"%string /\ str_int 0 = "0"%string /\ str_int (-5) = "-5"%string.
Proof. repeat split. Qed.

Example upper_lower_examples :
  upper "1f*a"%string = "1F*A"%string /\ lower "Hello 10"%string = "hello 10"%string.
Proof. split; reflexivity. Qed.

Example split_examples :
  split "  foo bar"%string = ["foo"%string; "bar"%string] /\ split "foobar"%string = ["foobar"%string].
Proof. split; reflexivity. Qed.

Example str_contains_examples :
  str_contains "foo" "foobar" = true /\ str_contains "oba" "foobar" = true /\
  str_contains "baz" "foobar" = false.
Proof. repeat split. Qed.

Example getitem_examples :
  getitem [1; 2; 3] (-1) = Ok 3 /\ getitem [1; 2; 3] 0 = Ok 1 /\
  getitem [1; 2; 3] 3 = Raise IndexError /\ getitem [1; 2; 3] (-4) = Raise IndexError.
Proof. repeat split. Qed.

Example dict_set_examples :
  dict_set "A" 3 (dict_set "B" 2 (dict_set "A" 1 [])) = [("A"%string, 3); ("B"%string, 2)].
Proof. reflexivity. Qed.

(** ** EntityHistory *)

Section EntityHistoryFacts.
Import EntityHistory.

Lemma last_cons_is_Some {A} (x : A) (l : list A) : is_Some (last (x :: l)).
Proof.
  revert x. induction l as [|y l IH]; intros x; [by eexists|].
  destruct (IH y) as [z Hz]. exists z. exact Hz.
Qed.

(** C10. On a history that is not empty, [back()] with the cursor at index 0
    returns the first record, and [forward()] with the cursor at the last
    index returns the last record; neither changes the history, the cursor
    or the time travel buffer. *)
Theorem EntityHistory_clamped_at_ends (self : t) (first : ObjRef) (rest : list ObjRef) :
  _history self = first :: rest ->
  (_index self = 0 -> back self = Ok (Some first, self)) /\
  (_index self = Z.of_nat (length (_history self)) - 1 ->
   exists last_entity, last (_history self) = Some last_entity /\
     forward self = Ok (Some last_entity, self)).
Proof.
  intros Hh. split.
  - intros Hi. unfold back. rewrite Hh, Hi. reflexivity.
  - intros Hi. destruct (last_cons_is_Some first rest) as [e He].
    exists e. rewrite Hh. split; [exact He|].
    unfold forward. rewrite Hh, He, Hi, Hh.
    replace (_ <? _) with false; [reflexivity|]. symmetry. apply Z.ltb_ge. lia.
Qed.

Lemma EntityHistory_clamped_at_ends_witness :
  back {| _history := [7; 8; 9]%nat; _index := 0; _time_travel := [8; 7]%nat |}
  = Ok (Some 7%nat, {| _history := [7; 8; 9]%nat; _index := 0; _time_travel := [8; 7]%nat |})
  /\
  exists last_entity,
    last [7; 8; 9]%nat = Some last_entity /\
    forward {| _history := [7; 8; 9]%nat; _index := 2; _time_travel := [8; 9]%nat |}
    = Ok (Some last_entity,
          {| _history := [7; 8; 9]%nat; _index := 2; _time_travel := [8; 9]%nat |}).
Proof.
  split.
  - apply (proj1 (EntityHistory_clamped_at_ends
                    {| _history := [7; 8; 9]%nat; _index := 0; _time_travel := [8; 7]%nat |}
                    7%nat [8; 9]%nat eq_refl)).
    reflexivity.
  - apply (proj2 (EntityHistory_clamped_at_ends
                    {| _history := [7; 8; 9]%nat; _index := 2; _time_travel := [8; 9]%nat |}
                    7%nat [8; 9]%nat eq_refl)).
    reflexivity.
Defined.

(** The history after three appends of records that differ from their
    predecessor. *)
Lemma append3 (A B C : ObjRef) :
  A <> B -> B <> C ->
  append (append (append new A) B) C
  = {| _history := [A; B; C]; _index := 2; _time_travel := [] |}.
Proof.
  intros HAB HBC. unfold append, new. simpl.
  destruct (Nat.eqb_spec A B) as [|_]; [contradiction|]. simpl.
  destruct (Nat.eqb_spec B C) as [|_]; [contradiction|]. reflexivity.
Qed.

(** C2, as the code has it. After [append(A)], [append(B)], [append(C)] the
    next two [back()] calls return B, then A. A following [append(D)], for a
    D other than A, flushes the time travel buffer into the history, whose
    content is then [A, B, C, B, A, D]; the cursor is at D, the buffer is
    empty, and [forward()] returns D and changes nothing. *)
Theorem EntityHistory_append_after_back (A B C D : ObjRef) :
  A <> B -> B <> C -> D <> A ->
  exists h1 h2,
    back (append (append (append new A) B) C) = Ok (Some B, h1) /\
    back h1 = Ok (Some A, h2) /\
    content (append h2 D) = [A; B; C; B; A; D] /\
    _index (append h2 D) = 5 /\
    _time_travel (append h2 D) = [] /\
    forward (append h2 D) = Ok (Some D, append h2 D).
Proof.
  intros HAB HBC HDA. rewrite (append3 A B C HAB HBC).
  eexists. eexists. split; [reflexivity|]. split; [reflexivity|].
  unfold append, content. simpl.
  destruct (Nat.eqb_spec A D) as [|_]; [congruence|].
  repeat split.
Qed.

Lemma EntityHistory_append_after_back_witness :
  exists h1 h2,
    back (append (append (append new 0%nat) 1%nat) 2%nat) = Ok (Some 1%nat, h1) /\
    back h1 = Ok (Some 0%nat, h2) /\
    content (append h2 3%nat) = [0; 1; 2; 1; 0; 3]%nat /\
    _index (append h2 3%nat) = 5 /\
    _time_travel (append h2 3%nat) = [] /\
    forward (append h2 3%nat) = Ok (Some 3%nat, append h2 3%nat).
Proof.
  apply (EntityHistory_append_after_back 0%nat 1%nat 2%nat 3%nat); lia.
Defined.

(** C2 as stated fails: for A, B, C, D = 0, 1, 2, 3 the two [back()] calls
    return B and A, and the content after [append(D)] is not [A, B, C, A, D]. *)
Lemma EntityHistory_append_after_back_counterexample :
  exists h1 h2,
    back (append (append (append new 0%nat) 1%nat) 2%nat) = Ok (Some 1%nat, h1) /\
    back h1 = Ok (Some 0%nat, h2) /\
    content (append h2 3%nat) = [0; 1; 2; 1; 0; 3]%nat /\
    content (append h2 3%nat) <> [0; 1; 2; 0; 3]%nat.
Proof.
  eexists. eexists. split; [reflexivity|]. split; [reflexivity|].
  split; [reflexivity|]. discriminate.
Qed.

(** When D is A itself, [append(D)] flushes the buffer and returns before it
    moves the cursor, which stays at index 0: [forward()] then returns B. *)
Example append_same_after_back :
  exists h1 h2 h3,
    back (append (append (append new 0%nat) 1%nat) 2%nat) = Ok (Some 1%nat, h1) /\
    back h1 = Ok (Some 0%nat, h2) /\
    content (append h2 0%nat) = [0; 1; 2; 1; 0]%nat /\
    _index (append h2 0%nat) = 0 /\
    forward (append h2 0%nat) = Ok (Some 1%nat, h3).
Proof. do 3 eexists. repeat split. Qed.

End EntityHistoryFacts.

(** ** The layout computed by the loops *)

Section LayoutFacts.
Context {store : ObjectStore} {ezdxf : LLDXF}.

Lemma len_nonneg (entity : ObjRef) : 0 <= len entity.
Proof. unfold len. lia. Qed.

Lemma len_zero (entity : ObjRef) : len entity = 0 <-> heap entity = [].
Proof.
  unfold len. destruct (heap entity); simpl; split; intros; try done; lia.
Qed.

Lemma section_end_ge (section : list ObjRef) (n : Z) : n <= section_end n section.
Proof.
  revert n. induction section as [|e r IH]; intros n; simpl; [lia|].
  specialize (IH (n + len e * 2)). pose proof (len_nonneg e). lia.
Qed.

Lemma layout_end_ge (sections : SectionDict) (n : Z) : n <= layout_end n sections.
Proof.
  revert n. induction sections as [|s r IH]; intros n; simpl; [lia|].
  specialize (IH (section_end n s.2 + 2)). pose proof (section_end_ge s.2 n). lia.
Qed.

Lemma lines_from_app (s1 s2 : list ObjRef) (n : Z) :
  lines_from n (s1 ++ s2) = lines_from n s1 ++ lines_from (section_end n s1) s2.
Proof.
  revert n. induction s1 as [|e r IH]; intros n; simpl; [done|]. by rewrite IH.
Qed.

Lemma section_end_app (s1 s2 : list ObjRef) (n : Z) :
  section_end n (s1 ++ s2) = section_end (section_end n s1) s2.
Proof. revert n. induction s1 as [|e r IH]; intros n; simpl; [done|]. by rewrite IH. Qed.

Lemma layout_app (l1 l2 : SectionDict) (n : Z) :
  layout n (l1 ++ l2) = layout n l1 ++ layout (layout_end n l1) l2.
Proof.
  revert n. induction l1 as [|s r IH]; intros n; simpl; [done|].
  by rewrite IH, app_assoc.
Qed.

Lemma layout_end_app (l1 l2 : SectionDict) (n : Z) :
  layout_end n (l1 ++ l2) = layout_end (layout_end n l1) l2.
Proof. revert n. induction l1 as [|s r IH]; intros n; simpl; [done|]. by rewrite IH. Qed.

Lemma lines_from_snd (section : list ObjRef) (n : Z) :
  map snd (lines_from n section) = section.
Proof. revert n. induction section as [|e r IH]; intros n; simpl; [done|]. by rewrite IH. Qed.

Lemma layout_snd (sections : SectionDict) (n : Z) :
  map snd (layout n sections) = records sections.
Proof.
  revert n. induction sections as [|s r IH]; intros n; simpl; [done|].
  rewrite map_app, lines_from_snd, IH. done.
Qed.

Lemma chain_weaken (l : list Line) (lo lo' : Z) : lo' <= lo -> chain lo l -> chain lo' l.
Proof. destruct l as [|[s e] r]; simpl; [done|]. intros ? [? ?]. split; [lia|done]. Qed.

Lemma chain_lines_from (section : list ObjRef) (n : Z) (tail : list Line) :
  chain (section_end n section) tail -> chain n (lines_from n section ++ tail).
Proof.
  revert n. induction section as [|e r IH]; intros n; simpl; [done|].
  intros Ht. split; [lia|]. by apply IH.
Qed.

Lemma chain_layout (sections : SectionDict) (n : Z) : chain n (layout n sections).
Proof.
  revert n. induction sections as [|s r IH]; intros n; simpl; [done|].
  apply chain_lines_from. eapply chain_weaken; [|apply IH]. lia.
Qed.

(** The loops of [build_line_index] compute the layout. *)
Lemma line_index_section (section : list ObjRef) (n : Z) (index : list Line) :
  fold_left LineIndex.line_index_step section (n, index)
  = (section_end n section, index ++ lines_from n section).
Proof.
  revert n index. induction section as [|e r IH]; intros n index; simpl.
  - by rewrite app_nil_r.
  - rewrite IH. by rewrite <- app_assoc.
Qed.

Lemma line_index_loop_from (sections : SectionDict) (n : Z) (index : list Line) :
  fold_left
    (fun st section =>
       let '(start_line_number, index) :=
         fold_left LineIndex.line_index_step (snd section) st in
       (start_line_number + 2, index))
    sections (n, index)
  = (layout_end n sections, index ++ layout n sections).
Proof.
  revert n index. induction sections as [|s r IH]; intros n index; simpl.
  - by rewrite app_nil_r.
  - rewrite line_index_section, IH. by rewrite <- app_assoc.
Qed.

Lemma line_index_loop_layout (sections : SectionDict) :
  LineIndex.line_index_loop sections = (layout_end 1 sections, layout 1 sections).
Proof. unfold LineIndex.line_index_loop. by rewrite line_index_loop_from. Qed.

(** No tuple of a chain is smaller than the tuple before it. *)
Lemma tuple_lt_chain (s1 s2 : Z) (e1 e2 : ObjRef) :
  s1 + len e1 * 2 <= s2 -> LineIndex.tuple_lt (s2, e2) (s1, e1) = Ok false.
Proof.
  intros Hle. pose proof (len_nonneg e1) as Hn. unfold LineIndex.tuple_lt.
  destruct (Z.eqb_spec s2 s1) as [->|Hne]; simpl.
  - assert (heap e1 = []) as He1 by (apply len_zero; lia).
    destruct (Nat.eqb e2 e1); simpl; [done|]. rewrite He1.
    destruct (heap e2); simpl; done.
  - f_equal. apply Z.ltb_ge. lia.
Qed.

(** Sorting a chain changes nothing, and no comparison raises. *)
Lemma sort_chain (l : list Line) (lo : Z) : chain lo l -> LineIndex.sort l = Ok l.
Proof.
  revert lo. induction l as [|[s e] r IH]; intros lo; simpl; [done|].
  intros [_ Hr]. rewrite (IH _ Hr). cbn [mbind result_bind].
  destruct r as [|[s' e'] r']; cbn [LineIndex.insert]; [done|].
  destruct Hr as [Hle _]. by rewrite (tuple_lt_chain s s' e e' Hle).
Qed.

Lemma build_line_index_layout (sections : SectionDict) :
  LineIndex.build_line_index sections = Ok (layout 1 sections).
Proof.
  unfold LineIndex.build_line_index. rewrite line_index_loop_layout. simpl.
  eapply sort_chain, chain_layout.
Qed.

End LayoutFacts.

(** ** LineIndex *)

Section LineIndexFacts.
Context {store : ObjectStore} {ezdxf : LLDXF}.
Import LineIndex.

Lemma entity_index_section (section : list ObjRef) (n : Z) (index : gmap ObjRef Line) :
  fold_left entity_index_step section (n, index)
  = (section_end n section, fold_left index_line (lines_from n section) index).
Proof.
  revert n index. induction section as [|e r IH]; intros n index; simpl; [done|].
  by rewrite IH.
Qed.

Lemma entity_index_loop_from (sections : SectionDict) (n : Z) (index : gmap ObjRef Line) :
  fold_left
    (fun st section =>
       let '(line_number, index) := fold_left entity_index_step (snd section) st in
       (line_number + 2, index))
    sections (n, index)
  = (layout_end n sections, fold_left index_line (layout n sections) index).
Proof.
  revert n index. induction sections as [|s r IH]; intros n index; simpl; [done|].
  by rewrite entity_index_section, IH, fold_left_app.
Qed.

Lemma build_entity_index_layout (sections : SectionDict) :
  build_entity_index sections = fold_left index_line (layout 1 sections) ∅.
Proof. unfold build_entity_index. by rewrite entity_index_loop_from. Qed.

Lemma index_line_other (l : list Line) (index : gmap ObjRef Line) (r : ObjRef) :
  r ∉ map snd l -> fold_left index_line l index !! r = index !! r.
Proof.
  revert index. induction l as [|[s e] l IH]; intros index Hr; simpl; [done|].
  simpl in Hr. apply not_elem_of_cons in Hr as [Hne Hr]. rewrite IH by done.
  unfold index_line. simpl. by apply lookup_insert_ne.
Qed.

(** The entry of an indexed record is one of its lines. *)
Lemma index_line_lookup (l : list Line) (index : gmap ObjRef Line) (r : ObjRef) :
  r ∈ map snd l ->
  exists s, fold_left index_line l index !! r = Some (s, r) /\ (s, r) ∈ l.
Proof.
  revert index. induction l as [|[s e] l IH]; intros index Hr; simpl in *.
  - by apply elem_of_nil in Hr.
  - destruct (decide (r ∈ map snd l)) as [Hin|Hout].
    + destruct (IH (index_line index (s, e)) Hin) as (s' & Hs' & Hl).
      exists s'. split; [done|]. by right.
    + apply elem_of_cons in Hr as [->|Hr]; [|done].
      exists s. rewrite index_line_other by done.
      unfold index_line. simpl. rewrite lookup_insert_eq. split; [done|]. by left.
Qed.

(** What [LineIndex(sections)] builds. *)
Lemma new_layout (sections : SectionDict) :
  new sections
  = Ok {| _entity_index := build_entity_index sections;
          _line_index := layout 1 sections;
          _max_line_number :=
            match last (layout 1 sections) with
            | Some (last_start_number, e) => last_start_number + len e * 2 - 1
            | None => 1
            end |}.
Proof. unfold new. by rewrite build_line_index_layout. Qed.

(** C1, as the code has it. For HEADER = [rec1] and ENTITIES = [rec2, rec3],
    where rec1, rec2 and rec3 have 3, 2 and 4 tags, the line index holds
    rec1, rec2 and rec3 at the start lines 1, 9 and 13 (two lines are added
    after a section, none between the records of one section), these are
    the start lines the index gives for the records, and [max_line_number]
    is 20. *)
Theorem LineIndex_two_sections (rec1 rec2 rec3 : ObjRef) :
  length (heap rec1) = 3%nat ->
  length (heap rec2) = 2%nat ->
  length (heap rec3) = 4%nat ->
  exists self,
    new [("HEADER"%string, [rec1]); ("ENTITIES"%string, [rec2; rec3])] = Ok self /\
    _line_index self = [(1, rec1); (9, rec2); (13, rec3)] /\
    get_start_line_for_entity self rec1 = 1 /\
    get_start_line_for_entity self rec2 = 9 /\
    get_start_line_for_entity self rec3 = 13 /\
    max_line_number self = 20.
Proof.
  intros H1 H2 H3.
  assert (rec1 <> rec2) as N12 by (intros ->; congruence).
  assert (rec1 <> rec3) as N13 by (intros ->; congruence).
  assert (rec2 <> rec3) as N23 by (intros ->; congruence).
  rewrite new_layout. eexists. split; [reflexivity|].
  unfold get_start_line_for_entity, max_line_number, build_entity_index.
  simpl. unfold index_line, len. rewrite H1, H2, H3. simpl.
  rewrite lookup_insert_eq.
  rewrite (lookup_insert_ne _ rec3 rec2) by done. rewrite lookup_insert_eq.
  rewrite (lookup_insert_ne _ rec3 rec1), (lookup_insert_ne _ rec2 rec1) by done.
  rewrite lookup_insert_eq. vm_compute. repeat split.
Qed.

End LineIndexFacts.

Lemma LineIndex_two_sections_witness :
  exists self,
    @LineIndex.new Sample.three_records Sample.lldxf Sample.header_entities = Ok self /\
    LineIndex._line_index self = [(1, 0%nat); (9, 1%nat); (13, 2%nat)] /\
    @LineIndex.get_start_line_for_entity self 0%nat = 1 /\
    @LineIndex.get_start_line_for_entity self 1%nat = 9 /\
    @LineIndex.get_start_line_for_entity self 2%nat = 13 /\
    LineIndex.max_line_number self = 20.
Proof.
  apply (@LineIndex_two_sections Sample.three_records Sample.lldxf 0%nat 1%nat 2%nat);
    reflexivity.
Defined.

(** C1 as stated fails: on three records of 3, 2 and 4 tags the third record
    starts at line 13, not 15, and [max_line_number] is 20, not 22. *)
Lemma LineIndex_two_sections_counterexample :
  exists self,
    @LineIndex.new Sample.three_records Sample.lldxf Sample.header_entities = Ok self /\
    @LineIndex.get_start_line_for_entity self 2%nat = 13 /\
    @LineIndex.get_start_line_for_entity self 2%nat <> 15 /\
    LineIndex.max_line_number self = 20 /\
    LineIndex.max_line_number self <> 22.
Proof.
  eexists. split; [vm_compute; reflexivity|]. vm_compute. repeat split; discriminate.
Qed.

(** ** HandleIndex: what [_build] builds *)

Section HandleBuildFacts.
Context {store : ObjectStore} {ezdxf : LLDXF}.
Import HandleIndex.

Lemma handles_from_length (records : list ObjRef) (d : Z) :
  length (handles_from d records) = length records.
Proof. revert d. induction records as [|r l IH]; intros d; simpl; [done|]. by rewrite IH. Qed.

Lemma handles_from_snoc (records : list ObjRef) (r : ObjRef) (d : Z) :
  handles_from d (records ++ [r])
  = handles_from d records ++ [fst (assign_handle (dummy_after d records) r)].
Proof. revert d. induction records as [|x l IH]; intros d; simpl; [done|]. by rewrite IH. Qed.

Lemma dummy_after_snoc (records : list ObjRef) (r : ObjRef) (d : Z) :
  dummy_after d (records ++ [r]) = snd (assign_handle (dummy_after d records) r).
Proof. revert d. induction records as [|x l IH]; intros d; simpl; [done|]. by rewrite IH. Qed.

Lemma index_from_snoc (handles : list string) (h : string) (i : nat)
    (d : list (string * EntryRef)) :
  index_from i (handles ++ [h]) d
  = dict_set h (i + length handles)%nat (index_from i handles d).
Proof.
  revert i d. induction handles as [|x l IH]; intros i d; simpl.
  - by rewrite Nat.add_0_r.
  - rewrite IH. f_equal. lia.
Qed.

Lemma entries_of_length (lines : list Line) (handles : list string) :
  length (entries_of lines handles) = length lines.
Proof. unfold entries_of. by rewrite length_map, length_seq. Qed.

Lemma entries_of_lookup (lines : list Line) (handles : list string) (i : nat) :
  (i < length lines)%nat ->
  entries_of lines handles !! i = Some (entry_at lines handles i).
Proof.
  intros Hi. unfold entries_of. rewrite list_lookup_fmap, lookup_seq_lt by done. done.
Qed.

(** Linking a new entry to the entries of the records before it. *)
Lemma entries_of_snoc (lines : list Line) (handles : list string) (line : Line) (h : string) :
  length handles = length lines ->
  entries_of (lines ++ [line]) (handles ++ [h])
  = let new_entity := length lines in
    let store :=
      entries_of lines handles
        ++ [{| tags := snd line; handle := Some h; start_line_number := fst line;
               prev := None; next := None |}] in
    match (match length lines with O => None | S k => Some k end) with
    | Some prev_entity =>
        alter (fun e => set_next e (Some new_entity)) prev_entity
          (alter (fun e => set_prev e (Some prev_entity)) new_entity store)
    | None => store
    end.
Proof.
  intros Hlen. apply list_eq. intros i. cbv zeta.
  assert (length (lines ++ [line]) = S (length lines)) as Hl
    by (rewrite length_app; simpl; lia).
  destruct (decide (i < S (length lines))%nat) as [Hi|Hi].
  2:{ rewrite (lookup_ge_None_2 (entries_of _ _)) by (rewrite entries_of_length; lia).
      symmetry. apply lookup_ge_None_2.
      destruct (length lines) eqn:E.
      - rewrite length_app, entries_of_length. simpl. lia.
      - rewrite !length_alter, length_app, entries_of_length. simpl. lia. }
  rewrite entries_of_lookup by lia.
  destruct (decide (i = length lines)) as [->|Hne].
  - (* the new entry *)
    assert (entry_at (lines ++ [line]) (handles ++ [h]) (length lines)
            = {| tags := snd line; handle := Some h; start_line_number := fst line;
                 prev := match length lines with O => None | S k => Some k end;
                 next := None |}) as ->.
    { unfold entry_at. rewrite Hl.
      rewrite (app_nth2 lines) by lia. rewrite Nat.sub_diag.
      assert (nth (length lines) (handles ++ [h]) EmptyString = h) as ->.
      { rewrite <- Hlen. rewrite app_nth2 by lia. by rewrite Nat.sub_diag. }
      simpl.
      replace (S (length lines) <? S (length lines))%nat with false
        by (symmetry; apply Nat.ltb_ge; lia). done. }
    destruct (length lines) as [|k] eqn:E.
    + rewrite lookup_app_r by (rewrite entries_of_length; lia).
      rewrite entries_of_length, E. reflexivity.
    + rewrite list_lookup_alter_ne by lia. rewrite list_lookup_alter_eq.
      rewrite lookup_app_r by (rewrite entries_of_length; lia).
      rewrite entries_of_length, E, Nat.sub_diag. reflexivity.
  - (* an entry created before *)
    assert (i < length lines)%nat as Hlt by lia.
    destruct (length lines) as [|k] eqn:E; [lia|].
    rewrite <- E in *.
    destruct (decide (i = k)) as [->|Hik].
    + rewrite list_lookup_alter_eq, list_lookup_alter_ne by lia.
      rewrite lookup_app_l by (rewrite entries_of_length; lia).
      rewrite entries_of_lookup by lia. simpl. unfold entry_at, set_next. simpl.
      rewrite !app_nth1 by lia. rewrite Hl.
      replace (S k <? S (length lines))%nat with true
        by (symmetry; apply Nat.ltb_lt; lia).
      rewrite E. done.
    + rewrite !list_lookup_alter_ne by lia.
      rewrite lookup_app_l by (rewrite entries_of_length; lia).
      rewrite entries_of_lookup by lia. unfold entry_at.
      rewrite !app_nth1 by lia. rewrite Hl.
      replace (S i <? S (length lines))%nat with true
        by (symmetry; apply Nat.ltb_lt; lia).
      replace (S i <? length lines)%nat with true
        by (symmetry; apply Nat.ltb_lt; lia).
      done.
Qed.

Lemma build_step_start (st : BuildState) (r : ObjRef) :
  b_start_line_number (build_step st r) = b_start_line_number st + len r * 2.
Proof. unfold build_step. by destruct (assign_handle _ _). Qed.

Lemma build_step_built (st : BuildState) (lines : list Line) (r : ObjRef) :
  built st lines -> built (build_step st r) (lines ++ [(b_start_line_number st, r)]).
Proof.
  intros (He & Hi & Hp & Hd). unfold built.
  rewrite map_app. simpl. rewrite handles_from_snoc, dummy_after_snoc.
  unfold build_step. rewrite Hd.
  destruct (assign_handle (dummy_after 1 (map snd lines)) r) as [h d] eqn:Ea. simpl.
  split; [|split; [|split]].
  - rewrite entries_of_snoc by (by rewrite handles_from_length, length_map).
    rewrite Hp, He, entries_of_length. done.
  - unfold index_of. rewrite index_from_snoc, handles_from_length, length_map. simpl.
    by rewrite Hi, He, entries_of_length.
  - rewrite He, entries_of_length, length_app. simpl.
    by replace (length lines + 1)%nat with (S (length lines)) by lia.
  - done.
Qed.

Lemma build_records_built (section : list ObjRef) (st : BuildState) (lines : list Line) :
  built st lines ->
  built (fold_left build_step section st)
    (lines ++ lines_from (b_start_line_number st) section) /\
  b_start_line_number (fold_left build_step section st)
  = section_end (b_start_line_number st) section.
Proof.
  revert st lines. induction section as [|r l IH]; intros st lines Hb; simpl.
  - by rewrite app_nil_r.
  - destruct (IH _ _ (build_step_built st lines r Hb)) as [Hb' Hs].
    rewrite build_step_start in Hb', Hs. by rewrite <- app_assoc in Hb'.
Qed.

Lemma build_section_built (section : list ObjRef) (st : BuildState) (lines : list Line) :
  built st lines ->
  built (build_section st section)
    (lines ++ lines_from (b_start_line_number st) section) /\
  b_start_line_number (build_section st section)
  = section_end (b_start_line_number st) section + 2.
Proof.
  intros Hb. destruct (build_records_built section st lines Hb) as [Hb' Hs].
  split; [exact Hb'|]. unfold build_section. simpl. by rewrite Hs.
Qed.

Lemma build_sections_built (sections : SectionDict) (st : BuildState) (lines : list Line) :
  built st lines ->
  let st' := fold_left (fun st section => build_section st (snd section)) sections st in
  built st' (lines ++ layout (b_start_line_number st) sections) /\
  b_start_line_number st' = layout_end (b_start_line_number st) sections.
Proof.
  revert st lines. induction sections as [|s l IH]; intros st lines Hb; simpl.
  - by rewrite app_nil_r.
  - destruct (build_section_built s.2 st lines Hb) as [Hb' Hs].
    destruct (IH _ _ Hb') as [Hb3 Hs3].
    rewrite Hs in Hb3, Hs3. rewrite <- app_assoc in Hb3. done.
Qed.

(** The state at the end of [_build]. *)
Lemma build_loop_built (sections : SectionDict) :
  built (build_loop sections) (layout 1 sections) /\
  b_start_line_number (build_loop sections) = layout_end 1 sections.
Proof.
  apply (build_sections_built sections
           {| b_start_line_number := 1; b_dummy_handle := 1; b_entity_index := [];
              b_prev_entity := None; b_entries := [] |} []).
  repeat split.
Qed.

Lemma new_entries (sections : SectionDict) :
  entries (new sections)
  = entries_of (layout 1 sections) (handles_from 1 (records sections)).
Proof.
  destruct (build_loop_built sections) as [(He & _) _].
  unfold new. simpl. by rewrite He, layout_snd.
Qed.

Lemma new_index (sections : SectionDict) :
  _index (new sections) = index_of (handles_from 1 (records sections)).
Proof.
  destruct (build_loop_built sections) as [(_ & Hi & _) _].
  unfold new. simpl. by rewrite Hi, layout_snd.
Qed.

Lemma new_max_line_number (sections : SectionDict) :
  max_line_number (new sections) = layout_end 1 sections - 3.
Proof.
  destruct (build_loop_built sections) as [_ Hs].
  unfold new, max_line_number. simpl. by rewrite Hs.
Qed.

End HandleBuildFacts.

(** ** The two values of [max_line_number] *)

Section MaxLineNumberFacts.
Context {store : ObjectStore} {ezdxf : LLDXF}.

Lemma last_lines_from (section : list ObjRef) (n s : Z) (e : ObjRef) :
  last (lines_from n section) = Some (s, e) -> s + len e * 2 = section_end n section.
Proof.
  revert n. induction section as [|x l IH]; intros n; simpl; [done|].
  destruct l as [|y l']; [simpl; by intros [= <- <-]|]. apply IH.
Qed.

(** The last record ends two lines or more before the line counter. *)
Lemma last_layout_bound (sections : SectionDict) (n s : Z) (e : ObjRef) :
  last (layout n sections) = Some (s, e) -> s + len e * 2 + 2 <= layout_end n sections.
Proof.
  revert n. induction sections as [|x l IH]; intros n; simpl; [done|].
  rewrite last_app. destruct (last (layout _ l)) as [[s' e']|] eqn:E.
  - intros [= -> ->]. by apply IH.
  - intros Hl. apply last_lines_from in Hl. rewrite Hl.
    pose proof (layout_end_ge l (section_end n x.2 + 2)). lia.
Qed.

Lemma section_end_parity (section : list ObjRef) (n : Z) :
  exists k, section_end n section = n + 2 * k.
Proof.
  revert n. induction section as [|x l IH]; intros n; simpl.
  - exists 0. lia.
  - destruct (IH (n + len x * 2)) as [k Hk]. exists (len x + k). lia.
Qed.

Lemma layout_end_parity (sections : SectionDict) (n : Z) :
  exists k, layout_end n sections = n + 2 * k.
Proof.
  revert n. induction sections as [|x l IH]; intros n; simpl.
  - exists 0. lia.
  - destruct (section_end_parity x.2 n) as [j Hj].
    destruct (IH (section_end n x.2 + 2)) as [k Hk]. exists (j + 1 + k). lia.
Qed.

(** [HandleIndex] and [LineIndex] give the same [max_line_number] exactly
    when the mapping has a last section and that section holds a record.
    Empty sections before it change nothing. For a mapping without
    sections, without records, or with an empty last section the two values
    differ. *)
Lemma max_line_number_agreement (sections : SectionDict) :
  exists line_index,
    LineIndex.new sections = Ok line_index /\
    (HandleIndex.max_line_number (HandleIndex.new sections)
     = LineIndex.max_line_number line_index
     <-> exists name section, last sections = Some (name, section) /\ section <> []).
Proof.
  rewrite new_layout. eexists. split; [reflexivity|].
  rewrite new_max_line_number. unfold LineIndex.max_line_number. simpl.
  destruct sections as [|x0 l0] using rev_ind.
  { simpl. split; [lia|]. by intros (? & ? & ? & _). }
  clear IHl0. destruct x0 as [name section].
  rewrite last_snoc, layout_app, layout_end_app. simpl. rewrite app_nil_r.
  set (n := layout_end 1 l0).
  destruct section as [|e0 r0] using rev_ind.
  - simpl. rewrite app_nil_r. split.
    + intros Heq. exfalso.
      destruct (last (layout 1 l0)) as [[s e]|] eqn:E.
      * apply last_layout_bound in E. fold n in E. lia.
      * destruct (layout_end_parity l0 1) as [k Hk]. fold n in Hk. lia.
    + by intros (? & ? & [= <- <-] & ?).
  - clear IHr0. split.
    + intros _. exists name, (r0 ++ [e0]). split; [done|]. by destruct r0.
    + intros _. rewrite lines_from_app, section_end_app. simpl.
      rewrite app_assoc, last_snoc. lia.
Qed.

End MaxLineNumberFacts.

(** C3. The two indices do not agree on every mapping. For the mapping
    without sections [HandleIndex] gives -2, the line counter 1 minus 3,
    where [LineIndex] gives 1. For a mapping that ends in an empty section
    [HandleIndex] gives the end of the last record plus 2. *)
Theorem max_line_number_disagreement :
  (exists line_index,
     @LineIndex.new Sample.three_records Sample.lldxf [] = Ok line_index /\
     @HandleIndex.max_line_number (@HandleIndex.new Sample.three_records Sample.lldxf [])
     = -2 /\
     LineIndex.max_line_number line_index = 1) /\
  (exists line_index,
     @LineIndex.new Sample.three_records Sample.lldxf
       (Sample.header_entities ++ [("OBJECTS"%string, [])]) = Ok line_index /\
     @HandleIndex.max_line_number
       (@HandleIndex.new Sample.three_records Sample.lldxf
          (Sample.header_entities ++ [("OBJECTS"%string, [])])) = 22 /\
     LineIndex.max_line_number line_index = 20).
Proof. split; eexists; repeat split. Qed.

(** ** LineIndex: order and lookup *)

Section LineOrderFacts.
Context {store : ObjectStore} {ezdxf : LLDXF}.
Import LineIndex.

Lemma gtb_false (a b : Z) : a <= b -> (a >? b) = false.
Proof. intros. rewrite Z.gtb_ltb. apply Z.ltb_ge. lia. Qed.

Lemma gtb_true (a b : Z) : b < a -> (a >? b) = true.
Proof. intros. rewrite Z.gtb_ltb. apply Z.ltb_lt. lia. Qed.

(** The start lines of a chain of records that all have a tag increase. *)
Lemma chain_sorted (l : list Line) (lo : Z) :
  chain lo l ->
  (forall e, e ∈ map snd l -> heap e <> []) ->
  StronglySorted Z.lt (map fst l) /\ Forall (fun s => lo <= s) (map fst l).
Proof.
  revert lo. induction l as [|[s e] r IH]; intros lo; simpl.
  - intros _ _. split; constructor.
  - intros [Hlo Hr] Hne.
    destruct (IH _ Hr) as [Hs Hf]; [intros x Hx; apply Hne; by right|].
    assert (0 < len e) as Hlen.
    { pose proof (len_nonneg e). assert (len e <> 0); [|lia].
      intros Hz. apply len_zero in Hz. revert Hz. apply Hne. by left. }
    split.
    + constructor; [done|]. eapply Forall_impl; [exact Hf|]. simpl. intros. lia.
    + constructor; [lia|]. eapply Forall_impl; [exact Hf|]. simpl. intros. lia.
Qed.

(** In an index with increasing start lines, the scan for the start line of
    a record ends on that record. *)
Lemma scan_start (l : list Line) (s : Z) (r init : ObjRef) :
  StronglySorted Z.lt (map fst l) -> (s, r) ∈ l -> scan s init l = r.
Proof.
  revert init. induction l as [|[s0 e0] rest IH]; intros init Hs Hin.
  - by apply elem_of_nil in Hin.
  - simpl in Hs. apply StronglySorted_inv in Hs as [Hs Hf].
    apply elem_of_cons in Hin as [[= -> ->]|Hin]; simpl.
    + rewrite gtb_false by lia.
      destruct rest as [|[s1 e1] rest']; simpl; [done|].
      simpl in Hf. apply Forall_cons in Hf as [Hlt _].
      by rewrite gtb_true by lia.
    + assert (s0 < s) as Hlt.
      { rewrite Forall_forall in Hf. apply Hf.
        by apply (list_elem_of_fmap_2 fst) in Hin. }
      rewrite gtb_false by lia. by apply IH.
Qed.

(** C4, as the code has it. For a mapping whose records all have at least
    one tag, the start lines of the sorted line index are strictly
    increasing, and for every record r of the mapping
    [get_entity_at_line(get_start_line_for_entity(r))] is r. *)
Theorem LineIndex_sorted_and_round_trip (sections : SectionDict) :
  (forall r, r ∈ records sections -> heap r <> []) ->
  exists self,
    new sections = Ok self /\
    StronglySorted Z.lt (map fst (_line_index self)) /\
    forall r, r ∈ records sections ->
      get_entity_at_line self (get_start_line_for_entity self r) = Some r.
Proof.
  intros Hne. rewrite new_layout. eexists. split; [reflexivity|]. simpl.
  destruct (chain_sorted (layout 1 sections) 1 (chain_layout sections 1)) as [Hs _].
  { by rewrite layout_snd. }
  split; [exact Hs|]. intros r Hr.
  unfold get_start_line_for_entity, get_entity_at_line. simpl.
  rewrite build_entity_index_layout.
  destruct (index_line_lookup (layout 1 sections) ∅ r) as (s & -> & Hin).
  { by rewrite layout_snd. }
  simpl. destruct (layout 1 sections) as [|[s0 e0] rest] eqn:E.
  - by apply elem_of_nil in Hin.
  - f_equal. by apply scan_start.
Qed.

End LineOrderFacts.

Lemma LineIndex_sorted_and_round_trip_witness :
  exists self,
    @LineIndex.new Sample.three_records Sample.lldxf Sample.header_entities = Ok self /\
    StronglySorted Z.lt (map fst (LineIndex._line_index self)) /\
    forall r, r ∈ records Sample.header_entities ->
      LineIndex.get_entity_at_line self (LineIndex.get_start_line_for_entity self r)
      = Some r.
Proof.
  apply (@LineIndex_sorted_and_round_trip Sample.three_records Sample.lldxf
           Sample.header_entities).
  intros r Hr. unfold records, Sample.header_entities in Hr. simpl in Hr.
  repeat (apply elem_of_cons in Hr as [->|Hr]; [discriminate|]).
  by apply elem_of_nil in Hr.
Defined.

(** C4 as stated fails: a record without tags starts at the line of the
    record after it. The start lines are then 1 and 1, and the record found
    at the start line of the first record is the second one. *)
Lemma LineIndex_sorted_and_round_trip_counterexample :
  exists self,
    @LineIndex.new Sample.empty_record Sample.lldxf [("ENTITIES"%string, [0; 1]%nat)]
    = Ok self /\
    map fst (LineIndex._line_index self) = [1; 1] /\
    LineIndex.get_entity_at_line self (LineIndex.get_start_line_for_entity self 0%nat)
    = Some 1%nat.
Proof. eexists. split; [vm_compute; reflexivity|]. vm_compute. done. Qed.

(** ** Lines before the first record *)

Section BeforeFirstFacts.
Context {store : ObjectStore} {ezdxf : LLDXF}.

Lemma chain_lower_bound (l : list Line) (lo : Z) :
  chain lo l -> forall line, line ∈ l -> lo <= fst line.
Proof.
  revert lo. induction l as [|[s e] r IH]; intros lo; simpl.
  - intros _ line Hin. by apply elem_of_nil in Hin.
  - intros [Hlo Hr] line Hin. apply elem_of_cons in Hin as [->|Hin]; [done|].
    pose proof (IH _ Hr line Hin). pose proof (len_nonneg e). lia.
Qed.

Lemma dict_set_values {V} (k : string) (v x : V) (d : list (string * V)) :
  x ∈ dict_values (dict_set k v d) -> x = v \/ x ∈ dict_values d.
Proof.
  unfold dict_values. induction d as [|[k' v'] d IH]; simpl.
  - intros Hin. apply elem_of_cons in Hin as [->|Hin]; [by left|by right].
  - destruct (String.eqb k k'); simpl; intros Hin.
    + apply elem_of_cons in Hin as [->|Hin]; [by left|]. right. by right.
    + apply elem_of_cons in Hin as [->|Hin]; [right; by left|].
      destruct (IH Hin) as [->|Hd]; [by left|]. right. by right.
Qed.

Lemma index_from_values (handles : list string) (i : nat)
    (d : list (string * HandleIndex.EntryRef)) (x : HandleIndex.EntryRef) :
  x ∈ dict_values (index_from i handles d) ->
  x ∈ dict_values d \/ (i <= x < i + length handles)%nat.
Proof.
  revert i d. induction handles as [|h l IH]; intros i d; simpl; [by left|].
  intros Hin. destruct (IH _ _ Hin) as [Hd|Hx]; [|right; lia].
  destruct (dict_set_values _ _ _ _ Hd) as [->|Hd']; [right; lia|by left].
Qed.

(** Every reference held by a built index is the reference of an entry. *)
Lemma build_refs_valid (sections : SectionDict) (x : HandleIndex.EntryRef) :
  x ∈ dict_values (HandleIndex._index (HandleIndex.new sections)) ->
  (x < length (HandleIndex.entries (HandleIndex.new sections)))%nat.
Proof.
  rewrite new_index, new_entries, entries_of_length. unfold index_of.
  intros Hin. destruct (index_from_values _ _ _ _ Hin) as [Hd|Hx].
  - by apply elem_of_nil in Hd.
  - rewrite handles_from_length in Hx. rewrite <- (layout_snd sections 1) in Hx.
    rewrite length_map in Hx. lia.
Qed.

(** Every entry of a built index is the entry of a line of the layout. *)
Lemma values_in_layout (sections : SectionDict) (e : HandleIndex.IndexEntry) :
  e ∈ HandleIndex.values (HandleIndex.new sections) ->
  (HandleIndex.start_line_number e, HandleIndex.tags e) ∈ layout 1 sections.
Proof.
  unfold HandleIndex.values. intros Hin.
  apply list_elem_of_fmap_1 in Hin as (x & -> & Hx).
  pose proof (build_refs_valid sections x Hx) as Hlt.
  rewrite new_entries in *. rewrite entries_of_length in Hlt.
  unfold HandleIndex.deref. rewrite entries_of_lookup by done. simpl.
  destruct (nth_lookup_or_length (layout 1 sections) x (0, 0%nat)) as [Hl|Hl]; [|lia].
  apply list_elem_of_lookup_2 in Hl. by destruct (nth x (layout 1 sections) (0, 0%nat)).
Qed.

(** C9. When the mapping has no record, both [get_entity_at_line] return
    None for every line. Otherwise the first record starts, in the line
    index and in the first entry of the handle index, at the same line, and
    for every line number below it [LineIndex.get_entity_at_line] returns
    the first record while [HandleIndex.get_entity_at_line] returns None. *)
Theorem get_entity_at_line_before_first (sections : SectionDict) :
  exists line_index,
    LineIndex.new sections = Ok line_index /\
    (records sections = [] ->
     forall number,
       LineIndex.get_entity_at_line line_index number = None /\
       HandleIndex.get_entity_at_line (HandleIndex.new sections) number = None) /\
    (forall first rest, records sections = first :: rest ->
     exists start,
       head (LineIndex._line_index line_index) = Some (start, first) /\
       HandleIndex.start_line_number
         <$> head (HandleIndex.entries (HandleIndex.new sections)) = Some start /\
       forall number, number < start ->
         LineIndex.get_entity_at_line line_index number = Some first /\
         HandleIndex.get_entity_at_line (HandleIndex.new sections) number = None).
Proof.
  rewrite new_layout. eexists. split; [reflexivity|]. rewrite new_entries.
  unfold LineIndex.get_entity_at_line, HandleIndex.get_entity_at_line. simpl.
  pose proof (layout_snd sections 1) as Hsnd.
  pose proof (chain_layout sections 1) as Hch.
  pose proof (values_in_layout sections) as Hval.
  split.
  - intros Hrec number. rewrite Hrec in Hsnd.
    destruct (layout 1 sections) as [|? ?]; [|done]. split; [done|].
    destruct (HandleIndex.values (HandleIndex.new sections)) as [|e l]; [done|].
    specialize (Hval e). exfalso. eapply elem_of_nil, Hval. by left.
  - intros first rest Hrec. rewrite Hrec in Hsnd.
    destruct (layout 1 sections) as [|[start e0] lines] eqn:E; [done|].
    simpl in Hsnd. injection Hsnd as -> Hrest.
    exists start. split; [done|]. split; [done|].
    intros number Hlt. simpl. rewrite gtb_true by lia. split; [done|].
    destruct (HandleIndex.values (HandleIndex.new sections)) as [|e l]; [done|].
    simpl. rewrite gtb_true; [done|].
    assert ((HandleIndex.start_line_number e, HandleIndex.tags e)
              ∈ (start, first) :: lines) as Hin by (apply Hval; by left).
    simpl in Hch. destruct Hch as [_ Hch].
    apply elem_of_cons in Hin as [[= -> _]|Hin]; [lia|].
    pose proof (chain_lower_bound _ _ Hch _ Hin) as Hlo. simpl in Hlo.
    pose proof (len_nonneg first). lia.
Qed.

End BeforeFirstFacts.

Section BeforeFirstChecks.
#[local] Existing Instance Sample.lldxf.
#[local] Existing Instance Sample.three_records.

(** An empty section first: the first record starts at line 3, and for the
    lines 0 and 2 the line index gives the first record, the handle index
    None. *)
Example before_first_record :
  let sections := ("EMPTY"%string, []) :: Sample.header_entities in
  exists line_index,
    LineIndex.new sections = Ok line_index /\
    LineIndex.get_entity_at_line line_index 0 = Some 0%nat /\
    LineIndex.get_entity_at_line line_index 2 = Some 0%nat /\
    LineIndex.get_entity_at_line line_index 3 = Some 0%nat /\
    LineIndex.get_entity_at_line line_index 11 = Some 1%nat /\
    HandleIndex.get_entity_at_line (HandleIndex.new sections) 0 = None /\
    HandleIndex.get_entity_at_line (HandleIndex.new sections) 2 = None /\
    HandleIndex.get_entity_at_line (HandleIndex.new sections) 3 = Some 0%nat /\
    HandleIndex.get_entity_at_line (HandleIndex.new sections) 11 = Some 1%nat.
Proof. eexists. split; [vm_compute; reflexivity|]. vm_compute. repeat split. Qed.

Lemma get_entity_at_line_before_first_witness :
  exists line_index,
    LineIndex.new (("EMPTY"%string, []) :: Sample.header_entities) = Ok line_index /\
    LineIndex.get_entity_at_line line_index 2 = Some 0%nat /\
    HandleIndex.get_entity_at_line
      (HandleIndex.new (("EMPTY"%string, []) :: Sample.header_entities)) 2 = None.
Proof.
  destruct (get_entity_at_line_before_first
              (("EMPTY"%string, []) :: Sample.header_entities))
    as (line_index & Hnew & _ & Hfirst).
  exists line_index. split; [exact Hnew|].
  destruct (Hfirst 0%nat [1; 2]%nat eq_refl) as (start & Hhead & _ & Hbefore).
  apply Hbefore.
  rewrite new_layout in Hnew. injection Hnew as <-. simpl in Hhead.
  injection Hhead as <-. lia.
Defined.

End BeforeFirstChecks.

(** ** HandleIndex: the dict when no handle is given twice *)

Section HandleOrderFacts.
Context {store : ObjectStore} {ezdxf : LLDXF}.
Import HandleIndex.

Lemma dict_set_fresh {V} (k : string) (v : V) (d : list (string * V)) :
  k ∉ map fst d -> dict_set k v d = d ++ [(k, v)].
Proof.
  induction d as [|[k' v'] d IH]; simpl; [done|].
  intros Hk. apply not_elem_of_cons in Hk as [Hne Hk].
  destruct (String.eqb_spec k k') as [->|_]; [done|]. by rewrite IH.
Qed.

(** Without a repeated handle the dict holds the handles in file order, each
    with the reference of its entry. *)
Lemma index_from_fresh (handles : list string) (i : nat) (d : list (string * EntryRef)) :
  NoDup handles ->
  (forall h, h ∈ handles -> h ∉ map fst d) ->
  index_from i handles d = d ++ zip handles (seq i (length handles)).
Proof.
  revert i d. induction handles as [|h l IH]; intros i d Hnd Hfresh; simpl.
  - by rewrite app_nil_r.
  - apply NoDup_cons in Hnd as [Hh Hnd].
    rewrite dict_set_fresh by (apply Hfresh; by left).
    rewrite IH; [by rewrite <- app_assoc|done|].
    intros h' Hh'. rewrite map_app. simpl. intros Hin.
    apply elem_of_app in Hin as [Hin|Hin].
    + revert Hin. apply Hfresh. by right.
    + apply list_elem_of_singleton in Hin as ->. done.
Qed.

Lemma index_of_NoDup (handles : list string) :
  NoDup handles -> index_of handles = zip handles (seq 0 (length handles)).
Proof.
  intros Hnd. unfold index_of. rewrite index_from_fresh; [done..|].
  intros h _ Hin. by apply elem_of_nil in Hin.
Qed.

Lemma entries_of_tags (lines : list Line) (handles : list string) :
  map tags (entries_of lines handles) = map snd lines.
Proof.
  apply list_eq. intros i. rewrite !list_lookup_fmap.
  destruct (nth_lookup_or_length lines i (0, 0%nat)) as [Hl|Hl].
  - rewrite entries_of_lookup by (by eapply lookup_lt_Some). by rewrite Hl.
  - rewrite (lookup_ge_None_2 lines) by lia.
    by rewrite lookup_ge_None_2 by (rewrite entries_of_length; lia).
Qed.

Lemma entries_of_handles (lines : list Line) (handles : list string) :
  length handles = length lines ->
  map handle (entries_of lines handles) = map Some handles.
Proof.
  intros Hlen. apply list_eq. intros i. rewrite !list_lookup_fmap.
  destruct (nth_lookup_or_length handles i EmptyString) as [Hl|Hl].
  - rewrite entries_of_lookup by (rewrite <- Hlen; by eapply lookup_lt_Some).
    by rewrite Hl.
  - rewrite (lookup_ge_None_2 handles) by lia.
    by rewrite lookup_ge_None_2 by (rewrite entries_of_length; lia).
Qed.

(** The handles of the entries created by the build. *)
Lemma new_handles (sections : SectionDict) :
  map handle (entries (new sections))
  = map Some (handles_from 1 (records sections)).
Proof.
  rewrite new_entries, entries_of_handles; [done|].
  by rewrite handles_from_length, <- (layout_snd sections 1), length_map.
Qed.

Lemma new_NoDup_handles (sections : SectionDict) :
  NoDup (map handle (entries (new sections))) ->
  NoDup (handles_from 1 (records sections)).
Proof.
  rewrite new_handles. intros Hnd. by apply (NoDup_fmap_1 Some) in Hnd.
Qed.

Lemma deref_all (l : list IndexEntry) : map (deref l) (seq 0 (length l)) = l.
Proof.
  apply list_eq. intros i. rewrite list_lookup_fmap.
  destruct (l !! i) as [e|] eqn:E.
  - rewrite lookup_seq_lt by (by eapply lookup_lt_Some). simpl.
    unfold deref. by rewrite E.
  - rewrite lookup_seq_ge; [done|]. by apply lookup_ge_None.
Qed.

(** The dict of a build that gave no handle twice. *)
Lemma new_index_NoDup (sections : SectionDict) :
  NoDup (map handle (entries (new sections))) ->
  _index (new sections)
  = zip (handles_from 1 (records sections)) (seq 0 (length (records sections))).
Proof.
  intros Hnd. rewrite new_index, index_of_NoDup by (by apply new_NoDup_handles).
  by rewrite handles_from_length.
Qed.

(** C6, as the code has it. When the handles given to the records, read or
    made up, are pairwise distinct after [upper()], the entries of the
    index, in the order of the dict, hold the records of the mapping in
    file order. *)
Theorem HandleIndex_file_order (sections : SectionDict) :
  NoDup (map handle (entries (new sections))) ->
  map tags (values (new sections)) = records sections.
Proof.
  intros Hnd. unfold values, dict_values. rewrite (new_index_NoDup _ Hnd).
  rewrite snd_zip by (rewrite handles_from_length, length_seq; lia).
  assert (length (records sections) = length (entries (new sections))) as ->.
  { by rewrite new_entries, entries_of_length, <- (layout_snd sections 1), length_map. }
  rewrite deref_all, new_entries, entries_of_tags. apply layout_snd.
Qed.

End HandleOrderFacts.

Lemma HandleIndex_file_order_witness :
  map HandleIndex.tags
    (HandleIndex.values
       (@HandleIndex.new Sample.three_records Sample.lldxf Sample.header_entities))
  = records Sample.header_entities.
Proof.
  apply (@HandleIndex_file_order Sample.three_records Sample.lldxf Sample.header_entities).
  apply (bool_decide_unpack _). vm_compute. exact I.
Defined.

(** C6 as stated fails: two records whose handles are equal after [upper()]
    share one entry of the dict, which holds the later record. *)
Lemma HandleIndex_file_order_counterexample :
  map HandleIndex.tags
    (HandleIndex.values
       (@HandleIndex.new Sample.duplicate_handle Sample.lldxf
          [("ENTITIES"%string, [0; 1]%nat)]))
  = [1%nat]
  /\ records [("ENTITIES"%string, [0; 1]%nat)] = [0; 1]%nat.
Proof. split; vm_compute; reflexivity. Qed.

(** ** HandleIndex: dummy handles *)

Section DummyHandleFacts.
Context {store : ObjectStore} {ezdxf : LLDXF}.
Import HandleIndex.








Lemma entries_of_pairs (lines : list Line) (handles : list string) :
  length handles = length lines ->
  map (fun e => (handle e, tags e)) (entries_of lines handles)
  = zip (map Some handles) (map snd lines).
Proof.
  intros Hlen. rewrite <- entries_of_tags with (handles := handles).
  rewrite <- (entries_of_handles lines handles Hlen).
  induction (entries_of lines handles) as [|e l IH]; simpl; [done|]. by rewrite IH.
Qed.






Lemma dict_get_set_same {V} (k : string) (v : V) (d : list (string * V)) :
  dict_get k (dict_set k v d) = Some v.
Proof.
  induction d as [|[k' v'] d IH]; simpl.
  - by rewrite String.eqb_refl.
  - destruct (String.eqb k k') eqn:E; simpl; by rewrite E.
Qed.





End DummyHandleFacts.

Section DummyHandleChecks.
#[local] Existing Instance Sample.lldxf.
#[local] Existing Instance Sample.header_variables.

Example dummy_handles_of_header_variables :
  map HandleIndex.handle
    (dummy_entries (HandleIndex.new [("HEADER"%string, [0; 1; 2]%nat)]))
  = [Some "*1"%string; Some "*2"%string]
  /\ map fst (HandleIndex._index (HandleIndex.new [("HEADER"%string, [0; 1; 2]%nat)]))
    = ["*1"%string; "2A"%string; "*2"%string].
Proof. split; vm_compute; reflexivity. Qed.


End DummyHandleChecks.

(** ** HandleIndex: next and previous entity *)

Section NavigationFacts.
Context {store : ObjectStore} {ezdxf : LLDXF}.
Import HandleIndex.

Lemma find_unique {A} (f : A -> bool) (l : list A) (i : nat) (x : A) :
  l !! i = Some x ->
  f x = true ->
  (forall j y, l !! j = Some y -> f y = true -> j = i) ->
  List.find f l = Some x.
Proof.
  revert i. induction l as [|a l IH]; intros i Hi Hx Huniq; [done|].
  simpl. destruct (f a) eqn:Ea.
  - assert (0%nat = i) as <- by (by apply (Huniq 0%nat a)).
    by injection Hi as ->.
  - destruct i as [|i]; [injection Hi as ->; congruence|].
    apply (IH i); [done..|]. intros j y Hj Hy.
    assert (S j = S i) by (by apply (Huniq (S j) y)). lia.
Qed.

Lemma dict_get_zip (handles : list string) (h : string) (i k : nat) :
  NoDup handles ->
  handles !! i = Some h ->
  dict_get h (zip handles (seq k (length handles))) = Some (k + i)%nat.
Proof.
  revert i k. induction handles as [|x l IH]; intros i k Hnd Hi; [done|].
  apply NoDup_cons in Hnd as [Hx Hnd]. simpl.
  destruct i as [|i]; simpl in Hi.
  - injection Hi as ->. rewrite String.eqb_refl. f_equal. lia.
  - destruct (String.eqb_spec h x) as [->|_].
    + exfalso. apply Hx. by eapply list_elem_of_lookup_2.
    + rewrite (IH i (S k)) by done. f_equal. lia.
Qed.

Lemma handles_from_lookup (recs : list ObjRef) (d : Z) (i : nat) (r : ObjRef) :
  recs !! i = Some r ->
  handles_from d recs !! i = Some (fst (assign_handle (dummy_after d (take i recs)) r)).
Proof.
  revert d i. induction recs as [|x l IH]; intros d i Hi; [done|].
  destruct i as [|i]; simpl in *; [by injection Hi as ->|]. by apply IH.
Qed.

Section Resolved.
Variable sections : SectionDict.
Hypothesis not_empty : forall r, r ∈ records sections -> heap r <> [].
Hypothesis distinct_handles : NoDup (map handle (entries (new sections))).
Hypothesis upper_handles :
  forall r h, r ∈ records sections -> Tags_get_handle (heap r) = Some h -> upper h = h.
Hypothesis distinct_first_tags : NoDup (map first_tag_id (records sections)).

Lemma records_length : length (layout 1 sections) = length (records sections).
Proof. by rewrite <- (layout_snd sections 1), length_map. Qed.

Lemma entry_lookup (i : nat) (r : ObjRef) :
  records sections !! i = Some r ->
  exists s,
    deref (entries (new sections)) i
    = {| tags := r;
         handle := Some (nth i (handles_from 1 (records sections)) EmptyString);
         start_line_number := s;
         prev := match i with O => None | S j => Some j end;
         next := if (S i <? length (records sections))%nat then Some (S i) else None |}.
Proof.
  intros Hi. pose proof (lookup_lt_Some _ _ _ Hi) as Hlt.
  unfold deref. rewrite new_entries, entries_of_lookup by (by rewrite records_length).
  simpl. unfold entry_at. rewrite records_length.
  assert (snd (nth i (layout 1 sections) (0, 0%nat)) = r) as ->.
  { rewrite <- (layout_snd sections 1) in Hi. rewrite list_lookup_fmap in Hi.
    destruct (nth_lookup_or_length (layout 1 sections) i (0, 0%nat)) as [Hl|Hl].
    - rewrite Hl in Hi. by injection Hi.
    - rewrite records_length in Hl. lia. }
  by eexists.
Qed.

(** The handle of an indexed record resolves to the entry of the record. *)
Lemma get_handle_resolves (i : nat) (r : ObjRef) :
  records sections !! i = Some r ->
  exists h,
    get_handle (new sections) r = Some h /\
    dict_get h (_index (new sections)) = Some i.
Proof.
  intros Hi. pose proof (lookup_lt_Some _ _ _ Hi) as Hlt.
  assert (r ∈ records sections) as Hr by (by eapply list_elem_of_lookup_2).
  pose proof (new_NoDup_handles _ distinct_handles) as Hnd.
  pose proof (handles_from_lookup _ 1 _ _ Hi) as Hh.
  set (d := dummy_after 1 (take i (records sections))) in Hh.
  exists (fst (assign_handle d r)). split.
  2:{ rewrite (new_index_NoDup _ distinct_handles).
      rewrite <- (handles_from_length (records sections) 1).
      by rewrite (dict_get_zip _ _ i 0%nat Hnd Hh). }
  unfold get_handle. destruct (heap r) as [|first_tag rest] eqn:Er.
  { exfalso. by apply (not_empty r). }
  rewrite <- Er. unfold assign_handle.
  destruct (Tags_get_handle (heap r)) as [h|] eqn:Eh; cbn [fst].
  { f_equal. symmetry. by apply (upper_handles r). }
  rewrite (new_index_NoDup _ distinct_handles).
  erewrite (find_unique _ _ i (_, i)); [done| | |].
  - rewrite lookup_zip_with, Hh. cbn [mbind option_bind]. rewrite lookup_seq_lt by done.
    cbn [fmap option_map]. unfold assign_handle. rewrite Eh. reflexivity.
  - cbn [snd]. destruct (entry_lookup i r Hi) as [s ->]. unfold first_tag_is.
    cbn [tags]. rewrite Er. apply Nat.eqb_refl.
  - intros j [hj xj] Hj Hf. cbn [snd] in Hf.
    apply lookup_zip_with_Some in Hj as (hj' & xj' & [= <- <-] & Hhj & Hxj).
    apply lookup_seq in Hxj as [-> Hjlt]. rewrite Nat.add_0_l in *.
    destruct (lookup_lt_is_Some_2 (records sections) j Hjlt) as [rj Hrj].
    destruct (entry_lookup j rj Hrj) as [s Hs]. rewrite Hs in Hf.
    unfold first_tag_is in Hf. cbn [tags] in Hf.
    destruct (heap rj) as [|tag0 restj] eqn:Erj; [done|].
    apply Nat.eqb_eq in Hf.
    eapply (NoDup_lookup _ _ _ _ distinct_first_tags).
    + rewrite list_lookup_fmap, Hrj. simpl. unfold first_tag_id. rewrite Erj. reflexivity.
    + rewrite list_lookup_fmap, Hi. simpl. unfold first_tag_id. rewrite Er. simpl.
      by rewrite Hf.
Qed.

Lemma next_entity_at (i : nat) (r : ObjRef) :
  records sections !! i = Some r ->
  next_entity (new sections) r = Ok (default r (records sections !! S i)).
Proof.
  intros Hi. destruct (get_handle_resolves i r Hi) as (h & Hh & Hd).
  unfold next_entity. rewrite Hh, Hd.
  destruct (entry_lookup i r Hi) as [s ->]. cbn [next].
  destruct (Nat.ltb_spec (S i) (length (records sections))) as [Hlt|Hge].
  - destruct (lookup_lt_is_Some_2 (records sections) (S i) Hlt) as [r' Hr'].
    destruct (entry_lookup (S i) r' Hr') as [s' ->]. by rewrite Hr'.
  - by rewrite lookup_ge_None_2 by lia.
Qed.

Lemma previous_entity_at (i : nat) (r : ObjRef) :
  records sections !! i = Some r ->
  previous_entity (new sections) r
  = Ok (match i with O => r | S j => default r (records sections !! j) end).
Proof.
  intros Hi. destruct (get_handle_resolves i r Hi) as (h & Hh & Hd).
  unfold previous_entity. rewrite Hh, Hd.
  destruct (entry_lookup i r Hi) as [s ->]. cbn [prev].
  destruct i as [|j]; [done|].
  assert (j < length (records sections))%nat as Hlt
    by (apply lookup_lt_Some in Hi; lia).
  destruct (lookup_lt_is_Some_2 (records sections) j Hlt) as [r' Hr'].
  destruct (entry_lookup j r' Hr') as [s' ->]. by rewrite Hr'.
Qed.

End Resolved.

(** C5, as the code has it. Let every record of the mapping have a tag, the
    handles given to the records be pairwise distinct, every handle read
    from a record be in upper case already, and the first tags of the
    records be pairwise distinct objects. Then for a record r with a record
    p before it, [previous_entity(r)] is p and [next_entity(p)] is r; for the
    last record r, [next_entity(r)] is r; for the first record r,
    [previous_entity(r)] is r. *)
Theorem HandleIndex_next_previous (sections : SectionDict) :
  (forall r, r ∈ records sections -> heap r <> []) ->
  NoDup (map handle (entries (new sections))) ->
  (forall r h, r ∈ records sections -> Tags_get_handle (heap r) = Some h -> upper h = h) ->
  NoDup (map first_tag_id (records sections)) ->
  (forall before p r after, records sections = before ++ p :: r :: after ->
     previous_entity (new sections) r = Ok p /\ next_entity (new sections) p = Ok r) /\
  (forall before r, records sections = before ++ [r] ->
     next_entity (new sections) r = Ok r) /\
  (forall r after, records sections = r :: after ->
     previous_entity (new sections) r = Ok r).
Proof.
  intros H1 H2 H3 H4. split; [|split].
  - intros before p r after Hrec.
    assert (records sections !! length before = Some p) as Hp.
    { rewrite Hrec, lookup_app_r, Nat.sub_diag by lia. done. }
    assert (records sections !! S (length before) = Some r) as Hr.
    { rewrite Hrec, lookup_app_r by lia.
      by replace (S (length before) - length before)%nat with 1%nat by lia. }
    rewrite (previous_entity_at sections H1 H2 H3 H4 _ _ Hr), Hp.
    rewrite (next_entity_at sections H1 H2 H3 H4 _ _ Hp), Hr. done.
  - intros before r Hrec.
    assert (records sections !! length before = Some r) as Hr.
    { rewrite Hrec, lookup_app_r, Nat.sub_diag by lia. done. }
    rewrite (next_entity_at sections H1 H2 H3 H4 _ _ Hr).
    rewrite lookup_ge_None_2; [done|]. rewrite Hrec, length_app. simpl. lia.
  - intros r after Hrec.
    assert (records sections !! 0%nat = Some r) as Hr by (by rewrite Hrec).
    by rewrite (previous_entity_at sections H1 H2 H3 H4 _ _ Hr).
Qed.

End NavigationFacts.

Section NavigationChecks.
#[local] Existing Instance Sample.lldxf.

Section ThreeRecords.
#[local] Existing Instance Sample.three_records.

Lemma HandleIndex_next_previous_witness :
  let self := HandleIndex.new Sample.header_entities in
  (forall before p r after,
     records Sample.header_entities = before ++ p :: r :: after ->
     HandleIndex.previous_entity self r = Ok p /\ HandleIndex.next_entity self p = Ok r) /\
  (forall before r, records Sample.header_entities = before ++ [r] ->
     HandleIndex.next_entity self r = Ok r) /\
  (forall r after, records Sample.header_entities = r :: after ->
     HandleIndex.previous_entity self r = Ok r).
Proof.
  apply (HandleIndex_next_previous Sample.header_entities).
  - intros r Hr. unfold records, Sample.header_entities in Hr. simpl in Hr.
    repeat (apply elem_of_cons in Hr as [->|Hr]; [discriminate|]).
    by apply elem_of_nil in Hr.
  - apply (bool_decide_unpack _). vm_compute. exact I.
  - intros r h Hr. unfold records, Sample.header_entities in Hr. simpl in Hr.
    repeat (apply elem_of_cons in Hr as [->|Hr];
            [simpl; intros Hh; try discriminate; injection Hh as <-; reflexivity|]).
    by apply elem_of_nil in Hr.
  - apply (bool_decide_unpack _). vm_compute. exact I.
Defined.

End ThreeRecords.

Section EmptyBetween.
#[local] Existing Instance Sample.empty_between.

(** C5 as stated fails: the record before an interior record may have no
    tags. [get_handle] returns None for it, so [next_entity] returns the
    record itself: for the third of four records, [previous_entity] gives
    the second record, and [next_entity] of that is the second record. *)
Lemma HandleIndex_next_previous_counterexample :
  let sections := [("ENTITIES"%string, [0; 1; 2; 3]%nat)] in
  let self := HandleIndex.new sections in
  records sections = [0; 1; 2; 3]%nat /\
  HandleIndex.previous_entity self 2%nat = Ok 1%nat /\
  HandleIndex.next_entity self 1%nat = Ok 1%nat.
Proof. repeat split; vm_compute; reflexivity. Qed.

End EmptyBetween.

Section SameHandle.
#[local] Existing Instance Sample.same_handle.

(** Two records with one handle share the entry of the later one: the
    record after the first is the record after the second. *)
Example next_entity_same_handle :
  let self := HandleIndex.new [("ENTITIES"%string, [0; 1; 2]%nat)] in
  HandleIndex.previous_entity self 1%nat = Ok 0%nat /\
  HandleIndex.next_entity self 0%nat = Ok 2%nat.
Proof. split; vm_compute; reflexivity. Qed.

End SameHandle.

Section RepeatedRecord.
#[local] Existing Instance Sample.three_records.

(** A record without a handle that stands twice in the file is found at
    its first place: [next_entity] of the last record is then the record
    after that place. *)
Example next_entity_repeated_record :
  let self := HandleIndex.new [("ENTITIES"%string, [1; 0; 2; 0]%nat)] in
  HandleIndex.get_handle self 0%nat = Some "*1"%string /\
  HandleIndex.next_entity self 0%nat = Ok 2%nat.
Proof. split; vm_compute; reflexivity. Qed.

End RepeatedRecord.

Section DuplicateHandle.
#[local] Existing Instance Sample.duplicate_handle.

(** A handle in lower case is stored in upper case but looked up as it is:
    [next_entity] then reads [.next] of None. *)
Example next_entity_lower_case_handle :
  HandleIndex.next_entity (HandleIndex.new [("ENTITIES"%string, [0]%nat)]) 0%nat
  = Raise AttributeError.
Proof. vm_compute. reflexivity. Qed.

End DuplicateHandle.
End NavigationChecks.

(** ** SearchIndex *)

Section SearchFacts.
Context {store : ObjectStore} {ezdxf : LLDXF}.
Import SearchIndex.

Lemma move_cursor_forward_settings (self self' : t) :
  move_cursor_forward self = Ok self' -> same_settings self self'.
Proof.
  unfold move_cursor_forward. destruct (entities self) eqn:E.
  - intros [= <-]. by repeat split.
  - destruct (getitem _ _) as [entity|]; simpl; [|done].
    repeat case_match; intros [= <-]; by repeat split.
Qed.

Lemma move_cursor_backward_settings (self self' : t) :
  move_cursor_backward self = Ok self' -> same_settings self self'.
Proof.
  unfold move_cursor_backward. destruct (entities self) eqn:E.
  - intros [= <-]. by repeat split.
  - repeat case_match; simpl; try destruct (getitem _ _); simpl;
      try done; intros [= <-]; by repeat split.
Qed.

Lemma getitem_Ok {A} (l : list A) (i : Z) (x : A) :
  getitem l i = Ok x ->
  x ∈ l /\ - Z.of_nat (length l) <= i < Z.of_nat (length l).
Proof.
  unfold getitem. destruct (i <? 0) eqn:Ei.
  - apply Z.ltb_lt in Ei.
    destruct (0 <=? i + _) eqn:E1; simpl; [|done]. apply Z.leb_le in E1.
    destruct (i + _ <? _) eqn:E2; [|done].
    destruct (l !! _) eqn:El; [|done]. intros [= <-].
    split; [by eapply list_elem_of_lookup_2|lia].
  - apply Z.ltb_ge in Ei.
    destruct (0 <=? i) eqn:E1; simpl; [|done].
    destruct (i <? _) eqn:E2; [|done]. apply Z.ltb_lt in E2.
    destruct (l !! _) eqn:El; [|done]. intros [= <-].
    split; [by eapply list_elem_of_lookup_2|lia].
Qed.

Lemma tags_bound_elem (l : list ObjRef) (e : ObjRef) : e ∈ l -> len e < tags_bound l.
Proof.
  unfold tags_bound. induction l as [|x l IH]; intros Hin.
  - by apply elem_of_nil in Hin.
  - simpl. pose proof (len_nonneg x).
    apply elem_of_cons in Hin as [->|Hin]; [|specialize (IH Hin); lia].
    assert (0 <= fold_right (fun entity n => len entity + n) 0 l); [|lia].
    clear. induction l as [|y l IH]; simpl; [lia|]. pose proof (len_nonneg y). lia.
Qed.

(** The loop ends when every iteration that goes on lowers a measure. *)
Lemma find_loop_total (move_cursor : t -> result t) (W : t -> Z) :
  (forall s s1 e tag,
     getitem (entities s) (_current_entity_index s) = Ok e ->
     getitem (heap e) (_current_tag_index s) = Ok tag ->
     move_cursor s = Ok s1 -> _end_of_index s1 = false ->
     0 <= W s1 < W s) ->
  forall (fuel : nat) (s : t),
    (1 <= fuel)%nat ->
    (forall e tag,
       getitem (entities s) (_current_entity_index s) = Ok e ->
       getitem (heap e) (_current_tag_index s) = Ok tag ->
       W s < Z.of_nat fuel) ->
    exists r, find_loop fuel move_cursor s = Some r.
Proof.
  intros Hdec. induction fuel as [|fuel IH]; intros s Hfuel HW; [lia|]. simpl.
  destruct (_end_of_index s) eqn:Eend; [by eexists|].
  unfold current_entity. destruct (entities s) as [|e0 l0] eqn:Ee.
  { destruct (move_cursor s); by eexists. }
  rewrite Eend, <- Ee. rewrite <- Ee in HW.
  destruct (getitem (entities s) (_current_entity_index s)) as [e|] eqn:Eg; simpl;
    [|by eexists].
  destruct (move_cursor s) as [s1|] eqn:Em; [|by eexists].
  destruct (getitem (heap e) (_current_tag_index s)) as [tag|] eqn:Et; [|by eexists].
  destruct (_match s1 (code tag) (value tag)) as [[|]|]; [by eexists| |by eexists].
  destruct (_end_of_index s1) eqn:Eend1.
  { destruct fuel; simpl; rewrite Eend1; by eexists. }
  pose proof (Hdec s s1 e tag Eg Et Em Eend1) as Hlt.
  pose proof (HW e tag eq_refl Et) as Hs.
  apply IH; [lia|]. intros. lia.
Qed.

(** More fuel does not change a result. *)
Lemma find_loop_more_fuel (move_cursor : t -> result t) (fuel fuel' : nat) (s : t)
    (r : result ((option ObjRef * Z) * t)) :
  (fuel <= fuel')%nat ->
  find_loop fuel move_cursor s = Some r -> find_loop fuel' move_cursor s = Some r.
Proof.
  revert fuel' s. induction fuel as [|fuel IH]; intros fuel' s Hle.
  - simpl. destruct (_end_of_index s) eqn:E; [|done].
    intros <-. destruct fuel'; simpl; by rewrite E.
  - destruct fuel' as [|fuel']; [lia|]. simpl.
    repeat case_match; try done. apply IH. lia.
Qed.

Lemma forward_decreases (s s1 : t) (e : ObjRef) (tag : DXFTag) :
  getitem (entities s) (_current_entity_index s) = Ok e ->
  getitem (heap e) (_current_tag_index s) = Ok tag ->
  move_cursor_forward s = Ok s1 -> _end_of_index s1 = false ->
  0 <= forward_measure s1 < forward_measure s.
Proof.
  intros Eg Et Em Eend. unfold move_cursor_forward in Em.
  apply getitem_Ok in Et as [_ Ht]. pose proof Eg as Eg'.
  apply getitem_Ok in Eg' as [He Hi].
  destruct (entities s) as [|e0 l0] eqn:Ee; [by apply elem_of_nil in He|].
  rewrite <- Ee in *. apply tags_bound_elem in He.
  fold (len e) in Ht. unfold forward_measure.
  rewrite Eg in Em. simpl in Em. rewrite Z.geb_leb in Em.
  destruct (Z.leb_spec (len e) (_current_tag_index s + 1)).
  - destruct (Z.ltb_spec (_current_entity_index s + 1) (Z.of_nat (length (entities s)))).
    + injection Em as <-. simpl. nia.
    + injection Em as <-. simpl in Eend. rewrite Eend in *. done.
  - injection Em as <-. simpl. nia.
Qed.

Lemma backward_decreases (s s1 : t) (e : ObjRef) (tag : DXFTag) :
  getitem (entities s) (_current_entity_index s) = Ok e ->
  getitem (heap e) (_current_tag_index s) = Ok tag ->
  move_cursor_backward s = Ok s1 -> _end_of_index s1 = false ->
  0 <= backward_measure s1 < backward_measure s.
Proof.
  intros Eg Et Em Eend. unfold move_cursor_backward in Em.
  apply getitem_Ok in Et as [_ Ht]. pose proof Eg as Eg'.
  apply getitem_Ok in Eg' as [He Hi].
  destruct (entities s) as [|e0 l0] eqn:Ee; [by apply elem_of_nil in He|].
  rewrite <- Ee in *. apply tags_bound_elem in He.
  fold (len e) in Ht. unfold backward_measure.
  destruct (Z.ltb_spec (_current_tag_index s - 1) 0).
  - rewrite Z.geb_leb in Em.
    destruct (Z.leb_spec 0 (_current_entity_index s - 1)).
    + destruct (getitem (entities s) (_current_entity_index s - 1)) as [e'|] eqn:Eg1;
        [|done].
      simpl in Em. injection Em as <-. simpl.
      apply getitem_Ok in Eg1 as [He' _]. apply tags_bound_elem in He'.
      pose proof (len_nonneg e'). nia.
    + injection Em as <-. simpl in Eend. rewrite Eend in *. done.
  - injection Em as <-. simpl. nia.
Qed.

(** [find] returns, with a result or an exception, when it is given
    [enough_fuel]. *)
Lemma find_total (self : t) (term : string) (backward reset_index : bool) (fuel : nat) :
  (enough_fuel self <= fuel)%nat ->
  exists r, find fuel self term backward reset_index = Some r.
Proof.
  intros Hfuel. unfold find. set (s1 := if reset_index then _ else _).
  assert (entities s1 = entities self) as Hent.
  { subst s1. destruct reset_index; [|done]. unfold reset_cursor. simpl.
    destruct (last (entities self)); [|done]. by destruct backward. }
  unfold enough_fuel in Hfuel. rewrite <- Hent in Hfuel.
  assert (0 < tags_bound (entities s1)) as HM.
  { unfold tags_bound. clear. induction (entities s1) as [|x l IH]; simpl; [lia|].
    pose proof (len_nonneg x). lia. }
  destruct (entities s1) as [|e0 l0] eqn:Ee; [by eexists|].
  destruct (_end_of_index s1); simpl; [by eexists|].
  unfold find_backwards, find_forward, _find. rewrite Ee.
  destruct (truthy (_search_term s1) && _); [|destruct backward; by eexists].
  rewrite <- Ee in *. destruct backward.
  - apply (find_loop_total _ backward_measure backward_decreases); [nia|].
    intros e tag Eg Et. apply getitem_Ok in Et as [_ Ht].
    apply getitem_Ok in Eg as [He Hi]. apply tags_bound_elem in He.
    fold (len e) in Ht. unfold backward_measure. nia.
  - apply (find_loop_total _ forward_measure forward_decreases); [nia|].
    intros e tag Eg Et. apply getitem_Ok in Et as [_ Ht].
    apply getitem_Ok in Eg as [He Hi]. apply tags_bound_elem in He.
    fold (len e) in Ht. unfold forward_measure. nia.
Qed.





End SearchFacts.

Section SearchChecks.
#[local] Existing Instance Sample.lldxf.
#[local] Existing Instance Sample.numbers_records.

(** With number matching off the search for "10" passes the integer 10 at
    tag 1 and stops at the text of tag 2. *)
Example find_numbers_off :
  exists self',
    SearchIndex.find 5 (SearchIndex.new [0%nat]) "10" false true
    = Some (Ok ((Some 0%nat, 2), self')).
Proof. eexists. vm_compute. reflexivity. Qed.


End SearchChecks.

(** * Further properties of the indices *)

(** ** LineIndex: the build, missing records, lines inside a record *)

Section LineIndexMore.
Context {store : ObjectStore} {ezdxf : LLDXF}.
Import LineIndex.

Lemma chain_le_sorted (l : list Line) (lo : Z) :
  chain lo l ->
  StronglySorted Z.le (map fst l) /\ Forall (fun s => lo <= s) (map fst l).
Proof.
  revert lo. induction l as [|[s e] r IH]; intros lo; simpl.
  - intros _. split; constructor.
  - intros [Hlo Hr]. destruct (IH _ Hr) as [Hs Hf]. pose proof (len_nonneg e).
    split.
    + constructor; [done|]. eapply Forall_impl; [exact Hf|]. simpl. intros. lia.
    + constructor; [lia|]. eapply Forall_impl; [exact Hf|]. simpl. intros. lia.
Qed.

Lemma chain_app_r (l1 l2 : list Line) (lo : Z) :
  chain lo (l1 ++ l2) -> exists lo', chain lo' l2.
Proof.
  revert lo. induction l1 as [|[s e] l1 IH]; intros lo; simpl; [by exists lo|].
  intros [_ Hc]. by eapply IH.
Qed.

(** X1. [LineIndex(sections)] never raises: sorting the index compares no
    tags. The index holds the records in file order, and its start lines
    begin at 1 or later and never decrease. *)
Theorem LineIndex_build (sections : SectionDict) :
  exists self,
    new sections = Ok self /\
    map snd (_line_index self) = records sections /\
    StronglySorted Z.le (map fst (_line_index self)) /\
    Forall (fun start => 1 <= start) (map fst (_line_index self)).
Proof.
  rewrite new_layout. eexists. split; [reflexivity|]. simpl.
  split; [apply layout_snd|]. apply chain_le_sorted, chain_layout.
Qed.

(** X2. [get_start_line_for_entity] returns 0 exactly for the records that
    are not in the mapping. For a record of the mapping it returns a start
    line of 1 or more at which the line index holds that record. *)
Theorem LineIndex_start_line_of_record (sections : SectionDict) (r : ObjRef) :
  exists self,
    new sections = Ok self /\
    (r ∈ records sections ->
     1 <= get_start_line_for_entity self r /\
     (get_start_line_for_entity self r, r) ∈ _line_index self) /\
    (r ∉ records sections -> get_start_line_for_entity self r = 0).
Proof.
  rewrite new_layout. eexists. split; [reflexivity|].
  unfold get_start_line_for_entity. simpl. rewrite build_entity_index_layout.
  split.
  - intros Hr. destruct (index_line_lookup (layout 1 sections) ∅ r) as (s & -> & Hin).
    { by rewrite layout_snd. }
    simpl. split; [|done].
    apply (chain_lower_bound _ _ (chain_layout sections 1) _ Hin).
  - intros Hr. rewrite index_line_other by (by rewrite layout_snd). done.
Qed.

(** The scan passes the records that start at or before the line and stops
    in front of the first record that starts after it. *)
Lemma scan_stops (l1 l2 : list Line) (s number : Z) (r init : ObjRef) :
  StronglySorted Z.le (map fst (l1 ++ (s, r) :: l2)) ->
  s <= number ->
  match l2 with
  | [] => True
  | (s', _) :: _ => number < s'
  end ->
  scan number init (l1 ++ (s, r) :: l2) = r.
Proof.
  revert init. induction l1 as [|[s0 e0] l1 IH]; intros init Hs Hle Hnext; simpl.
  - rewrite gtb_false by lia. destruct l2 as [|[s' e'] l2]; simpl; [done|].
    by rewrite gtb_true by lia.
  - simpl in Hs. apply StronglySorted_inv in Hs as [Hs Hf].
    assert (s0 <= s) as Hs0.
    { rewrite Forall_forall in Hf. apply Hf. rewrite map_app. simpl.
      apply elem_of_app. right. by left. }
    rewrite gtb_false by lia. by apply IH.
Qed.

(** The record found at a line, in terms of the layout. *)
Lemma layout_entity_at_line (sections : SectionDict) (l1 l2 : list Line)
    (s number : Z) (r : ObjRef) :
  layout 1 sections = l1 ++ (s, r) :: l2 ->
  s <= number ->
  (number < s + len r * 2 \/ l2 = [] \/
   exists s' r' l3, l2 = (s', r') :: l3 /\ number < s') ->
  match layout 1 sections with
  | [] => None
  | (_, entity) :: _ => Some (scan number entity (layout 1 sections))
  end = Some r.
Proof.
  intros Hl Hle Hnext.
  pose proof (chain_layout sections 1) as Hch. rewrite Hl in Hch.
  destruct (chain_le_sorted _ _ Hch) as [Hs _]. rewrite Hl.
  assert (forall init, scan number init (l1 ++ (s, r) :: l2) = r) as Hscan.
  { intros init. apply scan_stops; [done..|].
    destruct l2 as [|[s' r'] l2']; [done|].
    destruct Hnext as [Hin|[Hnil|(s2 & r2 & l3 & [= -> -> ->] & Hlt)]]; [|done|done].
    apply chain_app_r in Hch as [lo' Hch]. simpl in Hch. lia. }
  destruct l1 as [|[s0 e0] l1]; simpl.
  - f_equal. apply (Hscan r).
  - f_equal. apply (Hscan e0).
Qed.

(** X3. [get_entity_at_line] returns the record r of the line index when r
    starts at or before the line and the line is one of the lines of r, or
    r is the last record, or the next record starts after the line. The
    lines between two sections and the lines after the last record belong
    to the record before them. *)
Theorem LineIndex_entity_at_line (sections : SectionDict) :
  exists self,
    new sections = Ok self /\
    forall (l1 l2 : list Line) (s number : Z) (r : ObjRef),
      _line_index self = l1 ++ (s, r) :: l2 ->
      s <= number ->
      (number < s + len r * 2 \/ l2 = [] \/
       exists s' r' l3, l2 = (s', r') :: l3 /\ number < s') ->
      get_entity_at_line self number = Some r.
Proof.
  rewrite new_layout. eexists. split; [reflexivity|]. simpl.
  intros l1 l2 s number r Hl Hle Hnext.
  by apply (layout_entity_at_line sections l1 l2 s).
Qed.

End LineIndexMore.

(** ** HandleIndex: links, lookup by handle, agreement with the line index *)

Section HandleIndexMore.
Context {store : ObjectStore} {ezdxf : LLDXF}.
Import HandleIndex.

Lemma layout_length (sections : SectionDict) :
  length (layout 1 sections) = length (records sections).
Proof. by rewrite <- (layout_snd sections 1), length_map. Qed.

(** X4. The entries that [_build] creates form a doubly linked list in file
    order, whatever the handles are: the entries hold the records of the
    mapping in file order, [prev] of an entry is the entry created before
    it and [next] the entry created after it, the first entry has no
    [prev] and the last no [next]. *)
Theorem HandleIndex_linked_list (sections : SectionDict) :
  map tags (entries (new sections)) = records sections /\
  forall (i : nat) (e : IndexEntry),
    entries (new sections) !! i = Some e ->
    prev e = match i with O => None | S j => Some j end /\
    next e = (if (S i <? length (records sections))%nat then Some (S i) else None).
Proof.
  rewrite new_entries. split; [by rewrite entries_of_tags, layout_snd|].
  intros i e Hi.
  assert (i < length (layout 1 sections))%nat as Hlt.
  { apply lookup_lt_Some in Hi. by rewrite entries_of_length in Hi. }
  rewrite entries_of_lookup in Hi by done. injection Hi as <-.
  simpl. by rewrite layout_length.
Qed.

Lemma dict_get_set_other {V} (k k' : string) (v : V) (d : list (string * V)) :
  k <> k' -> dict_get k (dict_set k' v d) = dict_get k d.
Proof.
  intros Hne. induction d as [|[k0 v0] d IH]; simpl.
  - by destruct (String.eqb_spec k k').
  - destruct (String.eqb_spec k' k0) as [->|Hne0]; simpl.
    + by destruct (String.eqb_spec k k0).
    + destruct (String.eqb_spec k k0); [done|]. apply IH.
Qed.

Lemma index_of_snoc (handles : list string) (h : string) :
  index_of (handles ++ [h]) = dict_set h (length handles) (index_of handles).
Proof. unfold index_of. by rewrite index_from_snoc. Qed.

(** The dict gives, for a handle, the record that was given it last. *)
Lemma index_of_last (hs : list string) (recs : list ObjRef) (k : string) :
  length hs = length recs ->
  (fun i => nth i recs 0%nat) <$> dict_get k (index_of hs)
  = snd <$> last (List.filter (fun p => bool_decide (fst p = Some k))
                    (zip (map Some hs) recs)).
Proof.
  revert recs. induction hs as [|x hs IH] using rev_ind; intros recs Hlen.
  { by destruct recs. }
  destruct recs as [|r recs _] using rev_ind.
  { rewrite length_app in Hlen. simpl in Hlen. lia. }
  rewrite !length_app in Hlen. simpl in Hlen.
  assert (length hs = length recs) as Hlen' by lia.
  rewrite index_of_snoc, map_app. simpl.
  rewrite zip_with_app by (by rewrite length_map). simpl.
  rewrite List.filter_app. simpl.
  destruct (decide (k = x)) as [->|Hne].
  - rewrite dict_get_set_same, bool_decide_eq_true_2 by done.
    rewrite last_snoc. simpl. by rewrite Hlen', app_nth2, Nat.sub_diag by lia.
  - rewrite dict_get_set_other by done.
    rewrite bool_decide_eq_false_2 by congruence. rewrite app_nil_r, <- IH by done.
    destruct (dict_get k (index_of hs)) as [i|] eqn:Ed; [|done]. simpl. f_equal.
    apply app_nth1.
    assert (i ∈ dict_values (index_of hs)) as Hin.
    { unfold dict_values. clear -Ed. induction (index_of hs) as [|[k0 v0] d IHd];
        [done|]. simpl in *. destruct (String.eqb k k0).
      - injection Ed as ->. by left.
      - right. by apply IHd. }
    apply index_from_values in Hin as [Hin|Hin]; [by apply elem_of_nil in Hin|lia].
Qed.

Lemma last_filter_map {A B} (f : A -> B) (P : B -> bool) (l : list A) :
  f <$> last (List.filter (fun x => P (f x)) l) = last (List.filter P (map f l)).
Proof.
  induction l as [|x l IH] using rev_ind; [done|].
  rewrite map_app, !List.filter_app. simpl. destruct (P (f x)).
  - by rewrite !last_snoc.
  - by rewrite !app_nil_r.
Qed.

Lemma entries_of_deref_tags (lines : list Line) (handles : list string) (i : nat) :
  tags (deref (entries_of lines handles) i) = nth i (map snd lines) 0%nat.
Proof.
  unfold deref. destruct (nth_lookup_or_length lines i (0, 0%nat)) as [Hl|Hl].
  - rewrite entries_of_lookup by (by eapply lookup_lt_Some). simpl.
    by rewrite (map_nth snd lines (0, 0%nat)).
  - rewrite lookup_ge_None_2 by (rewrite entries_of_length; lia). simpl.
    by rewrite nth_overflow by (rewrite length_map; lia).
Qed.

Lemma upper_ascii_idemp (c : ascii) : upper_ascii (upper_ascii c) = upper_ascii c.
Proof. destruct c as [[] [] [] [] [] [] [] []]; reflexivity. Qed.

Lemma upper_idemp (s : string) : upper (upper s) = upper s.
Proof.
  unfold upper. induction s as [|c s IH]; simpl; [done|].
  by rewrite upper_ascii_idemp, IH.
Qed.

Lemma upper_lower_ascii (c : ascii) : upper_ascii (lower_ascii c) = upper_ascii c.
Proof. destruct c as [[] [] [] [] [] [] [] []]; reflexivity. Qed.

Lemma upper_lower (s : string) : upper (lower s) = upper s.
Proof.
  unfold upper, lower. induction s as [|c s IH]; simpl; [done|].
  by rewrite upper_lower_ascii, IH.
Qed.

(** X5. [get(handle)] returns the record of the last entry whose handle is
    the handle in upper case, and None when there is no such entry. The
    lookup does not depend on the case of the ASCII letters of the handle,
    and [handle in index] is true exactly when [get] returns a record. *)
Theorem HandleIndex_get (sections : SectionDict) (h : string) :
  get (new sections) h
  = tags <$> last (List.filter (fun e => bool_decide (handle e = Some (upper h)))
                     (entries (new sections))) /\
  get (new sections) (upper h) = get (new sections) h /\
  get (new sections) (lower h) = get (new sections) h /\
  (contains (new sections) h = true <-> is_Some (get (new sections) h)).
Proof.
  split; [|split; [|split]].
  - unfold get. rewrite new_index, new_entries.
    set (hs := handles_from 1 (records sections)).
    set (lines := layout 1 sections).
    assert (length hs = length lines) as Hlen
      by (subst hs lines; by rewrite handles_from_length, layout_length).
    transitivity ((fun i => nth i (map snd lines) 0%nat)
                    <$> dict_get (upper h) (index_of hs)).
    { destruct (dict_get (upper h) (index_of hs)) as [i|]; [|done]. simpl.
      by rewrite entries_of_deref_tags. }
    rewrite index_of_last by (by rewrite length_map).
    rewrite <- (entries_of_pairs lines hs Hlen).
    rewrite <- (last_filter_map (fun e => (handle e, tags e))
                  (fun p => bool_decide (fst p = Some (upper h)))).
    simpl. by destruct (last _).
  - unfold get. by rewrite upper_idemp.
  - unfold get. by rewrite upper_lower.
  - unfold contains, get. destruct (dict_get _ _); split; done.
Qed.

End HandleIndexMore.

(** ** The two indices agree *)

Section IndexAgreement.
Context {store : ObjectStore} {ezdxf : LLDXF}.

Lemma entries_of_lines (lines : list Line) (handles : list string) :
  map (fun e => (HandleIndex.start_line_number e, HandleIndex.tags e))
    (entries_of lines handles) = lines.
Proof.
  apply list_eq. intros i. rewrite list_lookup_fmap.
  destruct (nth_lookup_or_length lines i (0, 0%nat)) as [Hl|Hl].
  - rewrite entries_of_lookup by (by eapply lookup_lt_Some). simpl.
    rewrite Hl. by destruct (nth i lines (0, 0%nat)).
  - rewrite (lookup_ge_None_2 lines) by lia.
    by rewrite lookup_ge_None_2 by (rewrite entries_of_length; lia).
Qed.

(** Once a record is seen, the two scans go on alike. *)
Lemma scan_agree (es : list HandleIndex.IndexEntry) (number : Z) (init : ObjRef) :
  HandleIndex.scan number (Some init) es
  = Some (LineIndex.scan number init
            (map (fun e => (HandleIndex.start_line_number e, HandleIndex.tags e)) es)).
Proof.
  revert init. induction es as [|e es IH]; intros init; simpl; [done|].
  destruct (HandleIndex.start_line_number e >? number); [done|]. apply IH.
Qed.

Lemma values_all_entries (sections : SectionDict) :
  NoDup (map HandleIndex.handle (HandleIndex.entries (HandleIndex.new sections))) ->
  HandleIndex.values (HandleIndex.new sections)
  = HandleIndex.entries (HandleIndex.new sections).
Proof.
  intros Hnd. unfold HandleIndex.values, dict_values.
  rewrite (new_index_NoDup _ Hnd).
  rewrite snd_zip by (rewrite handles_from_length, length_seq; lia).
  assert (length (records sections)
          = length (HandleIndex.entries (HandleIndex.new sections))) as ->.
  { by rewrite new_entries, entries_of_length, layout_length. }
  apply deref_all.
Qed.

(** X6. When the handles given to the records are pairwise distinct, the
    two indices return the same record for every line at or after the
    start line of the first record. *)
Theorem get_entity_at_line_agreement (sections : SectionDict) (number : Z) :
  NoDup (map HandleIndex.handle (HandleIndex.entries (HandleIndex.new sections))) ->
  exists line_index,
    LineIndex.new sections = Ok line_index /\
    ((forall start first,
        head (LineIndex._line_index line_index) = Some (start, first) ->
        start <= number) ->
     HandleIndex.get_entity_at_line (HandleIndex.new sections) number
     = LineIndex.get_entity_at_line line_index number).
Proof.
  intros Hnd. rewrite new_layout. eexists. split; [reflexivity|]. simpl.
  intros Hfirst. unfold HandleIndex.get_entity_at_line, LineIndex.get_entity_at_line.
  rewrite (values_all_entries _ Hnd), new_entries. simpl.
  pose proof (entries_of_lines (layout 1 sections)
                (handles_from 1 (records sections))) as Hl.
  destruct (entries_of _ _) as [|e es]; simpl in *.
  - by rewrite <- Hl.
  - rewrite <- Hl in *. simpl in *.
    specialize (Hfirst _ _ eq_refl). rewrite gtb_false by lia.
    apply scan_agree.
Qed.

Section Resolved.
Variable sections : SectionDict.
Hypothesis not_empty : forall r, r ∈ records sections -> heap r <> [].
Hypothesis distinct_handles :
  NoDup (map HandleIndex.handle (HandleIndex.entries (HandleIndex.new sections))).
Hypothesis upper_handles :
  forall r h, r ∈ records sections -> Tags_get_handle (heap r) = Some h -> upper h = h.
Hypothesis distinct_first_tags : NoDup (map first_tag_id (records sections)).

Lemma handle_start_line (i : nat) (r : ObjRef) (s : Z) :
  layout 1 sections !! i = Some (s, r) ->
  HandleIndex.get_start_line_for_entity (HandleIndex.new sections) r = s.
Proof.
  intros Hl.
  assert (records sections !! i = Some r) as Hi.
  { rewrite <- (layout_snd sections 1), list_lookup_fmap, Hl. done. }
  destruct (get_handle_resolves sections not_empty distinct_handles upper_handles
              distinct_first_tags i r Hi) as (h & Hh & Hd).
  unfold HandleIndex.get_start_line_for_entity. rewrite Hh, Hd.
  unfold HandleIndex.deref. rewrite new_entries.
  rewrite entries_of_lookup by (by eapply lookup_lt_Some). simpl.
  destruct (nth_lookup_or_length (layout 1 sections) i (0, 0%nat)) as [Hn|Hn].
  - rewrite Hl in Hn. by injection Hn as <-.
  - apply lookup_lt_Some in Hl. lia.
Qed.

End Resolved.

(** X7. Let every record of the mapping have a tag, the handles given to the
    records be pairwise distinct, every handle read from a record be in
    upper case already, and the first tags of the records be pairwise
    distinct objects. Then both indices give the same start line for every
    record of the mapping. *)
Theorem get_start_line_agreement (sections : SectionDict) :
  (forall r, r ∈ records sections -> heap r <> []) ->
  NoDup (map HandleIndex.handle (HandleIndex.entries (HandleIndex.new sections))) ->
  (forall r h, r ∈ records sections -> Tags_get_handle (heap r) = Some h -> upper h = h) ->
  NoDup (map first_tag_id (records sections)) ->
  exists line_index,
    LineIndex.new sections = Ok line_index /\
    forall r, r ∈ records sections ->
      HandleIndex.get_start_line_for_entity (HandleIndex.new sections) r
      = LineIndex.get_start_line_for_entity line_index r.
Proof.
  intros H1 H2 H3 H4. rewrite new_layout. eexists. split; [reflexivity|].
  intros r Hr. unfold LineIndex.get_start_line_for_entity. simpl.
  rewrite build_entity_index_layout.
  destruct (index_line_lookup (layout 1 sections) ∅ r) as (s & -> & Hin).
  { by rewrite layout_snd. }
  simpl. apply list_elem_of_lookup_1 in Hin as [i Hi].
  by apply (handle_start_line sections H1 H2 H3 H4 i).
Qed.

End IndexAgreement.

Section AgreementChecks.
#[local] Existing Instance Sample.lldxf.
#[local] Existing Instance Sample.three_records.

Lemma get_entity_at_line_agreement_witness :
  exists line_index,
    LineIndex.new Sample.header_entities = Ok line_index /\
    HandleIndex.get_entity_at_line (HandleIndex.new Sample.header_entities) 12
    = LineIndex.get_entity_at_line line_index 12.
Proof.
  destruct (get_entity_at_line_agreement Sample.header_entities 12)
    as (line_index & Hnew & Hagree).
  { apply (bool_decide_unpack _). vm_compute. exact I. }
  exists line_index. split; [exact Hnew|]. apply Hagree.
  rewrite new_layout in Hnew. injection Hnew as <-.
  intros start first [= <- <-]. lia.
Defined.

Lemma get_start_line_agreement_witness :
  exists line_index,
    LineIndex.new Sample.header_entities = Ok line_index /\
    forall r, r ∈ records Sample.header_entities ->
      HandleIndex.get_start_line_for_entity (HandleIndex.new Sample.header_entities) r
      = LineIndex.get_start_line_for_entity line_index r.
Proof.
  apply (get_start_line_agreement Sample.header_entities).
  - intros r Hr. unfold records, Sample.header_entities in Hr. simpl in Hr.
    repeat (apply elem_of_cons in Hr as [->|Hr]; [discriminate|]).
    by apply elem_of_nil in Hr.
  - apply (bool_decide_unpack _). vm_compute. exact I.
  - intros r h Hr. unfold records, Sample.header_entities in Hr. simpl in Hr.
    repeat (apply elem_of_cons in Hr as [->|Hr];
            [simpl; intros Hh; try discriminate; injection Hh as <-; reflexivity|]).
    by apply elem_of_nil in Hr.
  - apply (bool_decide_unpack _). vm_compute. exact I.
Defined.

Example start_lines_of_three_records :
  map (HandleIndex.get_start_line_for_entity (HandleIndex.new Sample.header_entities))
    [0; 1; 2; 3]%nat
  = [1; 9; 13; 0].
Proof. vm_compute. reflexivity. Qed.

End AgreementChecks.

(** ** get_row_from_line_number *)

Section RowFacts.
Context {store : ObjectStore} {ezdxf : LLDXF} {vertices : VertexTags}.

Lemma tag_lines_nonneg (tag : DXFTag) : 0 <= tag_lines tag.
Proof. unfold tag_lines. destruct (vertex_len tag); lia. Qed.

Lemma lines_before_S (tag : DXFTag) (tags : Tags) (i : nat) :
  lines_before (tag :: tags) (S i) = tag_lines tag + lines_before tags i.
Proof. reflexivity. Qed.

(** The loop stops at the first tag that begins at or after the line. *)
Lemma row_loop_spec (tags : Tags) (count lines row : Z) :
  exists k : nat,
    row_loop count lines row tags = row + Z.of_nat k /\
    (k <= length tags)%nat /\
    (forall i, (i < k)%nat -> lines + lines_before tags i < count) /\
    ((k < length tags)%nat -> count <= lines + lines_before tags k).
Proof.
  revert lines row. induction tags as [|tag tags IH]; intros lines row; simpl.
  - exists 0%nat. repeat split; [lia|lia|intros; lia|intros; lia].
  - rewrite Z.geb_leb. destruct (Z.leb_spec count lines) as [Hle|Hlt].
    + exists 0%nat. repeat split; [lia|lia|intros; lia|].
      intros _. unfold lines_before. simpl. lia.
    + destruct (IH (lines + tag_lines tag) (row + 1)) as (k & -> & Hk & Hbefore & Hat).
      exists (S k). split; [lia|]. split; [lia|]. split.
      * intros [|i] Hi; [unfold lines_before; simpl; lia|].
        rewrite lines_before_S. specialize (Hbefore i ltac:(lia)). lia.
      * intros Hlen. rewrite lines_before_S. specialize (Hat ltac:(lia)). lia.
Qed.

Lemma get_row_from_line_number_spec_aux (entity : ObjRef) (start select : Z) :
  exists k : nat,
    get_row_from_line_number entity start select = Z.of_nat k /\
    (k <= length (heap entity))%nat /\
    (forall i, (i < k)%nat -> lines_before (heap entity) i < select - start) /\
    ((k < length (heap entity))%nat ->
     select - start <= lines_before (heap entity) k).
Proof.
  unfold get_row_from_line_number.
  destruct (row_loop_spec (heap entity) (select - start) 0 0)
    as (k & -> & Hk & Hbefore & Hat).
  exists k. split; [lia|]. split; [done|]. split.
  - intros i Hi. specialize (Hbefore i Hi). lia.
  - intros Hlt. specialize (Hat Hlt). lia.
Qed.

(** X8. [get_row_from_line_number] returns the index of the first tag of the
    record that begins at or after the selected line, and the number of
    tags when there is none: the row is between 0 and the number of tags,
    every tag before the row begins before the line, and the tag at the row
    does not. A vertex tag takes two lines for each of its axes. *)
Theorem get_row_from_line_number_spec (entity : ObjRef) (start select : Z) :
  let row := get_row_from_line_number entity start select in
  0 <= row <= len entity /\
  (forall i, Z.of_nat i < row -> lines_before (heap entity) i < select - start) /\
  (row < len entity -> select - start <= lines_before (heap entity) (Z.to_nat row)).
Proof.
  cbv zeta. unfold len.
  destruct (get_row_from_line_number_spec_aux entity start select)
    as (k & -> & Hk & Hbefore & Hat).
  split; [lia|]. split.
  - intros i Hi. apply Hbefore. lia.
  - intros Hlt. rewrite Nat2Z.id. apply Hat. lia.
Qed.

Lemma lines_before_plain (tags : Tags) (i : nat) :
  (forall tag, tag ∈ tags -> vertex_len tag = None) ->
  (i <= length tags)%nat ->
  lines_before tags i = 2 * Z.of_nat i.
Proof.
  revert i. induction tags as [|tag tags IH]; intros i Hplain Hi.
  - simpl in Hi. by replace i with 0%nat by lia.
  - destruct i as [|i]; [done|]. rewrite lines_before_S, IH.
    + unfold tag_lines. rewrite Hplain by (by left). lia.
    + intros t Ht. apply Hplain. by right.
    + simpl in Hi. lia.
Qed.

(** X9. For a record without vertex tags the row of a line is half the
    distance of the line from the start line, rounded up, and at least 0 and
    at most the number of tags. *)
Theorem get_row_from_line_number_plain (entity : ObjRef) (start select : Z) :
  (forall tag, tag ∈ heap entity -> vertex_len tag = None) ->
  get_row_from_line_number entity start select
  = Z.min (len entity) (Z.max 0 ((select - start + 1) / 2)).
Proof.
  intros Hplain.
  destruct (get_row_from_line_number_spec_aux entity start select)
    as (k & -> & Hk & Hbefore & Hat).
  unfold len.
  assert (forall i, (i < k)%nat -> 2 * Z.of_nat i < select - start) as Hb.
  { intros i Hi. rewrite <- (lines_before_plain (heap entity) i Hplain) by lia.
    by apply Hbefore. }
  assert ((k < length (heap entity))%nat -> select - start <= 2 * Z.of_nat k) as Ha.
  { intros Hlt. rewrite <- (lines_before_plain (heap entity) k Hplain) by lia.
    by apply Hat. }
  clear Hbefore Hat.
  assert (k = 0%nat \/ 2 * (Z.of_nat k - 1) < select - start) as Hb'.
  { destruct k as [|k]; [by left|]. right. specialize (Hb k ltac:(lia)). lia. }
  clear Hb.
  pose proof (Z.div_mod (select - start + 1) 2 ltac:(lia)) as Hdiv.
  pose proof (Z.mod_pos_bound (select - start + 1) 2 ltac:(lia)) as Hmod.
  destruct (decide (k < length (heap entity))%nat) as [Hlt|Hge].
  - specialize (Ha Hlt). lia.
  - lia.
Qed.

End RowFacts.

Section RowChecks.
#[local] Existing Instance Sample.lldxf.
#[local] Existing Instance Sample.vertices_at_10.

(** The vertex tag at index 3 takes the lines 6 to 11 of the record: the
    rows of the lines 0 to 13 after the start line. *)
Example rows_of_line_record :
  map (@get_row_from_line_number Sample.line_record _ 0%nat 100)
    [99; 100; 101; 102; 105; 106; 107; 111; 112; 113; 114; 200]
  = [0; 0; 1; 1; 3; 3; 4; 4; 4; 5; 5; 5].
Proof. vm_compute. reflexivity. Qed.

Lemma get_row_from_line_number_plain_witness :
  @get_row_from_line_number Sample.three_records _ 2%nat 13 16
  = Z.min (@len Sample.three_records 2%nat) (Z.max 0 ((16 - 13 + 1) / 2)).
Proof.
  apply (@get_row_from_line_number_plain Sample.three_records _ 2%nat 13 16).
  intros tag Htag. simpl in Htag.
  repeat (apply elem_of_cons in Htag as [->|Htag]; [reflexivity|]).
  by apply elem_of_nil in Htag.
Defined.

End RowChecks.

(** ** DXFDocument *)

Section DocumentFacts.
Context {store : ObjectStore} {ezdxf : LLDXF} {vertices : VertexTags}.
Import DXFDocument.

(** X10. [DXFDocument()] and [DXFDocument(sections)] for an empty mapping
    build no index. Such a document has [max_line_number] 1, finds no
    record by handle or by line, gives the line number 0 for every record
    and every offset, and its navigation methods raise AttributeError. *)
Theorem DXFDocument_without_index :
  forall doc, (new None = Ok doc \/ new (Some []) = Ok doc) ->
  forall (entity : ObjRef) (offset number : Z) (handle : string),
    max_line_number doc = 1 /\
    get_entity doc handle = None /\
    get_line_number doc entity offset = 0 /\
    get_entity_at_line doc number = None /\
    next_entity doc entity = Raise AttributeError /\
    previous_entity doc entity = Raise AttributeError /\
    get_handle doc entity = Raise AttributeError.
Proof.
  intros doc Hdoc entity offset number handle.
  assert (Ok {| sections := []; handle_index := None; line_index := None;
                filename := EmptyString |} = Ok doc) as [= <-]
    by (by destruct Hdoc).
  repeat split.
Qed.

(** X11. In a document with a mapping, the line number of the tag at
    [offset] of a record is the start line of the record plus two lines for
    each tag before it, and the record found at the line of any of its tags
    is the record itself. *)
Theorem DXFDocument_line_round_trip (self : t) (new_sections : SectionDict) :
  exists doc,
    update self new_sections = Ok doc /\
    forall (r : ObjRef) (offset : Z),
      r ∈ records new_sections ->
      0 <= offset < len r ->
      get_line_number doc r offset = get_line_number doc r 0 + 2 * offset /\
      get_entity_at_line doc (get_line_number doc r offset) = Some r.
Proof.
  unfold update. rewrite new_layout. simpl. eexists. split; [reflexivity|].
  intros r offset Hr Hoff. unfold get_line_number, get_entity_at_line. simpl.
  split; [lia|].
  unfold LineIndex.get_start_line_for_entity, LineIndex.get_entity_at_line. simpl.
  rewrite build_entity_index_layout.
  destruct (index_line_lookup (layout 1 new_sections) ∅ r) as (s & -> & Hin).
  { by rewrite layout_snd. }
  simpl. apply list_elem_of_split in Hin as (l1 & l2 & Hl).
  apply (layout_entity_at_line new_sections l1 l2 s); [done|lia|left; lia].
Qed.

(** X12. For a record of the document that has no vertex tag, the row of
    the line of the tag at [offset] is [offset]: [get_row_from_line_number]
    undoes [get_line_number], also for the line after the last tag. *)
Theorem DXFDocument_row_round_trip (self : t) (new_sections : SectionDict) :
  exists doc,
    update self new_sections = Ok doc /\
    forall (r : ObjRef) (offset : Z),
      (forall tag, tag ∈ heap r -> vertex_len tag = None) ->
      0 <= offset <= len r ->
      get_row_from_line_number r (get_line_number doc r 0) (get_line_number doc r offset)
      = offset.
Proof.
  unfold update. rewrite new_layout. simpl. eexists. split; [reflexivity|].
  intros r offset Hplain Hoff. unfold get_line_number. simpl.
  set (s := LineIndex.get_start_line_for_entity _ r).
  destruct (get_row_from_line_number_spec_aux r (s + 0 * 2) (s + offset * 2))
    as (k & -> & Hk & Hbefore & Hat).
  unfold len in Hoff.
  assert (forall i, (i < k)%nat -> 2 * Z.of_nat i < offset * 2) as Hb.
  { intros i Hi. rewrite <- (lines_before_plain (heap r) i Hplain) by lia.
    specialize (Hbefore i Hi). lia. }
  assert ((k < length (heap r))%nat -> offset * 2 <= 2 * Z.of_nat k) as Ha.
  { intros Hlt. rewrite <- (lines_before_plain (heap r) k Hplain) by lia.
    specialize (Hat Hlt). lia. }
  assert (Z.of_nat k <= offset) as Hle.
  { destruct k as [|k]; [lia|]. specialize (Hb k ltac:(lia)). lia. }
  destruct (decide (k < length (heap r))%nat) as [Hlt|Hge]; [|lia].
  specialize (Ha Hlt). lia.
Qed.

End DocumentFacts.

Section DocumentChecks.
#[local] Existing Instance Sample.lldxf.
#[local] Existing Instance Sample.three_records.

Lemma DXFDocument_without_index_witness :
  exists doc,
    DXFDocument.new (Some []) = Ok doc /\
    DXFDocument.max_line_number doc = 1 /\
    DXFDocument.get_line_number doc 1%nat 3 = 0 /\
    DXFDocument.next_entity doc 1%nat = Raise AttributeError.
Proof.
  eexists. split; [reflexivity|].
  destruct (DXFDocument_without_index _ (or_intror eq_refl) 1%nat 3 0 EmptyString)
    as (Hmax & _ & Hline & _ & Hnext & _).
  exact (conj Hmax (conj Hline Hnext)).
Defined.

(** The facade on the three records: lines, records at lines, handles. *)
Example document_of_three_records :
  exists doc,
    DXFDocument.new (Some Sample.header_entities) = Ok doc /\
    DXFDocument.max_line_number doc = 20 /\
    DXFDocument.get_line_number doc 2%nat 3 = 19 /\
    DXFDocument.get_entity_at_line doc 19 = Some 2%nat /\
    DXFDocument.get_entity_at_line doc 8 = Some 0%nat /\
    DXFDocument.get_entity doc "1f" = Some 1%nat /\
    DXFDocument.get_entity doc "*1" = Some 0%nat /\
    DXFDocument.get_entity doc "FF" = None /\
    DXFDocument.next_entity doc 1%nat = Ok 2%nat /\
    DXFDocument.get_section doc "ENTITIES" = Some [1; 2]%nat.
Proof. eexists. split; [vm_compute; reflexivity|]. vm_compute. repeat split. Qed.

End DocumentChecks.

(** ** EntityHistory: the cursor *)

Section EntityHistoryMore.
Import EntityHistory.

Lemma last_Some_length {A} (l : list A) (x : A) :
  last l = Some x -> l !! (length l - 1)%nat = Some x /\ (0 < length l)%nat.
Proof.
  destruct l as [|y l] using rev_ind; [done|].
  rewrite last_snoc. intros [= ->]. rewrite length_app. simpl.
  split; [|lia]. rewrite lookup_app_r by lia.
  by replace (length l + 1 - 1 - length l)%nat with 0%nat by lia.
Qed.

Lemma getitem_nonneg {A} (l : list A) (i : Z) :
  0 <= i < Z.of_nat (length l) ->
  exists x, getitem l i = Ok x /\ l !! Z.to_nat i = Some x.
Proof.
  intros Hi. unfold getitem.
  rewrite (proj2 (Z.ltb_ge i 0)) by lia.
  rewrite (proj2 (Z.leb_le 0 i)), (proj2 (Z.ltb_lt i _)) by lia. simpl.
  destruct (lookup_lt_is_Some_2 l (Z.to_nat i) ltac:(lia)) as [x Hx].
  rewrite Hx. by exists x.
Qed.

(** X13. The cursor of a history stays the index of an entry: this holds
    for a new history and is kept by [append], [clear], [back] and
    [forward]. On such a history [back] and [forward] never raise, change
    no entry of the history, and return None only when it is empty. *)
Theorem EntityHistory_cursor_invariant :
  cursor_ok new /\
  forall self, cursor_ok self ->
    (forall entity, cursor_ok (append self entity)) /\
    cursor_ok (clear self) /\
    (exists r self',
       back self = Ok (r, self') /\ cursor_ok self' /\
       _history self' = _history self /\ (r = None <-> _history self = [])) /\
    (exists r self',
       forward self = Ok (r, self') /\ cursor_ok self' /\
       _history self' = _history self /\ (r = None <-> _history self = [])).
Proof.
  split; [by split; [|right]|].
  intros self [H0 Hi]. split; [|split; [|split]].
  - intros entity. unfold append, cursor_ok.
    destruct (_time_travel self) as [|t tt]; simpl.
    + destruct (last (_history self)) as [l|] eqn:El.
      * destruct (Nat.eqb l entity); simpl; [done|]. rewrite length_app. simpl. lia.
      * simpl. rewrite length_app. simpl. lia.
    + destruct (last (_history self ++ t :: tt)) as [l|] eqn:El.
      * destruct (Nat.eqb l entity); simpl.
        -- rewrite length_app. simpl. split; [done|]. left.
           destruct Hi as [Hi|[_ ->]]; lia.
        -- rewrite !length_app. simpl. lia.
      * simpl. rewrite !length_app. simpl. lia.
  - by split; [|right].
  - unfold back. destruct (_history self) as [|first rest] eqn:Eh.
    { eexists. eexists. split; [reflexivity|]. split; [|done].
      unfold cursor_ok. rewrite Eh. simpl. split; [done|]. right. split; [done|].
      destruct Hi as [Hi|[_ Hi]]; [simpl in Hi; lia|done]. }
    destruct (Z.leb_spec 0 (_index self - 1)) as [Hle|Hlt].
    + destruct Hi as [Hi|[Hnil _]]; [|done].
      destruct (getitem_nonneg (first :: rest) (_index self - 1)) as (x & Hx & _);
        [simpl in *; lia|].
      unfold _time_wrap. rewrite Eh, Hx. simpl. eexists. eexists.
      split; [reflexivity|]. split; [|done].
      unfold cursor_ok. simpl in *. lia.
    + eexists. eexists. split; [reflexivity|]. split; [|by rewrite Eh].
      unfold cursor_ok. rewrite Eh. split; [done|]. left. simpl. lia.
  - unfold forward. destruct (last (_history self)) as [l|] eqn:El.
    2:{ eexists. eexists. split; [reflexivity|]. split; [by split|].
        split; [done|]. split; [intros _|done].
        destruct (_history self) as [|y l']; [done|].
        destruct (last_cons_is_Some y l') as [z Hz]. congruence. }
    destruct (Z.ltb_spec (_index self + 1) (Z.of_nat (length (_history self))))
      as [Hlt|Hge].
    + destruct (getitem_nonneg (_history self) (_index self + 1)) as (x & Hx & _);
        [lia|].
      unfold _time_wrap. rewrite Hx. simpl. eexists. eexists.
      split; [reflexivity|]. split; [unfold cursor_ok; simpl; lia|].
      split; [done|]. split; [done|]. intros Hnil. by rewrite Hnil in El.
    + eexists. eexists. split; [reflexivity|]. split; [by split|].
      split; [done|]. split; [done|]. intros Hnil. by rewrite Hnil in El.
Qed.


(** X15. On a history whose cursor is the index of an entry other than the
    first, [back] returns the entry before the cursor and a following
    [forward] returns the entry at the cursor again; the cursor is then
    where it was, the history is unchanged, and the two records are at the
    end of the time travel buffer. *)
Theorem EntityHistory_back_forward (self : t) :
  0 < _index self < Z.of_nat (length (_history self)) ->
  exists p c s1 s2,
    back self = Ok (Some p, s1) /\
    forward s1 = Ok (Some c, s2) /\
    _history self !! Z.to_nat (_index self - 1) = Some p /\
    _history self !! Z.to_nat (_index self) = Some c /\
    _index s2 = _index self /\
    _history s2 = _history self /\
    _time_travel s2 = _time_travel self ++ [p; c].
Proof.
  intros Hi.
  destruct (getitem_nonneg (_history self) (_index self - 1)) as (p & Hp & Hp'); [lia|].
  destruct (getitem_nonneg (_history self) (_index self)) as (c & Hc & Hc'); [lia|].
  exists p, c. unfold back.
  destruct (_history self) as [|first rest] eqn:Eh; [simpl in Hi; lia|].
  rewrite (proj2 (Z.leb_le 0 (_index self - 1))) by lia.
  unfold _time_wrap. rewrite Eh, Hp. simpl.
  eexists. eexists. split; [reflexivity|].
  unfold forward. simpl.
  destruct (last_cons_is_Some first rest) as [l Hl]. rewrite Hl.
  replace (_index self - 1 + 1) with (_index self) by lia.
  rewrite (proj2 (Z.ltb_lt (_index self) _)) by (simpl in *; lia).
  unfold _time_wrap. simpl. rewrite Hc. simpl.
  split; [reflexivity|]. repeat split; try done.
  by rewrite <- app_assoc.
Qed.

Lemma EntityHistory_back_forward_witness :
  exists p c s1 s2,
    back {| _history := [7; 8; 9]%nat; _index := 2; _time_travel := [] |}
    = Ok (Some p, s1) /\
    forward s1 = Ok (Some c, s2) /\
    [7; 8; 9]%nat !! Z.to_nat (2 - 1) = Some p /\
    [7; 8; 9]%nat !! Z.to_nat 2 = Some c /\
    _index s2 = 2 /\
    _history s2 = [7; 8; 9]%nat /\
    _time_travel s2 = [] ++ [p; c].
Proof.
  apply (EntityHistory_back_forward
           {| _history := [7; 8; 9]%nat; _index := 2; _time_travel := [] |}).
  simpl. lia.
Defined.

End EntityHistoryMore.

(** ** SearchIndex: the order of a search *)

Section SearchMore.
Context {store : ObjectStore} {ezdxf : LLDXF}.
Import SearchIndex.

Lemma match_settings (a b : t) (c : Z) (v : Value) :
  same_settings a b -> _match a c v = _match b c v.
Proof.
  intros (_ & Ht & Hl & Hc & Hw & Hn). unfold _match.
  by rewrite Ht, Hl, Hc, Hw, Hn.
Qed.

Lemma position_matches_settings (a b : t) (p : ObjRef * Z) :
  same_settings a b -> position_matches a p = position_matches b p.
Proof.
  intros H. unfold position_matches.
  destruct (getitem _ _) as [tag|]; [|done]. by rewrite (match_settings a b).
Qed.

Lemma first_match_settings (a b : t) (ps : list (ObjRef * Z)) :
  same_settings a b -> first_match a ps = first_match b ps.
Proof.
  intros H. unfold first_match. induction ps as [|p ps IH]; [done|]. simpl.
  rewrite (position_matches_settings a b p H).
  by destruct (position_matches b p).
Qed.

Lemma same_settings_trans (a b c : t) :
  same_settings a b -> same_settings b c -> same_settings a c.
Proof.
  intros (? & ? & ? & ? & ? & ?) (? & ? & ? & ? & ? & ?).
  repeat split; congruence.
Qed.

(** With a search term, a tag that holds a string under a string group code
    is matched without an exception. *)
Lemma match_Ok (self : t) (c : Z) (v : Value) :
  is_Some (_search_term self) -> is_Some (_search_term_lower self) ->
  (tag_type c = type_str -> exists s, v = VStr s) ->
  exists b, _match self c v = Ok b.
Proof.
  intros [term Ht] [lterm Hl] Hv. unfold _match. rewrite Ht, Hl.
  destruct (tag_type c) eqn:Ec; simpl.
  1:{ destruct (Hv eq_refl) as [s ->].
      destruct (case_insensitive self), (whole_words self); simpl; by eexists. }
  all: destruct (numbers self); simpl; [|by eexists];
    destruct (case_insensitive self), (whole_words self); simpl; by eexists.
Qed.

Lemma getitem_lookup {A} (l : list A) (i : nat) (x : A) :
  l !! i = Some x -> getitem l (Z.of_nat i) = Ok x.
Proof.
  intros Hx. pose proof (lookup_lt_Some _ _ _ Hx) as Hlt. unfold getitem.
  rewrite (proj2 (Z.ltb_ge (Z.of_nat i) 0)) by lia.
  rewrite (proj2 (Z.leb_le 0 (Z.of_nat i))) by lia.
  rewrite (proj2 (Z.ltb_lt (Z.of_nat i) _)) by lia. simpl.
  by rewrite Nat2Z.id, Hx.
Qed.

Lemma entity_positions_step (e : ObjRef) (ti : nat) :
  (ti < length (heap e))%nat ->
  entity_positions e ti = (e, Z.of_nat ti) :: entity_positions e (S ti).
Proof.
  intros Hlt. unfold entity_positions.
  replace (length (heap e) - ti)%nat with (S (length (heap e) - S ti)) by lia.
  reflexivity.
Qed.

Lemma entity_positions_end (e : ObjRef) (ti : nat) :
  (length (heap e) <= ti)%nat -> entity_positions e ti = [].
Proof.
  intros Hle. unfold entity_positions.
  by replace (length (heap e) - ti)%nat with 0%nat by lia.
Qed.

Lemma positions_from_next_record (l : list ObjRef) (ei : nat) (e : ObjRef) :
  l !! ei = Some e ->
  positions_from l ei 0 = entity_positions e 0 ++ positions_from l (S ei) 0.
Proof.
  intros He. unfold positions_from.
  rewrite (drop_S _ _ _ He). f_equal.
  destruct (drop (S ei) l) as [|e' rest]; [done|]. reflexivity.
Qed.

Lemma positions_from_step (l : list ObjRef) (ei ti : nat) (e : ObjRef) :
  l !! ei = Some e -> (ti < length (heap e))%nat ->
  positions_from l ei ti
  = (e, Z.of_nat ti)
      :: (if (S ti <? length (heap e))%nat then positions_from l ei (S ti)
          else positions_from l (S ei) 0).
Proof.
  intros He Hlt. unfold positions_from at 1. rewrite (drop_S _ _ _ He).
  rewrite entity_positions_step by done. simpl. f_equal.
  destruct (Nat.ltb_spec (S ti) (length (heap e))) as [Hlt'|Hge].
  - unfold positions_from. by rewrite (drop_S _ _ _ He).
  - rewrite entity_positions_end by lia. simpl.
    unfold positions_from. destruct (drop (S ei) l) as [|e' rest]; [done|].
    reflexivity.
Qed.

(** One move forward: the cursor is then at the next position in file
    order, or the end of the index is reached after the last one. *)
Lemma forward_step (s : t) (ei ti : nat) (e : ObjRef) :
  cursor_at s ei ti e ->
  (forall x, x ∈ entities s -> heap x <> []) ->
  current_entity s = Ok (Some e, Z.of_nat ti) /\
  exists s1 rest,
    move_cursor_forward s = Ok s1 /\
    positions_from (entities s) ei ti = (e, Z.of_nat ti) :: rest /\
    ((_end_of_index s1 = true /\ rest = []) \/
     exists ei' ti' e',
       cursor_at s1 ei' ti' e' /\ rest = positions_from (entities s1) ei' ti').
Proof.
  intros (Hend & Hei & Hti & He & Hlt) Hne.
  pose proof (lookup_lt_Some _ _ _ He) as Hlen.
  pose proof (getitem_lookup _ _ _ He) as Hg. rewrite <- Hei in Hg.
  split.
  { unfold current_entity. destruct (entities s) eqn:E; [done|].
    rewrite Hend, Hg. simpl. by rewrite Hti. }
  unfold move_cursor_forward. destruct (entities s) as [|e0 l0] eqn:E; [done|].
  rewrite <- E in *. rewrite Hg. simpl. unfold len.
  rewrite (positions_from_step _ _ _ _ He Hlt). rewrite Z.geb_leb.
  destruct (Z.leb_spec (Z.of_nat (length (heap e))) (_current_tag_index s + 1))
    as [Hge|Hlt'].
  - rewrite (proj2 (Nat.ltb_ge (S ti) (length (heap e)))) by lia.
    destruct (Z.ltb_spec (_current_entity_index s + 1)
                (Z.of_nat (length (entities s)))) as [Hin|Hout].
    + destruct (lookup_lt_is_Some_2 (entities s) (S ei) ltac:(lia)) as [e' He'].
      eexists. eexists. split; [reflexivity|]. split; [reflexivity|]. right.
      exists (S ei), 0%nat, e'. split; [|done].
      repeat split; simpl; try done; try lia.
      assert (heap e' <> []) as Hne'
        by (apply Hne; by eapply list_elem_of_lookup_2).
      destruct (heap e'); [done|]. simpl. lia.
    + eexists. eexists. split; [reflexivity|]. split; [reflexivity|]. left.
      split; [done|]. unfold positions_from. rewrite drop_ge by lia. done.
  - rewrite (proj2 (Nat.ltb_lt (S ti) (length (heap e)))) by lia.
    eexists. eexists. split; [reflexivity|]. split; [reflexivity|]. right.
    exists ei, (S ti), e. split; [|done].
    repeat split; simpl; try done; lia.
Qed.

Lemma cursor_at_tag (s : t) (ei ti : nat) (e : ObjRef) :
  cursor_at s ei ti e ->
  exists tag, getitem (heap e) (Z.of_nat ti) = Ok tag /\ tag ∈ heap e.
Proof.
  intros (_ & _ & _ & _ & Hlt).
  destruct (lookup_lt_is_Some_2 (heap e) ti Hlt) as [tag Htag].
  exists tag. split; [by apply getitem_lookup|by eapply list_elem_of_lookup_2].
Qed.

(** The loop of [_find] over the positions [ps] that a move of the cursor
    visits: it returns the first one that matches. *)
Lemma find_loop_scan (move_cursor : t -> result t)
    (visit : list ObjRef -> nat -> nat -> list (ObjRef * Z)) :
  (forall s ei ti e,
     cursor_at s ei ti e -> (forall x, x ∈ entities s -> heap x <> []) ->
     current_entity s = Ok (Some e, Z.of_nat ti) /\
     exists s1 rest,
       move_cursor s = Ok s1 /\ same_settings s s1 /\
       visit (entities s) ei ti = (e, Z.of_nat ti) :: rest /\
       ((_end_of_index s1 = true /\ rest = []) \/
        exists ei' ti' e',
          cursor_at s1 ei' ti' e' /\ rest = visit (entities s1) ei' ti')) ->
  forall (ps : list (ObjRef * Z)) (s : t) (ei ti : nat) (e : ObjRef) (fuel : nat),
    loaded (entities s) ->
    is_Some (_search_term s) -> is_Some (_search_term_lower s) ->
    cursor_at s ei ti e ->
    visit (entities s) ei ti = ps ->
    (length ps <= fuel)%nat ->
    exists s',
      find_loop fuel move_cursor s = Some (Ok (first_match s ps, s')) /\
      same_settings s s' /\
      (first_match s ps = NOT_FOUND -> _end_of_index s' = true).
Proof.
  intros Hstep. induction ps as [|p ps IH]; intros s ei ti e fuel Hl Ht Htl Hc Hps Hfuel.
  { destruct (Hstep s ei ti e Hc (fun x Hx => proj1 (Hl x Hx)))
      as (_ & s1 & rest & _ & _ & Hv & _). congruence. }
  destruct (Hstep s ei ti e Hc (fun x Hx => proj1 (Hl x Hx)))
    as (Hcur & s1 & rest & Hmove & Hsame & Hv & Hnext).
  rewrite Hps in Hv. injection Hv as -> ->.
  destruct fuel as [|fuel]; [simpl in Hfuel; lia|]. simpl in Hfuel. simpl.
  destruct Hc as (Hend & Hei & Hti & He & Hlt). rewrite Hend, Hcur, Hmove.
  destruct (cursor_at_tag s ei ti e) as (tag & Htag & Hin); [by repeat split|].
  rewrite Htag.
  assert (e ∈ entities s) as Hein by (by eapply list_elem_of_lookup_2).
  destruct (match_Ok s (code tag) (value tag) Ht Htl) as [b Hb].
  { by apply (proj2 (Hl e Hein)). }
  rewrite <- (match_settings s s1) by done. rewrite Hb.
  assert (position_matches s (e, Z.of_nat ti) = b) as Hpm.
  { unfold position_matches. simpl. rewrite Htag, Hb. by destruct b. }
  unfold first_match. simpl. rewrite Hpm. destruct b.
  { exists s1. split; [done|]. split; [done|]. intros Hnf. discriminate Hnf. }
  fold (first_match s rest).
  destruct Hnext as [[Hend1 ->]|(ei' & ti' & e' & Hc' & Hrest)].
  - exists s1. split; [|by split].
    destruct fuel; simpl; by rewrite Hend1.
  - destruct Hsame as (Hents & Hsame').
    assert (same_settings s s1) as Hsame by (by split).
    destruct (IH s1 ei' ti' e' fuel) as (s' & Hfind & Hsame1 & Hnf);
      [by rewrite <- Hents|by rewrite <- (proj1 Hsame')
      |by rewrite <- (proj1 (proj2 Hsame'))|done|done|lia|].
    exists s'. rewrite (first_match_settings s s1) by done.
    split; [done|]. split; [by eapply same_settings_trans|done].
Qed.

Lemma forward_visit (s : t) (ei ti : nat) (e : ObjRef) :
  cursor_at s ei ti e -> (forall x, x ∈ entities s -> heap x <> []) ->
  current_entity s = Ok (Some e, Z.of_nat ti) /\
  exists s1 rest,
    move_cursor_forward s = Ok s1 /\ same_settings s s1 /\
    positions_from (entities s) ei ti = (e, Z.of_nat ti) :: rest /\
    ((_end_of_index s1 = true /\ rest = []) \/
     exists ei' ti' e',
       cursor_at s1 ei' ti' e' /\ rest = positions_from (entities s1) ei' ti').
Proof.
  intros Hc Hne. destruct (forward_step s ei ti e Hc Hne)
    as (Hcur & s1 & rest & Hmove & Hv & Hnext).
  split; [done|]. exists s1, rest. split; [done|].
  split; [by apply move_cursor_forward_settings|]. by split.
Qed.

Lemma rev_seq_S (n : nat) : rev (seq 0 (S n)) = n :: rev (seq 0 n).
Proof. rewrite seq_S, rev_app_distr. reflexivity. Qed.

Lemma positions_back_tag (l : list ObjRef) (ei ti : nat) (e : ObjRef) :
  l !! ei = Some e ->
  positions_back l ei (S ti) = (e, Z.of_nat (S ti)) :: positions_back l ei ti.
Proof.
  intros He. unfold positions_back. rewrite He.
  by rewrite (rev_seq_S (S ti)).
Qed.

Lemma positions_back_first (l : list ObjRef) (e : ObjRef) :
  l !! 0%nat = Some e -> positions_back l 0 0 = [(e, 0)].
Proof. intros He. unfold positions_back. by rewrite He. Qed.

Lemma positions_back_record (l : list ObjRef) (ei : nat) (e e' : ObjRef) :
  l !! S ei = Some e -> l !! ei = Some e' -> heap e' <> [] ->
  positions_back l (S ei) 0
  = (e, 0) :: positions_back l ei (length (heap e') - 1).
Proof.
  intros He He' Hne. unfold positions_back. rewrite He, He'.
  rewrite (take_S_r _ _ _ He'), rev_app_distr.
  replace (S (length (heap e') - 1)) with (length (heap e'))
    by (destruct (heap e'); [done|simpl; lia]).
  cbn [rev app map concat seq]. unfold entity_positions.
  by rewrite Nat.sub_0_r, (map_rev (fun i => (e', Z.of_nat i))).
Qed.

(** One move backward: the cursor is then at the position before in file
    order, or the end of the index is reached after the first one. *)
Lemma backward_visit (s : t) (ei ti : nat) (e : ObjRef) :
  cursor_at s ei ti e -> (forall x, x ∈ entities s -> heap x <> []) ->
  current_entity s = Ok (Some e, Z.of_nat ti) /\
  exists s1 rest,
    move_cursor_backward s = Ok s1 /\ same_settings s s1 /\
    positions_back (entities s) ei ti = (e, Z.of_nat ti) :: rest /\
    ((_end_of_index s1 = true /\ rest = []) \/
     exists ei' ti' e',
       cursor_at s1 ei' ti' e' /\ rest = positions_back (entities s1) ei' ti').
Proof.
  intros Hc Hne. split; [exact (proj1 (forward_step s ei ti e Hc Hne))|].
  destruct Hc as (Hend & Hei & Hti & He & Hlt).
  destruct (move_cursor_backward s) as [s1|ex] eqn:Emove.
  2:{ unfold move_cursor_backward in Emove.
      destruct (entities s) as [|e0 l0] eqn:E; [done|]. rewrite <- E in *.
      rewrite Hti, Hei, Z.geb_leb in Emove.
      destruct (Z.ltb_spec (Z.of_nat ti - 1) 0); [|done].
      destruct (Z.leb_spec 0 (Z.of_nat ei - 1)); [|done].
      destruct ei as [|ei]; [lia|].
      destruct (lookup_lt_is_Some_2 (entities s) ei) as [e' He'].
      { apply lookup_lt_Some in He. lia. }
      replace (Z.of_nat (S ei) - 1) with (Z.of_nat ei) in Emove by lia.
      by rewrite (getitem_lookup _ _ _ He') in Emove. }
  exists s1. pose proof (move_cursor_backward_settings _ _ Emove) as Hsame.
  unfold move_cursor_backward in Emove.
  destruct (entities s) as [|e0 l0] eqn:E; [done|]. rewrite <- E in *.
  rewrite Hti, Hei, Z.geb_leb in Emove.
  destruct (Z.ltb_spec (Z.of_nat ti - 1) 0) as [Hneg|Hpos].
  - assert (ti = 0%nat) as -> by lia.
    destruct (Z.leb_spec 0 (Z.of_nat ei - 1)) as [Hprev|Hfirst].
    + destruct ei as [|ei]; [lia|].
      destruct (lookup_lt_is_Some_2 (entities s) ei) as [e' He'].
      { apply lookup_lt_Some in He. lia. }
      replace (Z.of_nat (S ei) - 1) with (Z.of_nat ei) in Emove by lia.
      rewrite (getitem_lookup _ _ _ He') in Emove. simpl in Emove.
      injection Emove as <-.
      assert (heap e' <> []) as Hne'
        by (apply Hne; by eapply list_elem_of_lookup_2).
      eexists. split; [done|]. split; [done|].
      split; [by apply (positions_back_record _ _ _ e')|]. right.
      exists ei, (length (heap e') - 1)%nat, e'. split; [|done].
      repeat split; simpl; try done.
      * unfold len. destruct (heap e'); [done|]. simpl length. lia.
      * destruct (heap e'); [done|]. simpl. lia.
    + injection Emove as <-. assert (ei = 0%nat) as -> by lia.
      eexists. split; [done|]. split; [done|].
      split; [by apply positions_back_first|]. by left.
  - injection Emove as <-. destruct ti as [|ti]; [lia|].
    eexists. split; [done|]. split; [done|].
    split; [by apply positions_back_tag|]. right.
    exists ei, ti, e. split; [|done].
    repeat split; simpl; try done; lia.
Qed.

Lemma positions_from_all (l : list ObjRef) :
  positions_from l 0 0 = concat (map (fun e => entity_positions e 0) l).
Proof. unfold positions_from. rewrite drop_0. by destruct l. Qed.

Lemma rev_concat_map {A B} (f : A -> list B) (l : list A) :
  rev (concat (map f l)) = concat (map (fun x => rev (f x)) (rev l)).
Proof.
  induction l as [|x l IH]; [done|]. simpl.
  rewrite rev_app_distr, IH, map_app, concat_app. simpl.
  by rewrite app_nil_r.
Qed.

(** From the last tag of the last record, the positions back are all
    positions, in reverse file order. *)
Lemma positions_back_all (l : list ObjRef) (e : ObjRef) :
  last l = Some e -> heap e <> [] ->
  positions_back l (length l - 1) (length (heap e) - 1)
  = rev (positions_from l 0 0).
Proof.
  intros Hlast Hne. destruct (last_Some_length _ _ Hlast) as [He Hlen].
  rewrite positions_from_all, rev_concat_map. unfold positions_back. rewrite He.
  replace (S (length (heap e) - 1)) with (length (heap e))
    by (destruct (heap e); [done|simpl; lia]).
  set (init := take (length l - 1) l).
  assert (l = init ++ [e]) as Hl.
  { subst init. rewrite <- (take_S_r _ _ _ He).
    replace (S (length l - 1)) with (length l) by lia. by rewrite take_ge. }
  rewrite Hl, rev_app_distr. cbn [rev app map concat].
  unfold entity_positions.
  by rewrite Nat.sub_0_r, (map_rev (fun i => (e, Z.of_nat i))).
Qed.

Lemma reset_search_term_settings (self : t) (term : string) (backward : bool) :
  same_settings (reset_search_term self term)
    (reset_cursor (reset_search_term self term) backward).
Proof.
  unfold reset_cursor. simpl.
  destruct (last (entities self)); [destruct backward|]; by repeat split.
Qed.

(** X16. [find(term)] from the start of the index, and [find(term,
    reset_index=False)] from a cursor at a tag, over loaded records and with
    a search term that is not empty: the result is the first tag in file
    order, from the cursor on, that matches, and NOT_FOUND, with the end of
    the index reached, when none matches. *)
Theorem SearchIndex_find_forward_first (self : t) (term : string) (fuel : nat) :
  loaded (entities self) -> term <> EmptyString ->
  ((length (positions_from (entities self) 0 0) <= fuel)%nat ->
   exists self',
     find fuel self term false true
     = Some (Ok (first_match (reset_search_term self term)
                   (positions_from (entities self) 0 0), self')) /\
     (first_match (reset_search_term self term)
        (positions_from (entities self) 0 0) = NOT_FOUND ->
      _end_of_index self' = true)) /\
  (forall (ei ti : nat) (e : ObjRef),
     cursor_at self ei ti e ->
     (length (positions_from (entities self) ei ti) <= fuel)%nat ->
     exists self',
       find fuel self term false false
       = Some (Ok (first_match (reset_search_term self term)
                     (positions_from (entities self) ei ti), self')) /\
       (first_match (reset_search_term self term)
          (positions_from (entities self) ei ti) = NOT_FOUND ->
        _end_of_index self' = true)).
Proof.
  intros Hl Hterm. split.
  - intros Hfuel. unfold find.
    set (s0 := reset_search_term self term).
    pose proof (reset_search_term_settings self term false) as Hsame.
    fold s0 in Hsame. set (s1 := reset_cursor s0 false) in *.
    destruct (entities self) as [|e0 l0] eqn:E.
    { exists s1. subst s1 s0. unfold reset_cursor. simpl.
      repeat (rewrite E; simpl). by split. }
    assert (entities s1 = e0 :: l0) as E1 by (by rewrite <- (proj1 Hsame)).
    assert (cursor_at s1 0 0 e0) as Hc.
    { subst s1 s0. unfold reset_cursor. simpl. rewrite E.
      destruct (last_cons_is_Some e0 l0) as [x ->]. repeat split; simpl.
      - by rewrite E.
      - assert (heap e0 <> []) as Hne by (apply Hl; apply elem_of_cons; by left).
        destruct (heap e0); [done|]. simpl. lia. }
    rewrite E1. rewrite (proj1 Hc). simpl.
    unfold find_forward, _find. rewrite E1, (proj1 Hc).
    assert (truthy (_search_term s1) = true) as ->.
    { destruct Hsame as (_ & <- & _). simpl. by destruct term. }
    simpl.
    destruct (find_loop_scan move_cursor_forward positions_from forward_visit
                (positions_from (e0 :: l0) 0 0) s1 0%nat 0%nat e0 fuel)
      as (s' & Hfind & _ & Hnf);
      [by rewrite E1| |..|by rewrite E1|done|].
    + destruct Hsame as (_ & <- & _). by eexists.
    + destruct Hsame as (_ & _ & <- & _). by eexists.
    + done.
    + exists s'. rewrite (first_match_settings s0 s1) by done. by split.
  - intros ei ti e Hc Hfuel. unfold find.
    set (s0 := reset_search_term self term).
    assert (cursor_at s0 ei ti e) as Hc0 by done.
    destruct (entities s0) as [|e0 l0] eqn:E.
    { destruct Hc as (_ & _ & _ & He & _). simpl in E. by rewrite E in He. }
    rewrite (proj1 Hc0). simpl. unfold find_forward, _find.
    rewrite E, (proj1 Hc0).
    assert (truthy (_search_term s0) = true) as -> by (simpl; by destruct term).
    simpl.
    destruct (find_loop_scan move_cursor_forward positions_from forward_visit
                (positions_from (entities self) ei ti) s0 ei ti e fuel)
      as (s' & Hfind & _ & Hnf); [done|by eexists|by eexists|done|done|done|].
    exists s'. by split.
Qed.

(** X17. [find(term, backward=True)] from the end of the index, and
    [find(term, backward=True, reset_index=False)] from a cursor at a tag,
    over loaded records and with a search term that is not empty: the
    result is the last tag in file order, from the cursor back, that
    matches, and NOT_FOUND, with the end of the index reached, when none
    matches. *)
Theorem SearchIndex_find_backward_last (self : t) (term : string) (fuel : nat) :
  loaded (entities self) -> term <> EmptyString ->
  ((length (positions_from (entities self) 0 0) <= fuel)%nat ->
   exists self',
     find fuel self term true true
     = Some (Ok (first_match (reset_search_term self term)
                   (rev (positions_from (entities self) 0 0)), self')) /\
     (first_match (reset_search_term self term)
        (rev (positions_from (entities self) 0 0)) = NOT_FOUND ->
      _end_of_index self' = true)) /\
  (forall (ei ti : nat) (e : ObjRef),
     cursor_at self ei ti e ->
     (length (positions_back (entities self) ei ti) <= fuel)%nat ->
     exists self',
       find fuel self term true false
       = Some (Ok (first_match (reset_search_term self term)
                     (positions_back (entities self) ei ti), self')) /\
       (first_match (reset_search_term self term)
          (positions_back (entities self) ei ti) = NOT_FOUND ->
        _end_of_index self' = true)).
Proof.
  intros Hl Hterm. split.
  - intros Hfuel. unfold find.
    set (s0 := reset_search_term self term).
    pose proof (reset_search_term_settings self term true) as Hsame.
    fold s0 in Hsame. set (s1 := reset_cursor s0 true) in *.
    destruct (entities self) as [|e0 l0] eqn:E.
    { exists s1. subst s1 s0. unfold reset_cursor. simpl.
      repeat (rewrite E; simpl). by split. }
    assert (entities s1 = e0 :: l0) as E1 by (by rewrite <- (proj1 Hsame)).
    destruct (last_cons_is_Some e0 l0) as [x Hx].
    destruct (last_Some_length _ _ Hx) as [Hxl Hlen].
    assert (heap x <> []) as Hne.
    { apply Hl. by eapply list_elem_of_lookup_2. }
    assert (cursor_at s1 (length (e0 :: l0) - 1) (length (heap x) - 1) x) as Hc.
    { subst s1 s0. unfold reset_cursor. simpl. rewrite E, Hx.
      repeat split; simpl.
      - lia.
      - unfold len. destruct (heap x); [done|]. simpl length. lia.
      - by rewrite E.
      - destruct (heap x); [done|]. simpl. lia. }
    rewrite E1. rewrite (proj1 Hc). simpl.
    unfold find_backwards, _find. rewrite E1, (proj1 Hc).
    assert (truthy (_search_term s1) = true) as ->.
    { destruct Hsame as (_ & <- & _). simpl. by destruct term. }
    simpl.
    destruct (find_loop_scan move_cursor_backward positions_back backward_visit
                (rev (positions_from (e0 :: l0) 0 0)) s1
                (length (e0 :: l0) - 1)%nat (length (heap x) - 1)%nat x fuel)
      as (s' & Hfind & _ & Hnf).
    + by rewrite E1.
    + destruct Hsame as (_ & <- & _). by eexists.
    + destruct Hsame as (_ & _ & <- & _). by eexists.
    + done.
    + rewrite E1. by apply positions_back_all.
    + by rewrite length_rev.
    + exists s'. rewrite (first_match_settings s0 s1) by done. by split.
  - intros ei ti e Hc Hfuel. unfold find.
    set (s0 := reset_search_term self term).
    assert (cursor_at s0 ei ti e) as Hc0 by done.
    destruct (entities s0) as [|e0 l0] eqn:E.
    { destruct Hc as (_ & _ & _ & He & _). simpl in E. by rewrite E in He. }
    rewrite (proj1 Hc0). simpl. unfold find_backwards, _find.
    rewrite E, (proj1 Hc0).
    assert (truthy (_search_term s0) = true) as -> by (simpl; by destruct term).
    simpl.
    destruct (find_loop_scan move_cursor_backward positions_back backward_visit
                (positions_back (entities self) ei ti) s0 ei ti e fuel)
      as (s' & Hfind & _ & Hnf); [done|by eexists|by eexists|done|done|done|].
    exists s'. by split.
Qed.

Lemma find_loop_sound (move_cursor : t -> result t) (fuel : nat) :
  (forall a b, move_cursor a = Ok b -> same_settings a b) ->
  forall (s s' : t) (r : option ObjRef) (i : Z),
    find_loop fuel move_cursor s = Some (Ok ((r, i), s')) ->
    same_settings s s' /\
    match r with
    | Some e => e ∈ entities s /\ position_matches s (e, i) = true
    | None => i = -1
    end.
Proof.
  intros Hmove. induction fuel as [|fuel IH]; intros s s' r i; simpl.
  - destruct (_end_of_index s); [|done]. intros [= <- <- <-]. by repeat split.
  - destruct (_end_of_index s); [intros [= <- <- <-]; by repeat split|].
    destruct (current_entity s) as [[e j]|] eqn:Ecur; [|done].
    destruct (move_cursor s) as [s1|] eqn:Em; [|done].
    destruct e as [e|]; [|done].
    destruct (getitem (heap e) j) as [tag|] eqn:Eg; [|done].
    pose proof (Hmove _ _ Em) as Hsame.
    assert (e ∈ entities s) as Hin.
    { unfold current_entity in Ecur. destruct (entities s) eqn:E; [by injection Ecur|].
      destruct (_end_of_index s); [by injection Ecur|].
      destruct (getitem (n :: l) _) as [x|] eqn:Ex; [|done].
      simpl in Ecur. injection Ecur as -> _. by apply getitem_Ok in Ex as [? _]. }
    destruct (_match s1 (code tag) (value tag)) as [[|]|] eqn:Ematch; [| |done].
    + intros [= <- <- <-]. split; [done|]. split; [done|].
      unfold position_matches. simpl. rewrite Eg.
      by rewrite (match_settings s s1), Ematch.
    + intros Hfind. destruct (IH _ _ _ _ Hfind) as [Hsame1 Hr].
      split; [by eapply same_settings_trans|].
      destruct r as [x|]; [|done]. destruct Hr as [Hx Hpm].
      split; [by rewrite (proj1 Hsame)|].
      by rewrite (position_matches_settings s s1).
Qed.

(** X18. A record that [find] returns, in whatever direction and from
    whatever cursor, is a record of the index, and the tag at the returned
    tag index matches the search term under the settings of the index; a
    result without a record has the tag index -1. The search changes
    neither the records nor the settings. *)
Theorem SearchIndex_find_sound (self self' : t) (term : string)
    (backward reset_index : bool) (fuel : nat) (r : option ObjRef) (i : Z) :
  find fuel self term backward reset_index = Some (Ok ((r, i), self')) ->
  same_settings (reset_search_term self term) self' /\
  match r with
  | Some e =>
      e ∈ entities self /\ position_matches (reset_search_term self term) (e, i) = true
  | None => i = -1
  end.
Proof.
  unfold find. set (s0 := reset_search_term self term).
  set (s1 := if reset_index then _ else _).
  assert (same_settings s0 s1) as Hsame.
  { subst s1. destruct reset_index; [apply reset_search_term_settings|].
    by repeat split. }
  assert (forall s', same_settings s1 s' /\
                     match r with
                     | Some e => e ∈ entities s1 /\ position_matches s1 (e, i) = true
                     | None => i = -1
                     end ->
                     same_settings s0 s' /\
                     match r with
                     | Some e => e ∈ entities self /\ position_matches s0 (e, i) = true
                     | None => i = -1
                     end) as Hback.
  { intros s' [H1 H2]. split; [by eapply same_settings_trans|].
    destruct r as [e|]; [|done]. destruct H2 as [He Hpm].
    split; [by rewrite <- (proj1 Hsame) in He|].
    by rewrite (position_matches_settings s0 s1). }
  assert (Some (Ok (NOT_FOUND, s1)) = Some (Ok ((r, i), self')) ->
          same_settings s0 self' /\
          match r with
          | Some e => e ∈ entities self /\ position_matches s0 (e, i) = true
          | None => i = -1
          end) as Hnf.
  { intros [= <- <- <-]. by split. }
  destruct (entities s1) eqn:E1; [done|].
  destruct (_end_of_index s1) eqn:Ee; simpl; [done|].
  unfold find_backwards, find_forward, _find. rewrite E1, Ee.
  destruct (truthy (_search_term s1)); simpl; [|by destruct backward].
  rewrite <- E1 in Hback. destruct backward; intros Hfind; apply Hback.
  - by apply (find_loop_sound move_cursor_backward fuel
                move_cursor_backward_settings).
  - by apply (find_loop_sound move_cursor_forward fuel
                move_cursor_forward_settings).
Qed.

Lemma find_more_fuel (self : t) (term : string) (backward reset_index : bool)
    (fuel fuel' : nat) (r : result ((option ObjRef * Z) * t)) :
  (fuel <= fuel')%nat ->
  find fuel self term backward reset_index = Some r ->
  find fuel' self term backward reset_index = Some r.
Proof.
  intros Hle. unfold find. set (s1 := if reset_index then _ else _).
  destruct (entities s1) eqn:E1; [done|].
  destruct (_end_of_index s1); simpl; [done|].
  unfold find_backwards, find_forward, _find. rewrite E1.
  destruct (truthy (_search_term s1) && _); [|by destruct backward].
  destruct backward; by apply find_loop_more_fuel.
Qed.

(** X19. [find] ends, whatever the records, the cursor and the settings:
    there is one outcome, a result or an exception, that every run of at
    least [enough_fuel] iterations gives. *)
Theorem SearchIndex_find_terminates (self : t) (term : string)
    (backward reset_index : bool) :
  exists r, forall fuel,
    (enough_fuel self <= fuel)%nat ->
    find fuel self term backward reset_index = Some r.
Proof.
  destruct (find_total self term backward reset_index (enough_fuel self)) as [r Hr];
    [done|].
  exists r. intros fuel Hle. by apply (find_more_fuel _ _ _ _ (enough_fuel self)).
Qed.

Lemma set_cursor_cursor (s : t) :
  set_cursor s (_current_entity_index s) (_current_tag_index s) = s.
Proof. by destruct s. Qed.

(** X20. From a cursor at a tag, a move forward that does not reach the end
    of the index is undone by a move backward, and a move backward that
    does not reach the end is undone by a move forward. *)
Theorem SearchIndex_moves_inverse (s s1 : t) (ei ti : nat) (e : ObjRef) :
  cursor_at s ei ti e ->
  _end_of_index s1 = false ->
  (move_cursor_forward s = Ok s1 -> move_cursor_backward s1 = Ok s) /\
  (move_cursor_backward s = Ok s1 -> move_cursor_forward s1 = Ok s).
Proof.
  intros (Hend & Hei & Hti & He & Hlt) Hend1.
  pose proof (lookup_lt_Some _ _ _ He) as Hlen.
  pose proof (getitem_lookup _ _ _ He) as Hg.
  rewrite <- (set_cursor_cursor s) at 2 4. rewrite Hei, Hti.
  destruct (entities s) as [|e0 l0] eqn:E; [done|]. rewrite <- E in *.
  split.
  - unfold move_cursor_forward. rewrite E, <- E, Hei, Hg. simpl.
    rewrite Z.geb_leb, Hti. unfold len.
    destruct (Z.leb_spec (Z.of_nat (length (heap e))) (Z.of_nat ti + 1)).
    + destruct (Z.ltb_spec (Z.of_nat ei + 1) (Z.of_nat (length (entities s))));
        intros [= <-]; [|simpl in Hend1; congruence].
      unfold move_cursor_backward. simpl. rewrite E, <- E. simpl.
      replace (Z.of_nat ei + 1 - 1) with (Z.of_nat ei) by lia.
      rewrite (proj2 (Z.geb_le _ _)) by lia. rewrite Hg. simpl.
      unfold len. do 2 f_equal. lia.
    + intros [= <-]. unfold move_cursor_backward. simpl. rewrite E, <- E.
      rewrite (proj2 (Z.ltb_ge _ _)) by lia. do 2 f_equal. lia.
  - unfold move_cursor_backward. rewrite E, <- E, Hei, Hti.
    destruct (Z.ltb_spec (Z.of_nat ti - 1) 0).
    + rewrite Z.geb_leb. destruct (Z.leb_spec 0 (Z.of_nat ei - 1));
        [|intros [= <-]; simpl in Hend1; congruence].
      destruct ei as [|ei]; [lia|].
      destruct (lookup_lt_is_Some_2 (entities s) ei ltac:(lia)) as [e' He'].
      replace (Z.of_nat (S ei) - 1) with (Z.of_nat ei) by lia.
      rewrite (getitem_lookup _ _ _ He'). simpl. intros [= <-].
      unfold move_cursor_forward. simpl. rewrite E, <- E.
      rewrite (getitem_lookup _ _ _ He'). simpl.
      rewrite (proj2 (Z.geb_le _ _)) by lia.
      rewrite (proj2 (Z.ltb_lt _ _)) by lia.
      do 2 f_equal; lia.
    + intros [= <-]. unfold move_cursor_forward. simpl. rewrite E, <- E, Hg. simpl.
      rewrite Z.geb_leb, (proj2 (Z.leb_gt _ _)) by (unfold len; lia).
      do 2 f_equal. lia.
Qed.

Lemma list_index_Some (e : ObjRef) (l : list ObjRef) (n : nat) (x : ObjRef) :
  l !! n = Some x -> entity_eq x e = true ->
  (forall j y, (j < n)%nat -> l !! j = Some y -> entity_eq y e = false) ->
  list_index e l = Some (Z.of_nat n).
Proof.
  revert n. induction l as [|a l IH]; intros n Hx Heq Hbefore; [done|].
  destruct n as [|n]; simpl in *.
  - injection Hx as ->. by rewrite Heq.
  - rewrite (Hbefore 0%nat a) by (done || lia).
    rewrite (IH n Hx Heq); [simpl; f_equal; lia|].
    intros j y Hj Hy. apply (Hbefore (S j) y); [lia|done].
Qed.

Lemma list_index_None (e : ObjRef) (l : list ObjRef) :
  (forall x, x ∈ l -> entity_eq x e = false) -> list_index e l = None.
Proof.
  induction l as [|a l IH]; intros Hall; [done|]. simpl.
  rewrite (Hall a) by (apply elem_of_cons; by left).
  rewrite IH; [done|]. intros x Hx. apply Hall, elem_of_cons. by right.
Qed.

(** X21. [update_entities(entities)] with the cursor at a tag of a record:
    the cursor goes to the first record of the new list that is equal to
    this record, at the same tag index; without such a record the cursor is
    reset to the start, and the end of the index is reached when the new
    list is empty. After the end of the index, or without records, only the
    list is replaced: cursor and end stay as they are. *)
Theorem SearchIndex_update_entities (self : t) (ents : list ObjRef) :
  (forall (ei ti : nat) (e : ObjRef),
     cursor_at self ei ti e ->
     exists self',
       update_entities self ents = Ok self' /\
       entities self' = ents /\
       same_settings (set_entities self ents) self' /\
       (forall (n : nat) (x : ObjRef),
          ents !! n = Some x -> entity_eq x e = true ->
          (forall j y, (j < n)%nat -> ents !! j = Some y -> entity_eq y e = false) ->
          cursor self' = (Z.of_nat n, Z.of_nat ti) /\ _end_of_index self' = false) /\
       ((forall x, x ∈ ents -> entity_eq x e = false) ->
        cursor self' = (0, 0) /\ _end_of_index self' = bool_decide (ents = []))) /\
  (entities self = [] \/ _end_of_index self = true ->
   update_entities self ents = Ok (set_entities self ents)).
Proof.
  split.
  - intros ei ti e Hc.
    assert (forall x, x ∈ [e] -> heap x <> []) as Hne.
    { intros x ->%list_elem_of_singleton. destruct Hc as (_ & _ & _ & _ & Hlt).
      destruct (heap e); [simpl in Hlt; lia|done]. }
    assert (current_entity self = Ok (Some e, Z.of_nat ti)) as Hcur.
    { destruct Hc as (Hend & Hei & Hti & He & Hlt).
      pose proof (getitem_lookup _ _ _ He) as Hg. unfold current_entity.
      destruct (entities self) eqn:E; [done|]. by rewrite Hend, Hei, Hg, Hti. }
    unfold update_entities. rewrite Hcur. simpl.
    destruct (heap e) as [|tag tags] eqn:Eh.
    { exfalso. apply (Hne e); [by apply list_elem_of_singleton|done]. }
    eexists. split; [reflexivity|]. unfold set_current_entity. simpl.
    destruct Hc as (Hend & _).
    destruct (list_index e ents) as [i|] eqn:Ei.
    + split; [done|]. split; [by repeat split|]. split.
      * intros n x Hx Heq Hbefore.
        rewrite (list_index_Some e ents n x Hx Heq Hbefore) in Ei.
        injection Ei as <-. by split.
      * intros Hall. by rewrite (list_index_None e ents Hall) in Ei.
    + unfold reset_cursor. simpl.
      destruct (last ents) as [x|] eqn:El; simpl.
      * split; [done|]. split; [by repeat split|]. split.
        -- intros n x' Hx Heq Hbefore.
           by rewrite (list_index_Some e ents n x' Hx Heq Hbefore) in Ei.
        -- intros _. split; [done|]. destruct ents; [done|].
           symmetry. by apply bool_decide_eq_false.
      * split; [done|]. split; [by repeat split|]. split.
        -- intros n x' Hx Heq Hbefore.
           by rewrite (list_index_Some e ents n x' Hx Heq Hbefore) in Ei.
        -- intros _. split; [done|]. apply last_None in El. subst ents.
           done.
  - intros Hend. unfold update_entities, current_entity.
    destruct (entities self) as [|e0 l0]; [done|].
    destruct Hend as [?| ->]; done.
Qed.

Lemma prefix_contains (p s : string) :
  String.prefix p s = true -> str_contains p s = true.
Proof. intros H. destruct s; simpl in *; by rewrite H. Qed.

Lemma contains_cons (w : string) (c : ascii) (s : string) :
  str_contains w s = true -> str_contains w (String c s) = true.
Proof. intros H. simpl. rewrite H. apply orb_true_r. Qed.

Lemma append_snoc (word : string) (c : ascii) (p : string) :
  (word +:+ String c EmptyString) +:+ p = word +:+ String c p.
Proof.
  induction word as [|a word IH]; [done|].
  change (String a ((word +:+ String c EmptyString) +:+ p)
          = String a (word +:+ String c p)).
  by rewrite IH.
Qed.

Lemma append_empty (word : string) : word +:+ EmptyString = word.
Proof.
  induction word as [|a word IH]; [done|].
  change (String a (word +:+ EmptyString) = String a word). by rewrite IH.
Qed.

(** A word of [s.split()] is a part of [s]: it ends the word that was
    begun and starts the rest, or it is inside the rest. *)
Lemma split_from_contains (s word w : string) :
  In w (split_from word s) ->
  (exists p, w = word +:+ p /\ String.prefix p s = true) \/ str_contains w s = true.
Proof.
  revert word. induction s as [|c s IH]; intros word; simpl.
  - destruct word; simpl; [done|]. intros [<-|[]]. left. exists EmptyString.
    by rewrite append_empty.
  - destruct (is_space c).
    + assert (In w (split_from EmptyString s) -> str_contains w (String c s) = true)
        as Hrest.
      { intros Hin. apply contains_cons.
        destruct (IH _ Hin) as [(p & -> & Hp)|H]; [|done].
        by apply prefix_contains. }
      destruct word; simpl; [by right; apply Hrest|].
      intros [<-|Hin]; [|by right; apply Hrest].
      left. exists EmptyString. by rewrite append_empty.
    + intros Hin. destruct (IH _ Hin) as [(p & -> & Hp)|H].
      * left. exists (String c p). rewrite append_snoc. split; [done|].
        by destruct (ascii_dec c c).
      * right. by apply contains_cons.
Qed.

Lemma split_contains (s w : string) : In w (split s) -> str_contains w s = true.
Proof.
  intros Hin. destruct (split_from_contains s EmptyString w Hin) as [(p & -> & Hp)|H];
    [|done].
  by apply prefix_contains.
Qed.

(** X22. A tag that matches the search term as a whole word also matches
    it without the whole word setting, the other settings being the
    same. *)
Theorem SearchIndex_whole_word_is_substring (self : t) (c : Z) (v : Value) :
  whole_words self = true ->
  _match self c v = Ok true ->
  _match (set_whole_words self false) c v = Ok true.
Proof.
  intros Hw. unfold _match. simpl. rewrite Hw.
  destruct (negb _ && negb _); [done|].
  set (v' := if match tag_type c with type_str => true | _ => false end
             then v else VStr (str v)).
  assert (forall (st : option string) (s : string),
            existsb (term_eq st) (split s) = true ->
            match st with
            | Some term => Ok (str_contains term s)
            | None => Raise TypeError
            end = Ok true) as Hword.
  { intros st s [w [Hin Heq]]%existsb_exists. destruct st as [term|]; [|done].
    simpl in Heq. apply String.eqb_eq in Heq as ->.
    by rewrite (split_contains s w Hin). }
  destruct (case_insensitive self).
  - destruct v' as [s| |]; simpl; try done.
    intros [= H]. by apply Hword.
  - simpl. destruct v' as [s| |]; simpl; try done.
    intros [= H]. by apply Hword.
Qed.

End SearchMore.

Section SearchOrderChecks.
#[local] Existing Instance Sample.lldxf.
#[local] Existing Instance Sample.three_records.
Import SearchIndex.

Lemma three_records_loaded : loaded [0; 1; 2]%nat.
Proof.
  intros entity Hin.
  repeat (apply elem_of_cons in Hin as [->|Hin]);
    [..|by apply elem_of_nil in Hin];
    (split; [done|]); intros tag Htag; simpl in Htag;
    repeat (apply elem_of_cons in Htag as [->|Htag]);
    try (by apply elem_of_nil in Htag);
    intros Htype; first [vm_compute in Htype; discriminate|by eexists].
Qed.

Lemma SearchIndex_find_forward_first_witness :
  exists self',
    find 9 (new [0; 1; 2]%nat) "1f" false true = Some (Ok ((Some 1%nat, 1), self')).
Proof.
  destruct (proj1 (SearchIndex_find_forward_first (new [0; 1; 2]%nat) "1f" 9
                     three_records_loaded ltac:(done)) ltac:(vm_compute; lia))
    as (self' & Hfind & _).
  exists self'. exact Hfind.
Defined.

Lemma SearchIndex_find_backward_last_witness :
  exists self',
    find 9 (new [0; 1; 2]%nat) "0" true true = Some (Ok ((Some 2%nat, 2), self')).
Proof.
  destruct (proj1 (SearchIndex_find_backward_last (new [0; 1; 2]%nat) "0" 9
                     three_records_loaded ltac:(done)) ltac:(vm_compute; lia))
    as (self' & Hfind & _).
  exists self'. exact Hfind.
Defined.

(** The same search forward stops at the handle 20, one tag earlier. *)
Example find_forward_0 :
  exists self',
    find 9 (new [0; 1; 2]%nat) "0" false true = Some (Ok ((Some 2%nat, 1), self')).
Proof. eexists. vm_compute. reflexivity. Qed.

Lemma SearchIndex_find_sound_witness :
  same_settings (reset_search_term (new [0; 1; 2]%nat) "1f")
    (set_cursor (reset_search_term (new [0; 1; 2]%nat) "1f") 2 0) /\
  1%nat ∈ [0; 1; 2]%nat /\
  position_matches (reset_search_term (new [0; 1; 2]%nat) "1f") (1%nat, 1) = true.
Proof.
  apply (SearchIndex_find_sound (new [0; 1; 2]%nat) _ "1f" false true 9
           (Some 1%nat) 1).
  vm_compute. reflexivity.
Defined.

Lemma SearchIndex_moves_inverse_witness :
  move_cursor_backward (set_cursor (new [0; 1; 2]%nat) 1 0)
  = Ok (set_cursor (new [0; 1; 2]%nat) 0 2).
Proof.
  apply (SearchIndex_moves_inverse (set_cursor (new [0; 1; 2]%nat) 0 2)
           (set_cursor (new [0; 1; 2]%nat) 1 0) 0 2 0%nat).
  - repeat split; simpl; lia.
  - reflexivity.
  - reflexivity.
Defined.

Lemma SearchIndex_whole_word_is_substring_witness :
  _match (set_whole_words
            (set_whole_words (reset_search_term (new []) "line") true) false)
    0 (VStr "a LINE here") = Ok true.
Proof.
  apply (SearchIndex_whole_word_is_substring
           (set_whole_words (reset_search_term (new []) "line") true)).
  - reflexivity.
  - vm_compute. reflexivity.
Defined.

(** The cursor of an index follows its record into a new list, and is reset
    when the record is not in it. *)
Example update_entities_follows :
  exists self',
    update_entities (set_cursor (new [0; 1; 2]%nat) 1 1) [2; 1]%nat = Ok self' /\
    cursor self' = (1, 1) /\
    exists self2,
      update_entities (set_cursor (new [0; 1; 2]%nat) 1 1) [2; 0]%nat = Ok self2 /\
      cursor self2 = (0, 0).
Proof. eexists. split; [vm_compute; reflexivity|]. split; [done|].
  eexists. split; [vm_compute; reflexivity|]. done. Qed.

End SearchOrderChecks.

(** ** HandleIndex: from a record to its handle and back *)

Section HandleRoundTrip.
Context {store : ObjectStore} {ezdxf : LLDXF}.
Import HandleIndex.

Lemma index_from_key (hs : list string) (k : nat) (d : list (string * EntryRef))
    (h : string) (i : EntryRef) :
  dict_get h (index_from k hs d) = Some i -> h ∈ hs \/ dict_get h d = Some i.
Proof.
  revert k d. induction hs as [|x hs IH]; intros k d; simpl; [by right|].
  intros Hd. destruct (IH _ _ Hd) as [Hin|Hset].
  - left. apply elem_of_cons. by right.
  - destruct (String.eqb_spec h x) as [->|Hne].
    + left. apply elem_of_cons. by left.
    + right. by rewrite dict_get_set_other in Hset.
Qed.

Lemma handles_from_upper (recs : list ObjRef) (d : Z) (h : string) :
  h ∈ handles_from d recs -> upper h = h.
Proof.
  revert d. induction recs as [|r recs IH]; intros d; simpl.
  - by intros ?%elem_of_nil.
  - intros [->|Hin]%elem_of_cons; [|by eapply IH].
    unfold assign_handle. destruct (Tags_get_handle (heap r)); simpl; apply upper_idemp.
Qed.

(** X23. Let every record of the mapping have a tag, the handles given to
    the records be pairwise distinct, every handle read from a record be in
    upper case already, and the first tags of the records be pairwise
    distinct objects. Then [get_handle] gives every record of the mapping a
    handle, the index contains this handle, and [get] of the handle is the
    record again. *)
Theorem HandleIndex_handle_round_trip (sections : SectionDict) :
  (forall r, r ∈ records sections -> heap r <> []) ->
  NoDup (map handle (entries (new sections))) ->
  (forall r h, r ∈ records sections -> Tags_get_handle (heap r) = Some h -> upper h = h) ->
  NoDup (map first_tag_id (records sections)) ->
  forall r, r ∈ records sections ->
    exists h,
      get_handle (new sections) r = Some h /\
      get (new sections) h = Some r /\
      contains (new sections) h = true.
Proof.
  intros H1 H2 H3 H4 r Hr. apply list_elem_of_lookup_1 in Hr as [i Hi].
  destruct (get_handle_resolves sections H1 H2 H3 H4 i r Hi) as (h & Hh & Hd).
  exists h. split; [done|].
  assert (upper h = h) as Hup.
  { rewrite new_index in Hd. unfold index_of in Hd.
    destruct (index_from_key _ _ _ _ _ Hd) as [Hin|Hnil]; [|done].
    by apply (handles_from_upper _ _ _ Hin). }
  unfold get, contains. rewrite Hup, Hd. split; [|done]. f_equal.
  rewrite new_entries, entries_of_deref_tags, layout_snd.
  by apply nth_lookup_Some.
Qed.

End HandleRoundTrip.

Section HandleRoundTripChecks.
#[local] Existing Instance Sample.lldxf.
#[local] Existing Instance Sample.three_records.

Lemma HandleIndex_handle_round_trip_witness :
  exists h,
    HandleIndex.get_handle (HandleIndex.new Sample.header_entities) 0%nat = Some h /\
    HandleIndex.get (HandleIndex.new Sample.header_entities) h = Some 0%nat /\
    HandleIndex.contains (HandleIndex.new Sample.header_entities) h = true.
Proof.
  apply (HandleIndex_handle_round_trip Sample.header_entities).
  - intros r Hr. unfold records, Sample.header_entities in Hr. simpl in Hr.
    repeat (apply elem_of_cons in Hr as [->|Hr]; [discriminate|]).
    by apply elem_of_nil in Hr.
  - apply (bool_decide_unpack _). vm_compute. exact I.
  - intros r h Hr. unfold records, Sample.header_entities in Hr. simpl in Hr.
    repeat (apply elem_of_cons in Hr as [->|Hr];
            [simpl; intros Hh; try discriminate; injection Hh as <-; reflexivity|]).
    by apply elem_of_nil in Hr.
  - apply (bool_decide_unpack _). vm_compute. exact I.
  - unfold records, Sample.header_entities. simpl. apply elem_of_cons. by left.
Defined.

(** The record without a handle, object 0, is found by its dummy handle. *)
Example dummy_handle_round_trip :
  HandleIndex.get_handle (HandleIndex.new Sample.header_entities) 0%nat = Some "*1"%string /\
  HandleIndex.get (HandleIndex.new Sample.header_entities) "*1" = Some 0%nat.
Proof. vm_compute. by split. Qed.

End HandleRoundTripChecks.
